(** * Truth-or-Dare room server: storage, socket handlers and timers

    A shallow embedding of [shared/schema.ts] (the record types),
    [server/storage.ts] (class [MemStorage]),
    [server/utils/rateLimiter.ts], [server/utils/fileUpload.ts]
    ([deleteFile], [deleteAllFilesInRoom]) and [server/routes.ts] (room
    creation, the socket handlers, [resolveVote], the inactivity and
    reconnect timers and the cleanup interval).

    Conventions.
    - A JavaScript [Map] is an insertion-ordered list of its values; every
      store of [MemStorage] is keyed by the [id] field of its records, so
      [get] is a search on that field, [set] on a present key rewrites the
      value in place and [delete] removes it.
    - [Date] values are integers (milliseconds). The skip counts come
      from the [maxSkips] of a request body, which is stored as sent: they
      are JavaScript numbers, IEEE-754 doubles ([float]), and [-] and [<=]
      on them are the operations of doubles. A body that has a [maxSkips]
      has a number there, and its [roomKey] and [username] are strings.
    - The upload directory is the list of the names of its files, which
      are regular files; the directory and its parent exist.
    - Handlers run to completion: every [await] of [MemStorage] resolves
      without yielding to another event or timer.
    - [setTimeout]/[clearTimeout] act on an explicit queue of pending
      timers; what a callback closes over is stored with the timer.
    - [socket.emit] and [io.to(room).emit] append to an outbox.
    - [Math.random()], [randomUUID()] and the connection's data are inputs
      of the handler that uses them. *)

From Stdlib Require Import PrimFloat.
From Stdlib Require Import ZArith List Ascii String Bool Lia DecimalString
  Permutation.
From Stdlib Require Sorted.
Import ListNotations.
Local Open Scope string_scope.
Local Open Scope Z_scope.

(** [a === b] on strings. *)
Local Infix "=s" := String.eqb (at level 70, no associativity).

(** ** shared/schema.ts *)

Inductive Phase := waiting | spinning | choosing | asking | answering.
Inductive Choice := truth | dare.
Inductive VoteType := kick | rejoin.

Definition Phase_eqb (p q : Phase) : bool :=
  match p, q with
  | waiting, waiting | spinning, spinning | choosing, choosing
  | asking, asking | answering, answering => true
  | _, _ => false
  end.

Module Room.
Record t := mk
  { id : string; roomKey : string; hostUserId : option string;
    maxSkips : float; createdAt : Z; lastActivity : Z; isExpired : bool }.
End Room.

Module User.
Record t := mk
  { id : string; username : string; roomId : option string;
    isHost : bool; isOnline : bool; skipsRemaining : float; joinedAt : Z;
    socketId : option string }.
End User.

Module Message.
Record t := mk
  { id : string; roomId : string; userId : option string;
    username : string; messageText : option string;
    mediaUrl : option string; mediaType : option string; createdAt : Z }.
End Message.

Module KickedUser.
Record t := mk
  { id : string; roomId : string; ipAddress : string; username : string;
    kickedAt : Z; rejoinAttempts : Z; lastRejoinAttempt : option Z;
    isPermanentlyBlocked : bool }.
End KickedUser.

Module GameState.
Record t := mk
  { id : string; roomId : string; currentTurnUserId : option string;
    targetUserId : option string; gamePhase : Phase;
    questionText : option string; choice : option Choice; updatedAt : Z }.
End GameState.

(** [Partial<GameState>] as the handlers build it: a field is either absent
    ([None]) or present with its (nullable) value. *)
Module Patch.
Record t := mk
  { currentTurnUserId : option (option string);
    targetUserId : option (option string);
    gamePhase : option Phase;
    questionText : option (option string);
    choice : option (option Choice) }.
Definition empty : t := mk None None None None None.
End Patch.

(** ** JavaScript helpers *)

(** Truthiness of a [string | undefined]. *)
Definition truthy (o : option string) : bool :=
  match o with
  | Some s => negb (s =s "")
  | None => false
  end.

(** [a === b] for two [string | null | undefined] values that are either
    both strings or distinguishable by being absent. *)
Definition opt_eqb (a b : option string) : bool :=
  match a, b with
  | Some x, Some y => x =s y
  | None, None => true
  | _, _ => false
  end.

(** [x || ''] *)
Definition or_empty (o : option string) : string :=
  match o with Some s => s | None => "" end.

(** [x || 0] for a [number | undefined]: zero, minus zero and NaN are
    falsy. *)
Definition or_zero (x : option float) : float :=
  match x with
  | Some k => if PrimFloat.eqb k k && negb (PrimFloat.eqb k 0) then k else 0%float
  | None => 0%float
  end.

(** [`${n}`] for an integer. *)
Definition string_of_Z (z : Z) : string := NilEmpty.string_of_int (Z.to_int z).

(** A draw of [Math.random()]: the rational [num/den]. *)
Record Rand := { num : Z; den : Z }.

Definition in_unit (r : Rand) : Prop := 0 <= num r < den r.

(** [Math.floor(Math.random() * n)] *)
Definition floor_mul (r : Rand) (n : nat) : nat :=
  Z.to_nat ((num r * Z.of_nat n) / den r).

Section JsArray.
Context {A : Type}.

(** [Array.prototype.findIndex] *)
Fixpoint findIndex (p : A -> bool) (l : list A) : Z :=
  match l with
  | [] => -1
  | x :: l' =>
      if p x then 0
      else let i := findIndex p l' in if i <? 0 then -1 else i + 1
  end.

(** [Array.prototype.sort(cmp)] is stable: an insertion sort that puts an
    element before the first later element it does not exceed. *)
Fixpoint insert_sorted (cmp : A -> A -> Z) (x : A) (l : list A) : list A :=
  match l with
  | [] => [x]
  | y :: l' =>
      if cmp x y <=? 0 then x :: y :: l' else y :: insert_sorted cmp x l'
  end.

Fixpoint sort (cmp : A -> A -> Z) (l : list A) : list A :=
  match l with
  | [] => []
  | x :: l' => insert_sorted cmp x (sort cmp l')
  end.

(** [Map.prototype.set] on a store keyed by [key]. *)
Fixpoint map_set (key : A -> string) (v : A) (l : list A) : list A :=
  match l with
  | [] => [v]
  | x :: l' =>
      if key x =s key v then v :: l' else x :: map_set key v l'
  end.

(** Mutation of the first stored object satisfying [p]. *)
Fixpoint update_first (p : A -> bool) (f : A -> A) (l : list A) : list A :=
  match l with
  | [] => []
  | x :: l' => if p x then f x :: l' else x :: update_first p f l'
  end.
End JsArray.

(** ** shared/schema.ts: rateLimits *)

Module RateLimit.
Record t := mk
  { id : string; ipAddress : string; actionType : string; count : Z;
    windowStart : Z }.
End RateLimit.

(** ** server/storage.ts: the rate-limit map of MemStorage

    The four methods that read and write [MemStorage.rateLimits], as
    functions on that map; they touch no other map of the class. *)

Module RateLimits.
Definition t := list RateLimit.t.

Definition getRateLimit (ipAddress actionType : string) (m : t)
    : option RateLimit.t :=
  find (fun rl => (RateLimit.ipAddress rl =s ipAddress)
                  && (RateLimit.actionType rl =s actionType)) m.

Definition createRateLimit (uuid : string) (now : Z)
    (ipAddress actionType : string) (m : t) : t :=
  map_set RateLimit.id (RateLimit.mk uuid ipAddress actionType 1 now) m.

Definition incrementRateLimit (id : string) (m : t) : t :=
  update_first (fun rl => RateLimit.id rl =s id)
    (fun rl => RateLimit.mk (RateLimit.id rl) (RateLimit.ipAddress rl)
                 (RateLimit.actionType rl) (RateLimit.count rl + 1)
                 (RateLimit.windowStart rl)) m.

Definition cleanupRateLimits (now olderThanMinutes : Z) (m : t) : t :=
  let cutoff := now - olderThanMinutes * 60 * 1000 in
  filter (fun rl => negb (RateLimit.windowStart rl <? cutoff)) m.
End RateLimits.

(** ** server/utils/rateLimiter.ts

    [checkRateLimit] on the rate-limit map of the storage. *)

Module RateLimiter.
Record RateLimitConfig := { windowMs : Z; maxRequests : Z }.

(** [rateLimitConfigs[actionType]] for the keys of the table; the callers
    pass these keys only. *)
Definition rateLimitConfigs (actionType : string) : option RateLimitConfig :=
  if actionType =s "room_creation" then Some {| windowMs := 60 * 60 * 1000; maxRequests := 5 |}
  else if actionType =s "chat_message" then Some {| windowMs := 60 * 1000; maxRequests := 10 |}
  else if actionType =s "file_upload" then Some {| windowMs := 60 * 1000; maxRequests := 3 |}
  else if actionType =s "vote" then Some {| windowMs := 5 * 60 * 1000; maxRequests := 3 |}
  else if actionType =s "rejoin" then Some {| windowMs := 3 * 60 * 1000; maxRequests := 1 |}
  else None.

Record Result := { allowed : bool; retryAfter : option Z }.

(** [Math.ceil(x / 1000)] on integers. *)
Definition ceil_div_1000 (x : Z) : Z := - ((- x) / 1000).

(** [uuid] is the [randomUUID()] a new record would take; [now] is
    [Date.now()]. *)
Definition checkRateLimit (uuid : string) (now : Z)
    (ipAddress actionType : string) (m : RateLimits.t)
    : Result * RateLimits.t :=
  match rateLimitConfigs actionType with
  | None => ({| allowed := true; retryAfter := None |}, m)
  | Some config =>
      match RateLimits.getRateLimit ipAddress actionType m with
      | None =>
          ({| allowed := true; retryAfter := None |},
           RateLimits.createRateLimit uuid now ipAddress actionType m)
      | Some existing =>
          let windowEnd := RateLimit.windowStart existing + windowMs config in
          if windowEnd <? now
          then ({| allowed := true; retryAfter := None |},
                RateLimits.createRateLimit uuid now ipAddress actionType m)
          else if maxRequests config <=? RateLimit.count existing
          then ({| allowed := false;
                   retryAfter := Some (ceil_div_1000 (windowEnd - now)) |}, m)
          else ({| allowed := true; retryAfter := None |},
                RateLimits.incrementRateLimit (RateLimit.id existing) m)
      end
  end.

Definition cleanupOldRateLimits (now : Z) (m : RateLimits.t) : RateLimits.t :=
  RateLimits.cleanupRateLimits now 60 m.

(** A run of checks for one address and action: each call with its
    [randomUUID()] and its time; the answers in order, and the final map. *)
Fixpoint checkAll (ipAddress actionType : string) (calls : list (string * Z))
    (m : RateLimits.t) : list bool * RateLimits.t :=
  match calls with
  | [] => ([], m)
  | (uuid, now) :: rest =>
      let '(r, m1) := checkRateLimit uuid now ipAddress actionType m in
      let '(rs, m2) := checkAll ipAddress actionType rest m1 in
      (allowed r :: rs, m2)
  end.
End RateLimiter.

(** ** server/storage.ts: MemStorage *)

Module MemStorage.
Record t := mk
  { rooms : list Room.t;
    users : list User.t;
    messages : list Message.t;
    kickedUsers : list KickedUser.t;
    gameStates : list GameState.t;
    rateLimits : RateLimits.t }.

Definition empty : t := mk [] [] [] [] [] [].

Definition with_rooms (x : list Room.t) (m : t) : t :=
  mk x (users m) (messages m) (kickedUsers m) (gameStates m) (rateLimits m).
Definition with_users (x : list User.t) (m : t) : t :=
  mk (rooms m) x (messages m) (kickedUsers m) (gameStates m) (rateLimits m).
Definition with_messages (x : list Message.t) (m : t) : t :=
  mk (rooms m) (users m) x (kickedUsers m) (gameStates m) (rateLimits m).
Definition with_kickedUsers (x : list KickedUser.t) (m : t) : t :=
  mk (rooms m) (users m) (messages m) x (gameStates m) (rateLimits m).
Definition with_gameStates (x : list GameState.t) (m : t) : t :=
  mk (rooms m) (users m) (messages m) (kickedUsers m) x (rateLimits m).
Definition with_rateLimits (x : RateLimits.t) (m : t) : t :=
  mk (rooms m) (users m) (messages m) (kickedUsers m) (gameStates m) x.

(** *** Rooms *)

Definition createRoom (uuid : string) (now : Z) (roomKey : string)
    (maxSkips : float) (hostUserId : string) (m : t) : t :=
  with_rooms
    (map_set Room.id
       (Room.mk uuid roomKey (Some hostUserId) maxSkips now now false)
       (rooms m)) m.

Definition getRoom (roomId : string) (m : t) : option Room.t :=
  find (fun r => Room.id r =s roomId) (rooms m).

Definition updateRoomActivity (now : Z) (roomId : string) (m : t) : t :=
  with_rooms
    (update_first (fun r => Room.id r =s roomId)
       (fun r => Room.mk (Room.id r) (Room.roomKey r) (Room.hostUserId r)
                   (Room.maxSkips r) (Room.createdAt r) now
                   (Room.isExpired r))
       (rooms m)) m.

Definition expireRoom (roomId : string) (m : t) : t :=
  with_rooms
    (update_first (fun r => Room.id r =s roomId)
       (fun r => Room.mk (Room.id r) (Room.roomKey r) (Room.hostUserId r)
                   (Room.maxSkips r) (Room.createdAt r)
                   (Room.lastActivity r) true)
       (rooms m)) m.

Definition updateRoomHost (roomId newHostUserId : string) (m : t) : t :=
  with_rooms
    (update_first (fun r => Room.id r =s roomId)
       (fun r => Room.mk (Room.id r) (Room.roomKey r) (Some newHostUserId)
                   (Room.maxSkips r) (Room.createdAt r)
                   (Room.lastActivity r) (Room.isExpired r))
       (rooms m)) m.

Definition getInactiveRooms (now minutesInactive : Z) (m : t) : list Room.t :=
  let cutoff := now - minutesInactive * 60 * 1000 in
  filter (fun r => negb (Room.isExpired r) && (Room.lastActivity r <? cutoff))
    (rooms m).

Definition deleteRoom (roomId : string) (m : t) : t :=
  with_rooms (filter (fun r => negb (Room.id r =s roomId)) (rooms m)) m.

(** *** Users *)

Definition createUser (uuid : string) (now : Z) (username roomId : string)
    (skipsRemaining : float) (socketId : string) (m : t) : t :=
  with_users
    (map_set User.id
       (User.mk uuid username (Some roomId) false true skipsRemaining now
          (Some socketId))
       (users m)) m.

Definition getUser (userId : string) (m : t) : option User.t :=
  find (fun u => User.id u =s userId) (users m).

Definition getUsersByRoom (roomId : string) (m : t) : list User.t :=
  filter (fun u => opt_eqb (User.roomId u) (Some roomId)) (users m).

Definition updateUserOnline (userId : string) (isOnline : bool)
    (socketId : option string) (m : t) : t :=
  with_users
    (update_first (fun u => User.id u =s userId)
       (fun u => User.mk (User.id u) (User.username u) (User.roomId u)
                   (User.isHost u) isOnline (User.skipsRemaining u)
                   (User.joinedAt u)
                   (match socketId with
                    | Some sid => Some sid
                    | None => User.socketId u
                    end))
       (users m)) m.

Definition updateUserSkips (userId : string) (skipsRemaining : float)
    (m : t) : t :=
  with_users
    (update_first (fun u => User.id u =s userId)
       (fun u => User.mk (User.id u) (User.username u) (User.roomId u)
                   (User.isHost u) (User.isOnline u) skipsRemaining
                   (User.joinedAt u) (User.socketId u))
       (users m)) m.

Definition deleteUser (userId : string) (m : t) : t :=
  with_users (filter (fun u => negb (User.id u =s userId)) (users m)) m.

Definition makeUserHost (userId : string) (m : t) : t :=
  with_users
    (update_first (fun u => User.id u =s userId)
       (fun u => User.mk (User.id u) (User.username u) (User.roomId u)
                   true (User.isOnline u) (User.skipsRemaining u)
                   (User.joinedAt u) (User.socketId u))
       (users m)) m.

(** *** Messages *)

Definition createMessage (uuid : string) (now : Z) (roomId : string)
    (userId : option string) (username : string)
    (messageText mediaUrl mediaType : option string) (m : t) : t :=
  with_messages
    (map_set Message.id
       (Message.mk uuid roomId userId username
          (if truthy messageText then messageText else None)
          (if truthy mediaUrl then mediaUrl else None)
          (if truthy mediaType then mediaType else None) now)
       (messages m)) m.

Definition getMessagesByRoom (roomId : string) (limit : nat) (m : t)
    : list Message.t :=
  rev (firstn limit
         (sort (fun a b => Message.createdAt b - Message.createdAt a)
            (filter (fun x => Message.roomId x =s roomId) (messages m)))).

Definition deleteMessagesByRoom (roomId : string) (m : t) : t :=
  with_messages
    (filter (fun x => negb (Message.roomId x =s roomId)) (messages m)) m.

(** *** Kicked users *)

Definition createKickedUser (uuid : string) (now : Z)
    (roomId ipAddress username : string) (m : t) : t :=
  with_kickedUsers
    (map_set KickedUser.id
       (KickedUser.mk uuid roomId ipAddress username now 0 None false)
       (kickedUsers m)) m.

(** *** Game state *)

Definition createGameState (uuid : string) (now : Z) (roomId : string)
    (m : t) : t :=
  with_gameStates
    (map_set GameState.id
       (GameState.mk uuid roomId None None waiting None None now)
       (gameStates m)) m.

Definition getGameState (roomId : string) (m : t) : option GameState.t :=
  find (fun g => GameState.roomId g =s roomId) (gameStates m).

Definition assign (now : Z) (p : Patch.t) (g : GameState.t) : GameState.t :=
  GameState.mk (GameState.id g) (GameState.roomId g)
    (match Patch.currentTurnUserId p with
     | Some v => v | None => GameState.currentTurnUserId g end)
    (match Patch.targetUserId p with
     | Some v => v | None => GameState.targetUserId g end)
    (match Patch.gamePhase p with
     | Some v => v | None => GameState.gamePhase g end)
    (match Patch.questionText p with
     | Some v => v | None => GameState.questionText g end)
    (match Patch.choice p with
     | Some v => v | None => GameState.choice g end)
    now.

Definition updateGameState (now : Z) (roomId : string) (updates : Patch.t)
    (m : t) : t :=
  with_gameStates
    (update_first (fun g => GameState.roomId g =s roomId)
       (assign now updates) (gameStates m)) m.
End MemStorage.

(** ** server/utils/fileUpload.ts *)

(** [path.basename]: the last non-empty segment between slashes. *)
Fixpoint basename_from (cur last : string) (s : string) : string :=
  match s with
  | EmptyString => if cur =s "" then last else cur
  | String c s' =>
      if Ascii.eqb c "/"%char
      then basename_from "" (if cur =s "" then last else cur) s'
      else basename_from (cur ++ String c "") last s'
  end.

Definition basename (s : string) : string := basename_from "" "" s.

(** The upload directory is the list of the names of its files, all of
    them regular files. Joined to the directory, the empty name and [.]
    lead to the directory itself and [..] to its parent: these exist and
    are directories, on which [fs.unlinkSync] throws. *)
Definition isDirectory (filename : string) : bool :=
  (filename =s "") || (filename =s ".") || (filename =s "..").

(** [None]: the call throws (nothing has been deleted). *)
Definition deleteFile (filename : string) (uploads : list string)
    : option (list string) :=
  if isDirectory filename then None
  else Some (filter (fun f => negb (f =s filename)) uploads).

(** How a call ended. *)
Inductive Ending := Returned | Threw.

(** The upload directory the call leaves, and how it ended: a throw of
    [deleteFile] ends the [forEach]. *)
Fixpoint deleteAllFilesInRoom (messages : list Message.t)
    (uploads : list string) : list string * Ending :=
  match messages with
  | [] => (uploads, Returned)
  | msg :: rest =>
      if truthy (Message.mediaUrl msg)
      then
        match deleteFile (basename (or_empty (Message.mediaUrl msg))) uploads with
        | Some uploads' => deleteAllFilesInRoom rest uploads'
        | None => (uploads, Threw)
        end
      else deleteAllFilesInRoom rest uploads
  end.

(** ** server/routes.ts: data *)

Module SocketData.
Record t := mk
  { userId : option string; roomId : option string;
    username : option string }.
Definition empty : t := mk None None None.
End SocketData.

(** A socket.io socket: its id, its [data] property and the address parts
    of its handshake. *)
Module Socket.
Record t := mk
  { id : string; data : SocketData.t;
    forwardedFor : option string; address : string }.
End Socket.

(** What the callbacks registered in one [io.on('connection')] call close
    over: the socket and the local [socketData]. *)
Module Conn.
Record t := mk { socket : Socket.t; socketData : SocketData.t }.
End Conn.

Module VoteData.
Record t := mk
  { voteId : string; targetUserId : string; targetUsername : string;
    initiatorUserId : string; initiatorUsername : string;
    type : VoteType; votes : list (string * bool); timer : option nat }.
End VoteData.

Inductive Event :=
| room_joined (user : option User.t) (room : option Room.t)
    (users : list User.t) (gameState : option GameState.t)
    (messages : list Message.t)
| user_joined (user : option User.t) (users : list User.t)
| new_message (message : option Message.t)
| error (message : string)
| bottle_spinning (targetUserId : string) (duration : Z) (spinnerUserId : option string)
| game_state_updated (gameState : option GameState.t)
| user_used_skip (userId : string) (username : option string)
    (skipsRemaining : float) (users : list User.t)
| next_turn_event (roomId : string)
| vote_started (voteId targetUserId targetUsername initiatorUsername : string)
    (type : VoteType)
| vote_updated (voteId : string) (yesCount noCount : nat)
| vote_resolved (voteId : string) (passed : bool) (yesVotes noVotes : nat)
| kicked_from_room (reason : string)
| user_left (userId : string) (users : list User.t)
| new_host (userId username : string)
| user_inactive (userId username : string).

Inductive Effect :=
| ToSocket (socketId : string) (e : Event)
| ToRoom (roomId : string) (e : Event)
| Join (socketId roomId : string)
| Leave (socketId roomId : string).

(** The callbacks handed to [setTimeout]/[setInterval], with what each
    closes over. *)
Inductive TimerAction :=
| SpinResolve (c : Conn.t) (roomId : string) (targetUser : User.t)
| VoteTimeout (c : Conn.t) (voteId roomId : string)
| InactivityWarn (c : Conn.t) (roomId userId username : string)
| InactivityKick (c : Conn.t) (roomId userId username : string)
| Reconnect (c : Conn.t)
| ClearReconnect (reconnectTimeout : nat)
| Cleanup.

Module Timer.
Record t := mk
  { handle : nat; due : Z; action : TimerAction; every : option Z }.
End Timer.

Module Server.
Record t := mk
  { now : Z;
    storage : MemStorage.t;
    uploads : list string;
    activeVotes : list VoteData.t;
    inactivityTimers : list (string * nat);
    timers : list Timer.t;
    nextTimer : nat;
    sockets : list Socket.t;
    outbox : list Effect }.

Definition with_now (x : Z) (s : t) : t :=
  mk x (storage s) (uploads s) (activeVotes s) (inactivityTimers s)
    (timers s) (nextTimer s) (sockets s) (outbox s).
Definition with_storage (x : MemStorage.t) (s : t) : t :=
  mk (now s) x (uploads s) (activeVotes s) (inactivityTimers s)
    (timers s) (nextTimer s) (sockets s) (outbox s).
Definition with_uploads (x : list string) (s : t) : t :=
  mk (now s) (storage s) x (activeVotes s) (inactivityTimers s)
    (timers s) (nextTimer s) (sockets s) (outbox s).
Definition with_activeVotes (x : list VoteData.t) (s : t) : t :=
  mk (now s) (storage s) (uploads s) x (inactivityTimers s)
    (timers s) (nextTimer s) (sockets s) (outbox s).
Definition with_inactivityTimers (x : list (string * nat)) (s : t) : t :=
  mk (now s) (storage s) (uploads s) (activeVotes s) x
    (timers s) (nextTimer s) (sockets s) (outbox s).
Definition with_timers (x : list Timer.t) (n : nat) (s : t) : t :=
  mk (now s) (storage s) (uploads s) (activeVotes s) (inactivityTimers s)
    x n (sockets s) (outbox s).
Definition with_outbox (x : list Effect) (s : t) : t :=
  mk (now s) (storage s) (uploads s) (activeVotes s) (inactivityTimers s)
    (timers s) (nextTimer s) (sockets s) x.

(** [storage.f(...)] for an [f] that only writes. *)
Definition store (f : MemStorage.t -> MemStorage.t) (s : t) : t :=
  with_storage (f (storage s)) s.

Definition emit (e : Effect) (s : t) : t := with_outbox (outbox s ++ [e]) s.

Definition setTimeout (a : TimerAction) (delay : Z) (s : t) : nat * t :=
  (nextTimer s,
   with_timers (timers s ++ [Timer.mk (nextTimer s) (now s + delay) a None])
     (S (nextTimer s)) s).

Definition setInterval (a : TimerAction) (delay : Z) (s : t) : nat * t :=
  (nextTimer s,
   with_timers
     (timers s ++ [Timer.mk (nextTimer s) (now s + delay) a (Some delay)])
     (S (nextTimer s)) s).

Definition clearTimeout (h : nat) (s : t) : t :=
  with_timers (filter (fun x => negb (Nat.eqb (Timer.handle x) h)) (timers s))
    (nextTimer s) s.

Definition pending (h : nat) (s : t) : option Timer.t :=
  find (fun x => Nat.eqb (Timer.handle x) h) (timers s).
End Server.

(** ** server/routes.ts: handlers *)

Module Routes.
Import Server.

Definition byJoinedAt (a b : User.t) : Z := User.joinedAt a - User.joinedAt b.

Definition online (l : list User.t) : list User.t := filter User.isOnline l.

Definition ballots (v : VoteData.t) : list bool := map snd (VoteData.votes v).
Definition yesVotes (v : VoteData.t) : nat :=
  List.length (filter (fun b => b) (ballots v)).
Definition noVotes (v : VoteData.t) : nat :=
  List.length (filter (fun b => negb b) (ballots v)).

Definition getVote (voteId : string) (s : t) : option VoteData.t :=
  find (fun v => VoteData.voteId v =s voteId) (activeVotes s).

Definition deleteVote (voteId : string) (s : t) : t :=
  with_activeVotes
    (filter (fun v => negb (VoteData.voteId v =s voteId)) (activeVotes s)) s.

(** Assignment to a field of the [VoteData] object stored under [voteId]. *)
Definition set_votes (x : list (string * bool)) (v : VoteData.t) : VoteData.t :=
  VoteData.mk (VoteData.voteId v) (VoteData.targetUserId v)
    (VoteData.targetUsername v) (VoteData.initiatorUserId v)
    (VoteData.initiatorUsername v) (VoteData.type v) x (VoteData.timer v).
Definition set_timer (h : nat) (v : VoteData.t) : VoteData.t :=
  VoteData.mk (VoteData.voteId v) (VoteData.targetUserId v)
    (VoteData.targetUsername v) (VoteData.initiatorUserId v)
    (VoteData.initiatorUsername v) (VoteData.type v) (VoteData.votes v)
    (Some h).
Definition mutateVote (voteId : string) (f : VoteData.t -> VoteData.t)
    (s : t) : t :=
  with_activeVotes
    (update_first (fun v => VoteData.voteId v =s voteId) f (activeVotes s)) s.

Definition handshakeIp (k : Socket.t) : string :=
  if truthy (Socket.forwardedFor k)
  then or_empty (Socket.forwardedFor k) else Socket.address k.

Definition clearInactivityTimer (userId : string) (s : t) : t :=
  match find (fun e => fst e =s userId) (inactivityTimers s) with
  | Some (_, timer) =>
      with_inactivityTimers
        (filter (fun e => negb (fst e =s userId)) (inactivityTimers s))
        (clearTimeout timer s)
  | None => s
  end.

Definition startInactivityTimer (c : Conn.t) (roomId userId username : string)
    (s : t) : t :=
  let s1 := clearInactivityTimer userId s in
  let '(timer, s2) := setTimeout (InactivityWarn c roomId userId username) 120000 s1 in
  with_inactivityTimers (map_set fst (userId, timer) (inactivityTimers s2)) s2.

(** The host hand-over shared by [resolveVote] and the reconnect timeout:
    [candidates.sort(byJoinedAt)[0]] becomes host. *)
Definition handOver (roomId : string) (candidates : list User.t) (s : t) : t :=
  match sort byJoinedAt candidates with
  | oldest :: _ =>
      emit (ToRoom roomId (new_host (User.id oldest) (User.username oldest)))
        (store (MemStorage.updateRoomHost roomId (User.id oldest))
           (store (MemStorage.makeUserHost (User.id oldest)) s))
  | [] => s
  end.

Definition kickTarget (c : Conn.t) (uuid roomId : string) (v : VoteData.t)
    (s : t) : t :=
  match MemStorage.getUser (VoteData.targetUserId v) (storage s) with
  | Some targetUser =>
      let s1 :=
        store (MemStorage.createKickedUser uuid (now s) roomId
                 (handshakeIp (Conn.socket c)) (User.username targetUser)) s in
      let s2 := store (MemStorage.deleteUser (VoteData.targetUserId v)) s1 in
      let s3 :=
        match find (fun k => opt_eqb (SocketData.userId (Socket.data k))
                               (Some (VoteData.targetUserId v)))
                (sockets s2) with
        | Some targetSocket =>
            emit (Leave (Socket.id targetSocket) roomId)
              (emit (ToSocket (Socket.id targetSocket)
                       (kicked_from_room "Voted out by other players")) s2)
        | None => s2
        end in
      let remainingUsers := MemStorage.getUsersByRoom roomId (storage s3) in
      let s4 :=
        emit (ToRoom roomId (user_left (VoteData.targetUserId v) remainingUsers))
          s3 in
      if Nat.ltb 0 (List.length remainingUsers) && User.isHost targetUser
      then handOver roomId remainingUsers s4
      else s4
  | None => s
  end.

Definition resolveVote (c : Conn.t) (uuid voteId roomId : string) (s : t) : t :=
  match getVote voteId s with
  | None => s
  | Some voteData =>
      let passed := Nat.ltb (noVotes voteData) (yesVotes voteData) in
      let s1 :=
        match passed, VoteData.type voteData with
        | true, kick => kickTarget c uuid roomId voteData s
        | _, _ => s
        end in
      deleteVote voteId
        (emit (ToRoom roomId
                 (vote_resolved voteId passed (yesVotes voteData)
                    (noVotes voteData))) s1)
  end.

(** [checkRateLimit(ipAddress, actionType)] on the storage of the server;
    [uuid] is the [randomUUID()] a new record would take. *)
Definition checkRateLimit (uuid ipAddress actionType : string) (s : t)
    : RateLimiter.Result * t :=
  let '(result, rateLimits) :=
    RateLimiter.checkRateLimit uuid (now s) ipAddress actionType
      (MemStorage.rateLimits (storage s)) in
  (result, store (MemStorage.with_rateLimits rateLimits) s).

(** [POST /api/rooms/create], as far as the state goes. [ipAddress] is
    [getClientIp(req)] and [uuid0] the id a rate-limit record would take;
    [uuid], [uuid'] are the ids of the room and of its game state and
    [roomKey] is the [generateRoomKey()] drawn; [maxSkips] is [None] when
    the body has none. *)
Definition createRoomRequest (uuid0 ipAddress uuid uuid' roomKey username : string)
    (maxSkips : option float) (s : t) : t :=
  let '(rateLimitCheck, s0) :=
    checkRateLimit uuid0 ipAddress "room_creation" s in
  if negb (RateLimiter.allowed rateLimitCheck) then s0
  else if Nat.ltb (String.length username) 3
          || Nat.ltb 20 (String.length username)
  then s0
  else
    let tempUserId := "temp-" ++ string_of_Z (now s0) in
    let s1 :=
      store (MemStorage.createRoom uuid (now s0) roomKey
               (or_zero maxSkips) tempUserId) s0 in
    store (MemStorage.createGameState uuid' (now s1) uuid) s1.

(** [join_room] also fills the connection's [socketData]. [uuid] and
    [uuid'] are the ids of the new user and of the system message. The
    [user] and [room] objects sent are the stored ones, read when sent. *)
Definition join_room (c : Conn.t) (uuid uuid' roomId username : string)
    (s : t) : Conn.t * t :=
  let me := Socket.id (Conn.socket c) in
  match MemStorage.getRoom roomId (storage s) with
  | None => (c, emit (ToSocket me (error "Room not found or expired")) s)
  | Some room =>
      if Room.isExpired room
      then (c, emit (ToSocket me (error "Room not found or expired")) s)
      else
        let s1 := store (MemStorage.updateRoomActivity (now s) roomId) s in
        let s2 :=
          store (MemStorage.createUser uuid (now s1) username roomId
                   (Room.maxSkips room) me) s1 in
        let c' :=
          Conn.mk (Conn.socket c)
            (SocketData.mk (Some uuid) (Some roomId) (Some username)) in
        let users := MemStorage.getUsersByRoom roomId (storage s2) in
        let s3 :=
          if Nat.eqb (List.length users) 1
          then store (MemStorage.updateRoomHost roomId uuid)
                 (store (MemStorage.makeUserHost uuid) s2)
          else s2 in
        let s4 := emit (Join me roomId) s3 in
        let allUsers := MemStorage.getUsersByRoom roomId (storage s4) in
        let gameState := MemStorage.getGameState roomId (storage s4) in
        let messages := MemStorage.getMessagesByRoom roomId 100 (storage s4) in
        let user := MemStorage.getUser uuid (storage s4) in
        let s5 :=
          emit (ToSocket me
                  (room_joined user (MemStorage.getRoom roomId (storage s4))
                     allUsers gameState messages)) s4 in
        let s6 := emit (ToRoom roomId (user_joined user allUsers)) s5 in
        let s7 :=
          store (MemStorage.createMessage uuid' (now s6) roomId None "System"
                   (Some (username ++ " joined the game")) None None) s6 in
        let updatedMessages :=
          MemStorage.getMessagesByRoom roomId 100 (storage s7) in
        let s8 := emit (ToRoom roomId (new_message (last (map Some updatedMessages) None))) s7 in
        let waitingNow :=
          match gameState with
          | Some g => Phase_eqb (GameState.gamePhase g) waiting
          | None => false
          end in
        match allUsers with
        | [first; _] =>
            if waitingNow
            then
              let s9 :=
                store (MemStorage.updateGameState (now s8) roomId
                         (Patch.mk (Some (Some (User.id first))) None
                            (Some choosing) None None)) s8 in
              (c', emit (ToRoom roomId
                           (game_state_updated
                              (MemStorage.getGameState roomId (storage s9)))) s9)
            else (c', s8)
        | _ => (c', s8)
        end
  end.

Definition durations : list Z := [2000; 4500; 7000].

(** [random] and [random'] are the two draws of [Math.random()]. An index
    past the end of [otherUsers] reads [undefined], whose [.id] throws into
    the handler's [catch]; the index into [durations] is in range for a
    draw below 1. *)
Definition spin_bottle (c : Conn.t) (random random' : Rand) (roomId : string)
    (s : t) : t :=
  let sd := Conn.socketData c in
  let me := Socket.id (Conn.socket c) in
  if negb (truthy (SocketData.userId sd)) || negb (truthy (SocketData.roomId sd))
  then emit (ToSocket me (error "Not authenticated")) s
  else
    let users := MemStorage.getUsersByRoom roomId (storage s) in
    let onlineUsers := online users in
    if Nat.ltb (List.length onlineUsers) 2
    then emit (ToSocket me (error "Not enough players")) s
    else
      let otherUsers :=
        filter (fun u => negb (opt_eqb (Some (User.id u)) (SocketData.userId sd)))
          onlineUsers in
      match nth_error otherUsers (floor_mul random (List.length otherUsers)) with
      | None => emit (ToSocket me (error "Failed to spin bottle")) s
      | Some targetUser =>
          let duration := nth (floor_mul random' (List.length durations)) durations 0 in
          let s1 :=
            store (MemStorage.updateGameState (now s) roomId
                     (Patch.mk None (Some (Some (User.id targetUser)))
                        (Some spinning) None None)) s in
          let s2 :=
            emit (ToRoom roomId
                    (bottle_spinning (User.id targetUser) duration
                       (SocketData.userId sd))) s1 in
          snd (setTimeout (SpinResolve c roomId targetUser) (duration + 1000) s2)
      end.

Definition choose_truth_or_dare (c : Conn.t) (roomId : string) (choice : Choice)
    (s : t) : t :=
  let sd := Conn.socketData c in
  if negb (truthy (SocketData.userId sd)) then s
  else
    let s1 := clearInactivityTimer (or_empty (SocketData.userId sd)) s in
    let s2 :=
      store (MemStorage.updateGameState (now s1) roomId
               (Patch.mk None None (Some asking) None (Some (Some choice)))) s1 in
    let gameState := MemStorage.getGameState roomId (storage s2) in
    let s3 := emit (ToRoom roomId (game_state_updated gameState)) s2 in
    match MemStorage.getUser
            (match gameState with
             | Some g => or_empty (GameState.currentTurnUserId g)
             | None => ""
             end) (storage s3) with
    | Some currentTurnUser =>
        startInactivityTimer c roomId (User.id currentTurnUser)
          (User.username currentTurnUser) s3
    | None => s3
    end.

Definition submit_question (c : Conn.t) (roomId questionText : string)
    (s : t) : t :=
  let sd := Conn.socketData c in
  if negb (truthy (SocketData.userId sd)) then s
  else
    let s1 := clearInactivityTimer (or_empty (SocketData.userId sd)) s in
    let s2 :=
      store (MemStorage.updateGameState (now s1) roomId
               (Patch.mk None None (Some answering) (Some (Some questionText))
                  None)) s1 in
    emit (ToRoom roomId
            (game_state_updated (MemStorage.getGameState roomId (storage s2))))
      s2.

Definition next_turn (roomId : string) (s : t) : t :=
  let users := MemStorage.getUsersByRoom roomId (storage s) in
  let onlineUsers := online users in
  if Nat.ltb (List.length onlineUsers) 2 then s
  else
    let gameState := MemStorage.getGameState roomId (storage s) in
    let currentTurn :=
      match gameState with
      | Some g => GameState.currentTurnUserId g
      | None => None
      end in
    let currentIndex :=
      findIndex (fun u => opt_eqb (Some (User.id u)) currentTurn) onlineUsers in
    let nextIndex := Z.rem (currentIndex + 1) (Z.of_nat (List.length onlineUsers)) in
    match nth_error onlineUsers (Z.to_nat nextIndex) with
    | Some nextUser =>
        let s1 :=
          store (MemStorage.updateGameState (now s) roomId
                   (Patch.mk (Some (Some (User.id nextUser))) (Some None)
                      (Some (if Nat.eqb (List.length onlineUsers) 2
                             then choosing else waiting))
                      (Some None) (Some None))) s in
        emit (ToRoom roomId
                (game_state_updated
                   (MemStorage.getGameState roomId (storage s1)))) s1
    | None => s
    end.

Definition use_skip (c : Conn.t) (roomId : string) (s : t) : t :=
  let sd := Conn.socketData c in
  let me := Socket.id (Conn.socket c) in
  if negb (truthy (SocketData.userId sd)) then s
  else
    let userId := or_empty (SocketData.userId sd) in
    match MemStorage.getUser userId (storage s) with
    | None => emit (ToSocket me (error "No skips remaining")) s
    | Some user =>
        if (User.skipsRemaining user <=? 0)%float
        then emit (ToSocket me (error "No skips remaining")) s
        else
          let s1 :=
            store (MemStorage.updateUserSkips userId
                     (User.skipsRemaining user - 1)) s in
          (* [user] is the stored object: [updateUserSkips] has assigned
             its [skipsRemaining], which the event reads again *)
          let stored := (User.skipsRemaining user - 1)%float in
          let users := MemStorage.getUsersByRoom roomId (storage s1) in
          let s2 :=
            emit (ToRoom roomId
                    (user_used_skip userId (SocketData.username sd)
                       (stored - 1) users)) s1 in
          emit (ToSocket me (next_turn_event roomId)) s2
    end.

(** [randomText] is the text of the [Math.random()] in the vote id. *)
Definition initiate_vote (c : Conn.t) (randomText roomId targetUserId : string)
    (type : VoteType) (s : t) : t :=
  let sd := Conn.socketData c in
  if negb (truthy (SocketData.userId sd)) || negb (truthy (SocketData.username sd))
  then s
  else
    match MemStorage.getUser targetUserId (storage s) with
    | None => s
    | Some targetUser =>
        let voteId := "vote-" ++ string_of_Z (now s) ++ "-" ++ randomText in
        let voteData :=
          VoteData.mk voteId targetUserId (User.username targetUser)
            (or_empty (SocketData.userId sd)) (or_empty (SocketData.username sd))
            type [] None in
        let s1 :=
          with_activeVotes (map_set VoteData.voteId voteData (activeVotes s)) s in
        let s2 :=
          emit (ToRoom roomId
                  (vote_started voteId targetUserId (User.username targetUser)
                     (or_empty (SocketData.username sd)) type)) s1 in
        let '(timer, s3) := setTimeout (VoteTimeout c voteId roomId) 30000 s2 in
        mutateVote voteId (set_timer timer) s3
    end.

Definition eligibleVoters (roomId targetUserId : string) (s : t) : nat :=
  List.length
    (filter (fun u => negb (User.id u =s targetUserId))
       (MemStorage.getUsersByRoom roomId (storage s))).

Definition cast_vote (c : Conn.t) (uuid voteId : string) (vote : bool)
    (roomId : string) (s : t) : t :=
  let sd := Conn.socketData c in
  if negb (truthy (SocketData.userId sd)) then s
  else
    match getVote voteId s with
    | None => s
    | Some voteData =>
        let votes' :=
          map_set fst (or_empty (SocketData.userId sd), vote)
            (VoteData.votes voteData) in
        let s1 := mutateVote voteId (set_votes votes') s in
        let s2 :=
          emit (ToRoom roomId
                  (vote_updated voteId (yesVotes (set_votes votes' voteData))
                     (noVotes (set_votes votes' voteData)))) s1 in
        if Nat.leb (eligibleVoters roomId (VoteData.targetUserId voteData) s2)
             (List.length votes')
        then
          resolveVote c uuid voteId roomId
            (match VoteData.timer voteData with
             | Some timer => clearTimeout timer s2
             | None => s2
             end)
        else s2
    end.

Definition disconnect (c : Conn.t) (s : t) : t :=
  let sd := Conn.socketData c in
  if truthy (SocketData.userId sd)
  then
    let s1 := clearInactivityTimer (or_empty (SocketData.userId sd)) s in
    let '(reconnectTimeout, s2) := setTimeout (Reconnect c) 120000 s1 in
    snd (setTimeout (ClearReconnect reconnectTimeout) 120000 s2)
  else s.

(** *** Timer callbacks *)

Definition spinResolve (c : Conn.t) (roomId : string) (targetUser : User.t)
    (s : t) : t :=
  let s1 :=
    store (MemStorage.updateGameState (now s) roomId
             (Patch.mk None (Some (Some (User.id targetUser))) (Some choosing)
                None None)) s in
  let s2 :=
    emit (ToRoom roomId
            (game_state_updated (MemStorage.getGameState roomId (storage s1))))
      s1 in
  startInactivityTimer c roomId (User.id targetUser) (User.username targetUser) s2.

Definition inactivityWarn (c : Conn.t) (roomId userId username : string)
    (s : t) : t :=
  snd (setTimeout (InactivityKick c roomId userId username) 5000
         (emit (ToRoom roomId (user_inactive userId username)) s)).

Definition inactivityKick (c : Conn.t) (roomId userId username : string)
    (s : t) : t :=
  let voteId := "inactivity-" ++ userId ++ "-" ++ string_of_Z (now s) in
  let voteData :=
    VoteData.mk voteId userId username "system" "System" kick [] None in
  let s1 :=
    with_activeVotes (map_set VoteData.voteId voteData (activeVotes s)) s in
  let s2 :=
    emit (ToRoom roomId
            (vote_started voteId userId username "System (Inactivity)" kick))
      s1 in
  let '(timer, s3) := setTimeout (VoteTimeout c voteId roomId) 30000 s2 in
  mutateVote voteId (set_timer timer) s3.

Definition reconnectTimeout (c : Conn.t) (s : t) : t :=
  let sd := Conn.socketData c in
  if negb (truthy (SocketData.userId sd)) || negb (truthy (SocketData.roomId sd))
  then s
  else
    let userId := or_empty (SocketData.userId sd) in
    let roomId := or_empty (SocketData.roomId sd) in
    match MemStorage.getUser userId (storage s) with
    | Some user =>
        if opt_eqb (User.socketId user) (Some (Socket.id (Conn.socket c)))
        then
          let s1 := store (MemStorage.updateUserOnline userId false None) s in
          let users := MemStorage.getUsersByRoom roomId (storage s1) in
          let onlineUsers := online users in
          let s2 := emit (ToRoom roomId (user_left userId users)) s1 in
          if Nat.eqb (List.length onlineUsers) 0 then s2
          else if User.isHost user then handOver roomId onlineUsers s2
          else s2
        else s
    | None => s
    end.

(** One turn of the loop of the cleanup interval. When
    [deleteAllFilesInRoom] throws, the turn ends before the room is
    touched. *)
Definition reapRoom (s : t) (room : Room.t) : t * Ending :=
  let messages := MemStorage.getMessagesByRoom (Room.id room) 100 (storage s) in
  let '(uploads', ending) := deleteAllFilesInRoom messages (uploads s) in
  let s1 := with_uploads uploads' s in
  match ending with
  | Threw => (s1, Threw)
  | Returned =>
      (store (MemStorage.deleteRoom (Room.id room))
         (store (MemStorage.expireRoom (Room.id room))
            (store (MemStorage.deleteMessagesByRoom (Room.id room)) s1)),
       Returned)
  end.

(** The loop, inside its [try]: a throw leaves it for the [catch], which
    only logs. *)
Fixpoint reapRooms (rooms : list Room.t) (s : t) : t :=
  match rooms with
  | [] => s
  | room :: rest =>
      match reapRoom s room with
      | (s1, Returned) => reapRooms rest s1
      | (s1, Threw) => s1
      end
  end.

(** One pass of the cleanup interval. *)
Definition cleanup (s : t) : t :=
  reapRooms (MemStorage.getInactiveRooms (now s) 30 (storage s)) s.

Definition cleanupEvery : Z := 5 * 60 * 1000.

(** [uuid] is the [randomUUID()] a ban record would take. *)
Definition run (uuid : string) (a : TimerAction) (s : t) : t :=
  match a with
  | SpinResolve c roomId targetUser => spinResolve c roomId targetUser s
  | VoteTimeout c voteId roomId => resolveVote c uuid voteId roomId s
  | InactivityWarn c roomId userId username =>
      inactivityWarn c roomId userId username s
  | InactivityKick c roomId userId username =>
      inactivityKick c roomId userId username s
  | Reconnect c => reconnectTimeout c s
  | ClearReconnect h => clearTimeout h s
  | Cleanup => cleanup s
  end.

(** The timer [h] fires: the clock reaches its due time, a timeout leaves
    the queue, an interval is re-armed, and the callback runs. A handle
    that is no longer pending does nothing. *)
Definition fire (uuid : string) (h : nat) (s : t) : t :=
  match pending h s with
  | None => s
  | Some tm =>
      let s1 := with_now (Z.max (now s) (Timer.due tm)) s in
      let s2 :=
        match Timer.every tm with
        | None => clearTimeout h s1
        | Some d =>
            with_timers
              (update_first (fun x => Nat.eqb (Timer.handle x) h)
                 (fun x => Timer.mk (Timer.handle x) (Timer.due x + d)
                             (Timer.action x) (Timer.every x))
                 (timers s1)) (nextTimer s1) s1
        end in
      run uuid (Timer.action tm) s2
  end.

(** The pending timer that is due first (the earliest scheduled one among
    equals). *)
Definition earliest (l : list Timer.t) : option Timer.t :=
  fold_left
    (fun best x =>
       match best with
       | None => Some x
       | Some b => if Timer.due x <? Timer.due b then Some x else Some b
       end) l None.

Definition fireNext (uuid : string) (s : t) : t :=
  match earliest (timers s) with
  | Some tm => fire uuid (Timer.handle tm) s
  | None => s
  end.

(** An event handler [h] runs at wall-clock time [at]. *)
Definition arrive (at_ : Z) (h : t -> t) (s : t) : t :=
  h (with_now (Z.max (now s) at_) s).

(** [registerRoutes]: empty stores and the cleanup interval. *)
Definition registerRoutes : t :=
  snd (setInterval Cleanup cleanupEvery
         (mk 0 MemStorage.empty [] [] [] [] 0 [] [])).
End Routes.

(** ** The properties of the specification, as predicates on the model *)

(** The edges of the turn engine's state machine. *)
Definition edge (p q : Phase) : bool :=
  match p, q with
  | waiting, spinning | spinning, choosing | choosing, asking
  | asking, answering | answering, waiting | answering, choosing => true
  | _, _ => false
  end.

(** The five inbound game events with their payloads (and, for a spin, the
    two random draws). *)
Inductive GameEvent :=
| SpinBottle (random random' : Rand)
| ChooseTruthOrDare (choice : Choice)
| SubmitQuestion (questionText : string)
| NextTurn
| UseSkip.

Definition dispatch (c : Conn.t) (roomId : string) (e : GameEvent)
    (s : Server.t) : Server.t :=
  match e with
  | SpinBottle r r' => Routes.spin_bottle c r r' roomId s
  | ChooseTruthOrDare ch => Routes.choose_truth_or_dare c roomId ch s
  | SubmitQuestion q => Routes.submit_question c roomId q s
  | NextTurn => Routes.next_turn roomId s
  | UseSkip => Routes.use_skip c roomId s
  end.

(** The phases an event's handler can write, and the phase at the source of
    the event's edge. *)
Definition writes (e : GameEvent) : list Phase :=
  match e with
  | SpinBottle _ _ => [spinning]
  | ChooseTruthOrDare _ => [asking]
  | SubmitQuestion _ => [answering]
  | NextTurn => [waiting; choosing]
  | UseSkip => []
  end.

Definition source (e : GameEvent) : Phase :=
  match e with
  | SpinBottle _ _ => waiting
  | ChooseTruthOrDare _ => choosing
  | SubmitQuestion _ => asking
  | NextTurn => answering
  | UseSkip => answering
  end.

Definition phaseOf (roomId : string) (s : Server.t) : option Phase :=
  option_map GameState.gamePhase
    (MemStorage.getGameState roomId (Server.storage s)).

(** The ids of the users stored for a room, and those of them online. *)
Definition members (roomId : string) (s : Server.t) : list string :=
  map User.id (MemStorage.getUsersByRoom roomId (Server.storage s)).

Definition onlineUsers (roomId : string) (s : Server.t) : list User.t :=
  Routes.online (MemStorage.getUsersByRoom roomId (Server.storage s)).

Definition onlineHosts (roomId : string) (s : Server.t) : list User.t :=
  filter User.isHost (onlineUsers roomId s).

Definition banRecord (uuid : string) (c : Conn.t) (roomId : string)
    (targetUser : User.t) (s : Server.t) : KickedUser.t :=
  KickedUser.mk uuid roomId (Routes.handshakeIp (Conn.socket c))
    (User.username targetUser) (Server.now s) 0 None false.

(** The ballot recorded for a voter on a vote. *)
Definition ballotOf (voter : string) (v : VoteData.t) : option bool :=
  option_map snd (find (fun e => fst e =s voter) (VoteData.votes v)).

Definition is_kick (t : VoteType) : bool :=
  match t with kick => true | rejoin => false end.

Definition isSome {A : Type} (o : option A) : bool :=
  match o with Some _ => true | None => false end.

(** A run of [cast_vote] events on one vote: each with its connection, the
    [randomUUID()] a ban record would take, and the ballot. *)
Definition castAll (voteId roomId : string)
    (casts : list (Conn.t * string * bool)) (s : Server.t) : Server.t :=
  fold_left
    (fun x e => Routes.cast_vote (fst (fst e)) (snd (fst e)) voteId (snd e) roomId x)
    casts s.

Definition castBy (voter : string) (c : Conn.t) : bool :=
  truthy (SocketData.userId (Conn.socketData c)) &&
  (or_empty (SocketData.userId (Conn.socketData c)) =s voter).

(** The ballot of the latest cast by [voter] in a run. *)
Fixpoint lastCast (voter : string) (casts : list (Conn.t * string * bool))
    : option bool :=
  match casts with
  | [] => None
  | e :: rest =>
      match lastCast voter rest with
      | Some b => Some b
      | None => if castBy voter (fst (fst e)) then Some (snd e) else None
      end
  end.


(** ** Runs of the server used as examples

    Every state below is reached from [registerRoutes] through the room
    creation request, the socket handlers and timer firings only. *)

Module Scenario.
Import Server Routes.

Definition socket (n : string) : Socket.t :=
  Socket.mk n SocketData.empty None ("10.0.0." ++ n).
Definition fresh (n : string) : Conn.t := Conn.mk (socket n) SocketData.empty.

(** The connection [n] after it joined room [R] as user [uuid]. *)
Definition joined (n uuid username : string) : Conn.t :=
  Conn.mk (socket n) (SocketData.mk (Some uuid) (Some "R") (Some username)).

Definition join (at_ : Z) (n uuid uuid' username : string) (s : t) : t :=
  arrive at_ (fun x => snd (join_room (fresh n) uuid uuid' "R" username x)) s.

Definition alice : Conn.t := joined "1" "A" "alice".
Definition bobby : Conn.t := joined "2" "B" "bobby".
Definition carol : Conn.t := joined "3" "C" "carol".

(** Room [R] (one skip per user) is created at time 0; alice, bobby and
    carol join at 10, 20 and 30 ms. *)
Definition created : t :=
  createRoomRequest "L" "10.0.0.1" "R" "G" "ABCD-EFGH-JKLM-NPQR" "alice"
    (Some 1%float) registerRoutes.
Definition one : t := join 10 "1" "A" "m1" "alice" created.
Definition two : t := join 20 "2" "B" "m2" "bobby" one.
Definition three : t := join 30 "3" "C" "m3" "carol" two.

(** *** Two votes against the same target *)

Definition vote1 : string := "vote-100-0.5".
Definition vote2 : string := "vote-110-0.7".

Definition bothStarted : t :=
  arrive 110 (initiate_vote bobby "0.7" "R" "C" kick)
    (arrive 100 (initiate_vote alice "0.5" "R" "C" kick) three).
Definition firstYes : t :=
  arrive 200 (cast_vote alice "K1" vote1 true "R") bothStarted.
Definition firstResolved : t :=
  arrive 300 (cast_vote bobby "K1" vote1 true "R") firstYes.
Definition secondYes : t :=
  arrive 400 (cast_vote alice "K2" vote2 true "R") firstResolved.

(** *** A voter casts twice *)

Definition changedMind : t :=
  arrive 250 (cast_vote alice "K1" vote1 false "R") firstYes.

(** *** A user whose grace period has expired

    carol disconnects at 1000 ms; her reconnect timeout and the timeout
    that clears it fire at 121000 ms. alice then starts a vote against
    bobby and votes yes; bobby votes no. *)
Definition carolGone : t :=
  fireNext "-" (fireNext "-" (arrive 1000 (disconnect carol) three)).
Definition voteB : string := "vote-130000-0.5".
Definition voteOnBobby : t :=
  arrive 130000 (initiate_vote alice "0.5" "R" "B" kick) carolGone.
Definition aliceYes : t :=
  arrive 131000 (cast_vote alice "K1" voteB true "R") voteOnBobby.
Definition bobbyNo : t :=
  arrive 132000 (cast_vote bobby "K1" voteB false "R") aliceYes.

(** *** The host is voted out while an earlier joiner is offline

    bobby disconnects at 1000 ms and is offline from 121000 ms. carol
    starts a vote against the host alice and votes yes; the vote times
    out 30 s after it started. *)
Definition bobbyGone : t :=
  fireNext "-" (fireNext "-" (arrive 1000 (disconnect bobby) three)).
Definition voteA : string := "vote-130000-0.5".
Definition hostVotedOut : t :=
  fireNext "K1"
    (arrive 131000 (cast_vote carol "K1" voteA true "R")
       (arrive 130000 (initiate_vote carol "0.5" "R" "A" kick) bobbyGone)).

(** The same room when the host alice loses her connection instead: she
    disconnects at 130000 ms and is offline from 250000 ms. *)
Definition hostGone : t :=
  fireNext "-" (fireNext "-" (arrive 130000 (disconnect alice) bobbyGone)).

(** *** Turn play in the three-player room *)

Definition nextTurned : t := arrive 40 (next_turn "R") three.
Definition choseWhileWaiting : t :=
  arrive 50 (choose_truth_or_dare carol "R" truth) nextTurned.
Definition skippedWhileWaiting : t :=
  arrive 50 (use_skip carol "R") nextTurned.
Definition skippedAgain : t :=
  arrive 60 (use_skip carol "R") skippedWhileWaiting.


Definition half : Rand := {| num := 1; den := 2 |}.
Definition spun : t := arrive 50 (spin_bottle bobby half half "R") nextTurned.

(** *** Inactivity supervision in the two-player room

    bobby chooses at 1000 ms, which arms the supervision of alice (whose
    turn it is). The warning fires at 121000 ms; alice submits her
    question at 122000 ms; the second stage fires at 126000 ms. *)
Definition armed : t := arrive 1000 (choose_truth_or_dare bobby "R" dare) two.
Definition warned : t := fireNext "-" armed.
Definition answered : t :=
  arrive 122000 (submit_question alice "R" "Sing a song") warned.
Definition escalated : t := fireNext "-" answered.

(** *** An idle room

    alice joins at 10 ms and nothing else happens; the cleanup interval
    fires every five minutes, seven times up to the 35th minute. *)
Definition idle (n : nat) : t := Nat.iter n (fireNext "-") one.
End Scenario.

(** ** The rest of the server

    The remaining methods of [MemStorage],
    [server/utils/roomKeyGenerator.ts], the upload filter of
    [server/utils/fileUpload.ts] and, of [server/routes.ts], the join
    precheck, the answer of the upload route and [send_message]. *)

(** *** server/storage.ts: the remaining methods of MemStorage *)

Module MemStorageRest.
Definition getRoomByKey (roomKey : string) (m : MemStorage.t) : option Room.t :=
  find (fun r => Room.roomKey r =s roomKey) (MemStorage.rooms m).

Definition getUserBySocketId (socketId : string) (m : MemStorage.t)
    : option User.t :=
  find (fun u => opt_eqb (User.socketId u) (Some socketId)) (MemStorage.users m).

Definition getKickedUser (roomId ipAddress : string) (m : MemStorage.t)
    : option KickedUser.t :=
  find (fun ku => (KickedUser.roomId ku =s roomId)
                  && (KickedUser.ipAddress ku =s ipAddress))
    (MemStorage.kickedUsers m).

Definition incrementRejoinAttempts (now : Z) (id : string) (m : MemStorage.t)
    : MemStorage.t :=
  MemStorage.with_kickedUsers
    (update_first (fun ku => KickedUser.id ku =s id)
       (fun ku => KickedUser.mk (KickedUser.id ku) (KickedUser.roomId ku)
                    (KickedUser.ipAddress ku) (KickedUser.username ku)
                    (KickedUser.kickedAt ku) (KickedUser.rejoinAttempts ku + 1)
                    (Some now) (KickedUser.isPermanentlyBlocked ku))
       (MemStorage.kickedUsers m)) m.

Definition blockUserPermanently (id : string) (m : MemStorage.t) : MemStorage.t :=
  MemStorage.with_kickedUsers
    (update_first (fun ku => KickedUser.id ku =s id)
       (fun ku => KickedUser.mk (KickedUser.id ku) (KickedUser.roomId ku)
                    (KickedUser.ipAddress ku) (KickedUser.username ku)
                    (KickedUser.kickedAt ku) (KickedUser.rejoinAttempts ku)
                    (KickedUser.lastRejoinAttempt ku) true)
       (MemStorage.kickedUsers m)) m.
End MemStorageRest.

(** *** server/utils/roomKeyGenerator.ts *)

Definition roomKeyChars : string := "ABCDEFGHJKLMNPQRSTUVWXYZ23456789".

(** [chars[randomBytes(1)[0] % chars.length]] for the byte drawn. *)
Definition roomKeyChar (byte : nat) : ascii :=
  match String.get (Nat.modulo byte (String.length roomKeyChars)) roomKeyChars with
  | Some c => c
  | None => "000"%char
  end.

(** One segment: [segmentLength] draws, starting at draw number [from] of
    the byte source. *)
Fixpoint roomKeySegment (draw : nat -> nat) (from segmentLength : nat) : string :=
  match segmentLength with
  | O => ""
  | S k => String (roomKeyChar (draw from)) (roomKeySegment draw (S from) k)
  end.

(** [Array.prototype.join(sep)] on strings. *)
Fixpoint join_with (sep : string) (l : list string) : string :=
  match l with
  | [] => ""
  | [x] => x
  | x :: rest => x ++ sep ++ join_with sep rest
  end.

(** [draw i] is the byte returned by call number [i] of [randomBytes(1)]. *)
Definition generateRoomKey (draw : nat -> nat) : string :=
  join_with "-"
    (map (fun seg => roomKeySegment draw (seg * 4) 4) (List.seq 0 4)).

(** [String.prototype.toUpperCase] on ASCII text. *)
Definition upper_char (c : ascii) : ascii :=
  let n := nat_of_ascii c in
  if Nat.leb 97 n && Nat.leb n 122 then ascii_of_nat (n - 32) else c.

Fixpoint toUpperCase (s : string) : string :=
  match s with
  | EmptyString => EmptyString
  | String c s' => String (upper_char c) (toUpperCase s')
  end.

(** *** server/utils/fileUpload.ts: the filter, and the upload route's answer *)

Definition allowedMimes : list string :=
  ["image/jpeg"; "image/jpg"; "image/png"; "image/gif"; "image/webp";
   "video/mp4"; "video/quicktime"; "video/webm"].

(** [allowedMimes.includes(file.mimetype)] *)
Definition fileFilter (mimetype : string) : bool :=
  existsb (fun m => m =s mimetype) allowedMimes.

(** [`/uploads/${req.file.filename}`] *)
Definition fileUrl (filename : string) : string := "/uploads/" ++ filename.

(** [req.file.mimetype.startsWith('image/') ? 'image' : 'video'] *)
Definition mediaTypeOf (mimetype : string) : string :=
  if String.prefix "image/" mimetype then "image" else "video".

(** *** server/routes.ts: the join precheck and send_message *)

(** The answers of [POST /api/rooms/join]: 400, 404, 410, 403 (permanently
    blocked), 429, 403 (maximum attempts), 403 (a vote is required) and
    200. *)
Inductive JoinResponse :=
| BadRequest
| RoomNotFound
| RoomExpired
| PermanentlyBlocked
| SlowDown (retryAfter : option Z)
| MaxAttempts
| RequiresVote (roomId : string) (username : option string)
| Joined (roomId roomKey : string) (maxSkips : float).

(** [ipAddress] is [getClientIp(req)]; [uuid] is the [randomUUID()] a
    rate-limit record would take. [upperCase] is
    [String.prototype.toUpperCase]: the key is the client's text, and
    nothing is assumed of its upper-case form. *)
Definition api_rooms_join (upperCase : string -> string)
    (uuid ipAddress : string) (roomKey username : option string)
    (s : Server.t) : JoinResponse * Server.t :=
  if negb (truthy roomKey) || negb (truthy username) then (BadRequest, s)
  else
    match MemStorageRest.getRoomByKey (upperCase (or_empty roomKey))
            (Server.storage s) with
    | None => (RoomNotFound, s)
    | Some room =>
        if Room.isExpired room then (RoomExpired, s)
        else
          match MemStorageRest.getKickedUser (Room.id room) ipAddress
                  (Server.storage s) with
          | Some kickedUser =>
              if KickedUser.isPermanentlyBlocked kickedUser
              then (PermanentlyBlocked, s)
              else
                let '(rateLimitCheck, s1) :=
                  Routes.checkRateLimit uuid ipAddress "rejoin" s in
                if negb (RateLimiter.allowed rateLimitCheck)
                then (SlowDown (RateLimiter.retryAfter rateLimitCheck), s1)
                else if 10 <=? KickedUser.rejoinAttempts kickedUser
                then (MaxAttempts,
                      Server.store
                        (MemStorageRest.blockUserPermanently
                           (KickedUser.id kickedUser)) s1)
                else (RequiresVote (Room.id room) username, s1)
          | None =>
              (Joined (Room.id room) (Room.roomKey room) (Room.maxSkips room),
               s)
          end
    end.

Module RoutesRest.
Import Server.

(** [uuid] is the id of the new message. *)
Definition send_message (c : Conn.t) (uuid roomId : string)
    (messageText mediaUrl mediaType : option string) (s : t) : t :=
  let sd := Conn.socketData c in
  if negb (truthy (SocketData.userId sd)) || negb (truthy (SocketData.roomId sd))
     || negb (truthy (SocketData.username sd))
  then emit (ToSocket (Socket.id (Conn.socket c)) (error "Not authenticated")) s
  else
    let s1 :=
      store (MemStorage.createMessage uuid (now s) roomId (SocketData.userId sd)
               (or_empty (SocketData.username sd)) messageText mediaUrl
               mediaType) s in
    let s2 := store (MemStorage.updateRoomActivity (now s1) roomId) s1 in
    emit (ToRoom roomId
            (new_message
               (Some (Message.mk uuid roomId (SocketData.userId sd)
                        (or_empty (SocketData.username sd))
                        (if truthy messageText then messageText else None)
                        (if truthy mediaUrl then mediaUrl else None)
                        (if truthy mediaType then mediaType else None)
                        (now s))))) s2.

(** The events of the vote protocol and of presence, and the timer
    firings: with the game events, everything that reaches a room without
    being a join or a chat message. *)
Inductive QuietInput :=
| Game (c : Conn.t) (roomId : string) (e : GameEvent)
| InitiateVote (c : Conn.t) (randomText roomId targetUserId : string)
    (type : VoteType)
| CastVote (c : Conn.t) (uuid voteId : string) (vote : bool) (roomId : string)
| Disconnect (c : Conn.t)
| Callback (uuid : string) (a : TimerAction).

(** [Callback] is for the callbacks other than the cleanup interval. *)
Definition quiet (i : QuietInput) (s : t) : t :=
  match i with
  | Game c roomId e => dispatch c roomId e s
  | InitiateVote c randomText roomId targetUserId type =>
      Routes.initiate_vote c randomText roomId targetUserId type s
  | CastVote c uuid voteId vote roomId =>
      Routes.cast_vote c uuid voteId vote roomId s
  | Disconnect c => Routes.disconnect c s
  | Callback uuid a =>
      match a with
      | Cleanup => s
      | _ => Routes.run uuid a s
      end
  end.

(** Everything that can happen to the server: a room is created, a
    connection joins or sends a chat message, a quiet input arrives at some
    time, or a pending timer fires. *)
Inductive Input :=
| CreateRoom (uuid0 ipAddress uuid uuid' roomKey username : string)
    (maxSkips : option float)
| JoinRoom (c : Conn.t) (uuid uuid' roomId username : string)
| SendMessage (c : Conn.t) (uuid roomId : string)
    (messageText mediaUrl mediaType : option string)
| Quiet (i : QuietInput)
| Tick (at_ : Z)
| Fire (uuid : string) (handle : nat).

Definition step (i : Input) (s : t) : t :=
  match i with
  | CreateRoom uuid0 ipAddress uuid uuid' roomKey username maxSkips =>
      Routes.createRoomRequest uuid0 ipAddress uuid uuid' roomKey username
        maxSkips s
  | JoinRoom c uuid uuid' roomId username =>
      snd (Routes.join_room c uuid uuid' roomId username s)
  | SendMessage c uuid roomId messageText mediaUrl mediaType =>
      send_message c uuid roomId messageText mediaUrl mediaType s
  | Quiet i => quiet i s
  | Tick at_ => with_now (Z.max (now s) at_) s
  | Fire uuid handle => Routes.fire uuid handle s
  end.

Definition steps (l : list Input) (s : t) : t := fold_left (fun x i => step i x) l s.
End RoutesRest.

(** Whether a file name contains a slash. *)
Fixpoint has_slash (s : string) : bool :=
  match s with
  | EmptyString => false
  | String c s' => Ascii.eqb c "/"%char || has_slash s'
  end.

(** The names [deleteAllFilesInRoom] is asked to delete. *)
Definition namedBy (messages : list Message.t) (filename : string) : bool :=
  existsb
    (fun msg => truthy (Message.mediaUrl msg)
                && (filename =s basename (or_empty (Message.mediaUrl msg))))
    messages.

(** The first elements of a list that satisfy [p]. *)
Fixpoint takeWhile {A : Type} (p : A -> bool) (l : list A) : list A :=
  match l with
  | [] => []
  | x :: l' => if p x then x :: takeWhile p l' else []
  end.

(** A message whose media URL has the base name of a directory, and the
    messages of a list that come before the first such message. *)
Definition namesDirectory (msg : Message.t) : bool :=
  truthy (Message.mediaUrl msg)
  && existsb (fun d => basename (or_empty (Message.mediaUrl msg)) =s d)
       [""; "."; ".."].

Definition beforeDirectory (messages : list Message.t) : list Message.t :=
  takeWhile (fun msg => negb (namesDirectory msg)) messages.

(** The messages the sweep reads for a room, and the rooms for which
    deleting their files throws. *)
Definition latest (s : Server.t) (room : Room.t) : list Message.t :=
  MemStorage.getMessagesByRoom (Room.id room) 100 (Server.storage s).

Definition poisoned (s : Server.t) (room : Room.t) : bool :=
  existsb namesDirectory (latest s room).

(** *** The writes of the handlers

    [Writes quiet s s']: the state [s'] is [s] after a sequence of the
    writes below. Every handler, timer callback and route of the server is
    such a sequence; the second group of writes (room records and their
    activity, new users, messages, files) is used by room creation,
    [join_room], [send_message] and the cleanup interval only, and is ruled
    out when [quiet] is [true]. *)

Inductive Writes (quiet : bool) (s : Server.t) : Server.t -> Prop :=
| W_refl : Writes quiet s s
| W_emit e s1 : Writes quiet s s1 -> Writes quiet s (Server.emit e s1)
| W_now at_ s1 : Writes quiet s s1 -> Writes quiet s (Server.with_now at_ s1)
| W_game now roomId p s1 :
    Writes quiet s s1 ->
    Writes quiet s
      (Server.store (MemStorage.updateGameState now roomId p) s1)
| W_spend userId user s1 :
    Writes quiet s s1 ->
    MemStorage.getUser userId (Server.storage s1) = Some user ->
    (User.skipsRemaining user <=? 0)%float = false ->
    Writes quiet s
      (Server.store
         (MemStorage.updateUserSkips userId (User.skipsRemaining user - 1)) s1)
| W_ban uuid now roomId ip username s1 :
    Writes quiet s s1 ->
    Writes quiet s
      (Server.store (MemStorage.createKickedUser uuid now roomId ip username) s1)
| W_deleteUser userId s1 :
    Writes quiet s s1 ->
    Writes quiet s (Server.store (MemStorage.deleteUser userId) s1)
| W_makeHost userId s1 :
    Writes quiet s s1 ->
    Writes quiet s (Server.store (MemStorage.makeUserHost userId) s1)
| W_roomHost roomId userId s1 :
    Writes quiet s s1 ->
    Writes quiet s (Server.store (MemStorage.updateRoomHost roomId userId) s1)
| W_offline userId s1 :
    Writes quiet s s1 ->
    Writes quiet s
      (Server.store (MemStorage.updateUserOnline userId false None) s1)
| W_setTimeout a due every s1 :
    Writes quiet s s1 ->
    Writes quiet s
      (Server.with_timers
         (Server.timers s1 ++ [Timer.mk (Server.nextTimer s1) due a every])
         (S (Server.nextTimer s1)) s1)
| W_clearTimeout h s1 :
    Writes quiet s s1 -> Writes quiet s (Server.clearTimeout h s1)
| W_rearm h d s1 :
    Writes quiet s s1 ->
    Writes quiet s
      (Server.with_timers
         (update_first (fun x => Nat.eqb (Timer.handle x) h)
            (fun x => Timer.mk (Timer.handle x) (Timer.due x + d)
                        (Timer.action x) (Timer.every x))
            (Server.timers s1)) (Server.nextTimer s1) s1)
| W_inactivity x s1 :
    Writes quiet s s1 -> Writes quiet s (Server.with_inactivityTimers x s1)
| W_voteNew v s1 :
    Writes quiet s s1 ->
    VoteData.votes v = [] ->
    Writes quiet s
      (Server.with_activeVotes
         (map_set VoteData.voteId v (Server.activeVotes s1)) s1)
| W_voteCast voteId ballot v s1 :
    Writes quiet s s1 ->
    Routes.getVote voteId s1 = Some v ->
    Writes quiet s
      (Routes.mutateVote voteId
         (Routes.set_votes (map_set fst ballot (VoteData.votes v))) s1)
| W_voteTimer voteId h s1 :
    Writes quiet s s1 ->
    Writes quiet s (Routes.mutateVote voteId (Routes.set_timer h) s1)
| W_voteDel voteId s1 :
    Writes quiet s s1 -> Writes quiet s (Routes.deleteVote voteId s1)
| W_createRoom uuid now roomKey maxSkips host s1 :
    quiet = false ->
    Writes quiet s s1 ->
    Writes quiet s
      (Server.store (MemStorage.createRoom uuid now roomKey maxSkips host) s1)
| W_createGameState uuid now roomId s1 :
    quiet = false ->
    Writes quiet s s1 ->
    Writes quiet s
      (Server.store (MemStorage.createGameState uuid now roomId) s1)
| W_createUser uuid now username roomId skips socketId s1 :
    quiet = false ->
    Writes quiet s s1 ->
    Writes quiet s
      (Server.store
         (MemStorage.createUser uuid now username roomId skips socketId) s1)
| W_createMessage uuid now roomId userId username text url type s1 :
    quiet = false ->
    Writes quiet s s1 ->
    Writes quiet s
      (Server.store
         (MemStorage.createMessage uuid now roomId userId username text url type)
         s1)
| W_activity now roomId s1 :
    quiet = false ->
    Writes quiet s s1 ->
    Writes quiet s (Server.store (MemStorage.updateRoomActivity now roomId) s1)
| W_deleteMessages roomId s1 :
    quiet = false ->
    Writes quiet s s1 ->
    Writes quiet s (Server.store (MemStorage.deleteMessagesByRoom roomId) s1)
| W_expire roomId s1 :
    quiet = false ->
    Writes quiet s s1 ->
    Writes quiet s (Server.store (MemStorage.expireRoom roomId) s1)
| W_deleteRoom roomId s1 :
    quiet = false ->
    Writes quiet s s1 ->
    Writes quiet s (Server.store (MemStorage.deleteRoom roomId) s1)
| W_uploads x s1 :
    quiet = false ->
    Writes quiet s s1 -> Writes quiet s (Server.with_uploads x s1)
| W_rateLimits x s1 :
    Writes quiet s s1 ->
    Writes quiet s (Server.store (MemStorage.with_rateLimits x) s1).

(** The shape the stores and the timer queue keep: the keys of each map are
    distinct, each vote holds at most one ballot per voter, and the handles
    of the pending timers are distinct and below the next handle. *)
Record WellFormed (s : Server.t) : Prop :=
  { wf_users : NoDup (map User.id (MemStorage.users (Server.storage s)));
    wf_rooms : NoDup (map Room.id (MemStorage.rooms (Server.storage s)));
    wf_votes : NoDup (map VoteData.voteId (Server.activeVotes s));
    wf_ballots :
      Forall (fun v => NoDup (map fst (VoteData.votes v))) (Server.activeVotes s);
    wf_handles : NoDup (map Timer.handle (Server.timers s));
    wf_next :
      Forall (fun x => (Timer.handle x < Server.nextTimer s)%nat)
        (Server.timers s) }.

(** Ban records as [createKickedUser] makes them. *)
Definition untouchedBan (ku : KickedUser.t) : bool :=
  (KickedUser.rejoinAttempts ku =? 0) && negb (KickedUser.isPermanentlyBlocked ku).

(** What a room record holds besides its host. *)
Definition roomFacts (r : Room.t)
    : string * string * float * Z * Z * bool :=
  (Room.id r, Room.roomKey r, Room.maxSkips r, Room.createdAt r,
   Room.lastActivity r, Room.isExpired r).

(** A run of quiet inputs. *)
Definition quietRun (l : list RoutesRest.QuietInput) (s : Server.t) : Server.t :=
  fold_left (fun x i => RoutesRest.quiet i x) l s.

(** The skip counts that spending makes of the count [k]: one is
    subtracted, any number of times, each time from a count that is not
    [<= 0]. *)
Inductive spent (k : float) : float -> Prop :=
| spent_none : spent k k
| spent_one k' :
    spent k k' -> (k' <=? 0)%float = false -> spent k (k' - 1)%float.

(** The later record [x'] of a user compared with the earlier one [x]. *)
Definition sameUserLater (x x' : User.t) : Prop :=
  User.id x' = User.id x /\ User.username x' = User.username x /\
  User.roomId x' = User.roomId x /\ User.joinedAt x' = User.joinedAt x /\
  spent (User.skipsRemaining x) (User.skipsRemaining x') /\
  (User.isHost x = true -> User.isHost x' = true) /\
  (User.isOnline x = false -> User.isOnline x' = false).

(** Evaluation of a run, conjunct by conjunct. *)
Ltac conjuncts := repeat match goal with |- _ /\ _ => split end.
Ltac evaluate := conjuncts; vm_compute; first [reflexivity | tauto].

(** * Properties *)

(** ** Lists as JavaScript arrays and maps *)

Section ListFacts.
Context {A : Type}.
Implicit Types (p q : A -> bool) (f : A -> A) (l : list A).

Lemma find_update_first_same p f l :
  (forall x, p (f x) = p x) ->
  find p (update_first p f l) = option_map f (find p l).
Proof.
  intros Hp. induction l as [|x l IH]; simpl; [reflexivity|].
  destruct (p x) eqn:E; simpl.
  - now rewrite Hp, E.
  - now rewrite E.
Qed.

Lemma find_update_first_other p q f l :
  (forall x, q (f x) = q x) ->
  (forall x, q x = true -> p x = false) ->
  find q (update_first p f l) = find q l.
Proof.
  intros Hq Hpq. induction l as [|x l IH]; simpl; [reflexivity|].
  destruct (p x) eqn:E; simpl.
  - rewrite Hq. destruct (q x) eqn:E'; [|reflexivity].
    apply Hpq in E'. congruence.
  - now rewrite IH.
Qed.

Lemma map_filter_update_first {B : Type} (g : A -> B) p q f l :
  (forall x, g (f x) = g x) ->
  (forall x, q (f x) = q x) ->
  map g (filter q (update_first p f l)) = map g (filter q l).
Proof.
  intros Hg Hq. induction l as [|x l IH]; simpl; [reflexivity|].
  destruct (p x); simpl.
  - rewrite Hq. destruct (q x); simpl; now rewrite ?Hg.
  - destruct (q x); simpl; now rewrite IH.
Qed.

Lemma find_filter_negb p l : find p (filter (fun x => negb (p x)) l) = None.
Proof.
  induction l as [|x l IH]; simpl; [reflexivity|].
  destruct (p x) eqn:E; simpl; [assumption|]. now rewrite E.
Qed.

Lemma filter_filter_comm p q l :
  filter p (filter q l) = filter q (filter p l).
Proof.
  induction l as [|x l IH]; simpl; [reflexivity|].
  destruct (p x) eqn:Ep, (q x) eqn:Eq; simpl; rewrite ?Ep, ?Eq, IH; reflexivity.
Qed.

Lemma map_filter_key {B : Type} (g : A -> B) (r : B -> bool) l :
  map g (filter (fun x => r (g x)) l) = filter r (map g l).
Proof.
  induction l as [|x l IH]; simpl; [reflexivity|].
  destruct (r (g x)); simpl; now rewrite IH.
Qed.

Lemma count_split (r : A -> bool) l :
  (List.length (filter r l) + List.length (filter (fun x => negb (r x)) l)
   = List.length l)%nat.
Proof.
  induction l as [|x l IH]; simpl; [reflexivity|].
  destruct (r x); simpl; lia.
Qed.
End ListFacts.

(** ** Frame facts: what the helpers leave alone *)

Import Server Routes.

Lemma getVote_deleteVote v s : getVote v (deleteVote v s) = None.
Proof. unfold getVote, deleteVote. simpl. apply find_filter_negb. Qed.

Lemma activeVotes_handOver r l s : activeVotes (handOver r l s) = activeVotes s.
Proof. unfold handOver. now destruct (sort byJoinedAt l). Qed.

Lemma activeVotes_kickTarget c uuid r v s :
  activeVotes (kickTarget c uuid r v s) = activeVotes s.
Proof.
  unfold kickTarget. destruct (MemStorage.getUser _ _); [|reflexivity].
  match goal with |- context [find ?p ?l] => destruct (find p l) end;
    match goal with |- context [if ?b then _ else _] => destruct b end;
    rewrite ?activeVotes_handOver; reflexivity.
Qed.

Lemma outbox_handOver r l s :
  exists pre, outbox (handOver r l s) = (outbox s ++ pre)%list.
Proof.
  unfold handOver. destruct (sort byJoinedAt l).
  - exists []. now rewrite app_nil_r.
  - eexists. reflexivity.
Qed.

Lemma outbox_kickTarget c uuid r v s :
  exists pre, outbox (kickTarget c uuid r v s) = (outbox s ++ pre)%list.
Proof.
  unfold kickTarget. destruct (MemStorage.getUser _ _);
    [|exists []; now rewrite app_nil_r].
  match goal with |- context [find ?p ?l] => destruct (find p l) end;
    match goal with |- context [if ?b then _ else _] => destruct b end;
    try (match goal with |- context [handOver ?r ?l ?s] =>
           destruct (outbox_handOver r l s) as [pre ->] end);
    simpl; rewrite <- ?app_assoc; eexists; reflexivity.
Qed.

Lemma getVote_resolveVote c uuid voteId roomId s :
  getVote voteId (resolveVote c uuid voteId roomId s) = None.
Proof.
  unfold resolveVote. destruct (getVote voteId s) eqn:E; [|exact E].
  apply getVote_deleteVote.
Qed.

(** ** C10: resolving a vote that is already resolved *)

(** C10. A second resolution of the same vote identifier, from any
    connection and for any room argument, whether called directly or as the
    30-second timeout callback, returns the server state unchanged (stores,
    timers and outbox alike), because the first resolution leaves no vote
    under that identifier in [activeVotes]. *)
Theorem resolveVote_again_is_noop c uuid voteId roomId c' uuid' roomId' s :
  getVote voteId (resolveVote c uuid voteId roomId s) = None /\
  resolveVote c' uuid' voteId roomId' (resolveVote c uuid voteId roomId s)
  = resolveVote c uuid voteId roomId s /\
  run uuid' (VoteTimeout c' voteId roomId') (resolveVote c uuid voteId roomId s)
  = resolveVote c uuid voteId roomId s.
Proof.
  assert (H : getVote voteId (resolveVote c uuid voteId roomId s) = None)
    by apply getVote_resolveVote.
  split; [exact H|].
  assert (H' : forall k u r,
             resolveVote k u voteId r (resolveVote c uuid voteId roomId s)
             = resolveVote c uuid voteId roomId s).
  { intros k u r. unfold resolveVote at 1. now rewrite H. }
  split; [apply H'|]. simpl. apply H'.
Qed.

(** ** The host hand-over picks the earliest joiner among its candidates *)

Lemma handOver_picks_earliest (l : list User.t) :
  match sort Routes.byJoinedAt l with
  | [] => l = []
  | oldest :: _ =>
      In oldest l /\
      forall u, In u l -> User.joinedAt oldest <= User.joinedAt u
  end.
Proof.
  induction l as [|x l IH]; simpl; [reflexivity|].
  destruct (sort Routes.byJoinedAt l) as [|o rest]; simpl.
  - subst l. split; [now left|]. intros u [<-|[]]. lia.
  - destruct IH as [Hin Hmin]. unfold Routes.byJoinedAt at 1.
    destruct (User.joinedAt x - User.joinedAt o <=? 0) eqn:E.
    + apply Z.leb_le in E. split; [now left|].
      intros u [<-|Hu]; [lia|]. specialize (Hmin u Hu). lia.
    + apply Z.leb_gt in E. split; [now right|].
      intros u [<-|Hu]; [lia|]. now apply Hmin.
Qed.

(** ** The sweep and the stores it does not touch *)

Lemma reapRoom_keeps (s : Server.t) (room : Room.t) :
  MemStorage.gameStates (Server.storage (fst (Routes.reapRoom s room)))
  = MemStorage.gameStates (Server.storage s) /\
  MemStorage.users (Server.storage (fst (Routes.reapRoom s room)))
  = MemStorage.users (Server.storage s).
Proof.
  unfold Routes.reapRoom.
  destruct (deleteAllFilesInRoom _ _) as [up []]; split; reflexivity.
Qed.

Lemma cleanup_keeps (s : Server.t) :
  MemStorage.gameStates (Server.storage (Routes.cleanup s))
  = MemStorage.gameStates (Server.storage s) /\
  MemStorage.users (Server.storage (Routes.cleanup s))
  = MemStorage.users (Server.storage s).
Proof.
  unfold Routes.cleanup.
  generalize (MemStorage.getInactiveRooms (Server.now s) 30 (Server.storage s)).
  intros rooms. revert s.
  induction rooms as [|room rooms IH]; intros s; simpl; [now split|].
  destruct (reapRoom_keeps s room) as [Hg' Hu'].
  destruct (Routes.reapRoom s room) as [s1 []]; cbn [fst] in Hg', Hu'.
  - destruct (IH s1) as [Hg Hu]. split; congruence.
  - now split.
Qed.

(** ** C2: the outcome of a resolution *)

Lemma members_store_users f r s :
  (forall m, map User.id
               (filter (fun u => opt_eqb (User.roomId u) (Some r))
                  (MemStorage.users (f m)))
             = map User.id
                 (filter (fun u => opt_eqb (User.roomId u) (Some r))
                    (MemStorage.users m))) ->
  members r (store f s) = members r s.
Proof. intros H. unfold members, MemStorage.getUsersByRoom. simpl. apply H. Qed.

Lemma members_makeUserHost x r s :
  members r (store (MemStorage.makeUserHost x) s) = members r s.
Proof.
  apply members_store_users. intros m. simpl.
  now apply map_filter_update_first.
Qed.

Lemma members_handOver r' l r s : members r (handOver r' l s) = members r s.
Proof.
  unfold handOver. destruct (sort byJoinedAt l) as [|o ?]; [reflexivity|].
  change (members r (store (MemStorage.makeUserHost (User.id o)) s) = members r s).
  apply members_makeUserHost.
Qed.

Lemma members_deleteUser x r s :
  members r (store (MemStorage.deleteUser x) s)
  = filter (fun i => negb (i =s x)) (members r s).
Proof.
  unfold members, MemStorage.getUsersByRoom. simpl.
  rewrite filter_filter_comm.
  apply (map_filter_key User.id (fun i => negb (i =s x))).
Qed.

Lemma kickedUsers_handOver r l s :
  MemStorage.kickedUsers (storage (handOver r l s))
  = MemStorage.kickedUsers (storage s).
Proof. unfold handOver. now destruct (sort byJoinedAt l). Qed.

Lemma kickTarget_absent c uuid r v s :
  MemStorage.getUser (VoteData.targetUserId v) (storage s) = None ->
  kickTarget c uuid r v s = s.
Proof. intros H. unfold kickTarget. now rewrite H. Qed.

Lemma kickTarget_present c uuid r v s u :
  MemStorage.getUser (VoteData.targetUserId v) (storage s) = Some u ->
  (forall r', members r' (kickTarget c uuid r v s)
              = filter (fun i => negb (i =s VoteData.targetUserId v))
                  (members r' s)) /\
  MemStorage.kickedUsers (storage (kickTarget c uuid r v s))
  = map_set KickedUser.id (banRecord uuid c r u s)
      (MemStorage.kickedUsers (storage s)).
Proof.
  intros H. unfold kickTarget. rewrite H.
  match goal with |- context [find ?p ?l] => destruct (find p l) end;
    match goal with |- context [if ?b then _ else _] => destruct b end;
    (split; [intros r'|]);
    rewrite ?members_handOver, ?kickedUsers_handOver;
    try reflexivity;
    apply (members_deleteUser (VoteData.targetUserId v) r'
             (store (MemStorage.createKickedUser uuid (now s) r
                       (handshakeIp (Conn.socket c)) (User.username u)) s)).
Qed.

Lemma map_set_In {A : Type} (key : A -> string) (v : A) l :
  In v (map_set key v l).
Proof.
  induction l as [|x l IH]; simpl; [now left|].
  destruct (key x =s key v); simpl; auto.
Qed.

(** C2 (as amended). A vote that is still active resolves as passed exactly
    when its yes ballots outnumber its no ballots, both counted over the
    ballots cast only. A passed kick whose target is still a stored user
    removes the target from every room's user set and stores a ban record
    for the room; in every other case (fail, another kind, or a target
    that is no longer stored) the storage is left as it was. In all cases
    the last thing sent is [vote_resolved] to the room with the outcome and
    both counts, and the vote is no longer active. *)
Theorem resolveVote_outcome c uuid voteId roomId s v :
  getVote voteId s = Some v ->
  let s' := resolveVote c uuid voteId roomId s in
  let passed := Nat.ltb (noVotes v) (yesVotes v) in
  (passed = true <-> (noVotes v < yesVotes v)%nat) /\
  (yesVotes v + noVotes v = List.length (VoteData.votes v))%nat /\
  match MemStorage.getUser (VoteData.targetUserId v) (storage s) with
  | Some targetUser =>
      if passed && is_kick (VoteData.type v)
      then
        (forall r, members r s'
                   = filter (fun i => negb (i =s VoteData.targetUserId v))
                       (members r s)) /\
        ~ In (VoteData.targetUserId v) (members roomId s') /\
        In (banRecord uuid c roomId targetUser s)
          (MemStorage.kickedUsers (storage s'))
      else storage s' = storage s
  | None => storage s' = storage s
  end /\
  (exists pre,
      outbox s'
      = (outbox s ++ pre ++
           [ToRoom roomId
              (vote_resolved voteId passed (yesVotes v) (noVotes v))])%list) /\
  getVote voteId s' = None.
Proof.
  intros Hv s' passed.
  split; [apply Nat.ltb_lt|].
  split.
  { unfold yesVotes, noVotes, ballots.
    rewrite <- (length_map snd (VoteData.votes v)). apply count_split. }
  assert (Hs' : s' = deleteVote voteId
                       (emit (ToRoom roomId
                                (vote_resolved voteId passed (yesVotes v)
                                   (noVotes v)))
                          (match passed, VoteData.type v with
                           | true, kick => kickTarget c uuid roomId v s
                           | _, _ => s
                           end))).
  { subst s'. unfold resolveVote. now rewrite Hv. }
  split; [|split].
  - destruct (MemStorage.getUser (VoteData.targetUserId v) (storage s))
      as [u|] eqn:Hu.
    + destruct passed eqn:Hp, (VoteData.type v) eqn:Ht; simpl;
        try (rewrite Hs'; reflexivity).
      destruct (kickTarget_present c uuid roomId v s u Hu) as [Hm Hk].
      assert (Hm' : forall r, members r s'
                              = filter (fun i => negb (i =s VoteData.targetUserId v))
                                  (members r s)).
      { intros r. rewrite Hs'. apply Hm. }
      split; [exact Hm'|]. split.
      * rewrite Hm'. intros Hin. apply filter_In in Hin.
        destruct Hin as [_ Hin]. now rewrite String.eqb_refl in Hin.
      * rewrite Hs'. simpl. rewrite Hk. apply map_set_In.
    + rewrite Hs'. destruct passed, (VoteData.type v); simpl; try reflexivity.
      now rewrite (kickTarget_absent c uuid roomId v s Hu).
  - rewrite Hs'. simpl.
    destruct passed, (VoteData.type v);
      try (exists []; reflexivity).
    destruct (outbox_kickTarget c uuid roomId v s) as [pre ->].
    exists pre. now rewrite app_assoc.
  - subst s'. apply getVote_resolveVote.
Qed.

(** ** C4: ballots of one voter *)

Lemma find_map_set_votes (w u : string) (b : bool) (l : list (string * bool)) :
  option_map snd (find (fun e => fst e =s w) (map_set fst (u, b) l))
  = if u =s w then Some b
    else option_map snd (find (fun e => fst e =s w) l).
Proof.
  induction l as [|[k x] l IH]; simpl.
  - now destruct (u =s w).
  - destruct (k =s u) eqn:Eku; simpl.
    + apply String.eqb_eq in Eku. subst k.
      now destruct (u =s w).
    + destruct (k =s w) eqn:Ekw; simpl.
      * apply String.eqb_eq in Ekw. subst k.
        rewrite String.eqb_sym in Eku. now rewrite Eku.
      * exact IH.
Qed.

Lemma keys_map_set (u : string) (b : bool) (l : list (string * bool)) :
  map fst (map_set fst (u, b) l)
  = if existsb (fun k => k =s u) (map fst l) then map fst l
    else (map fst l ++ [u])%list.
Proof.
  induction l as [|[k x] l IH]; simpl; [reflexivity|].
  destruct (k =s u) eqn:E; simpl.
  - apply String.eqb_eq in E. now subst k.
  - rewrite IH. now destruct (existsb _ _).
Qed.

Lemma NoDup_map_set (u : string) (b : bool) (l : list (string * bool)) :
  NoDup (map fst l) -> NoDup (map fst (map_set fst (u, b) l)).
Proof.
  intros H. rewrite keys_map_set.
  destruct (existsb (fun k => k =s u) (map fst l)) eqn:E; [exact H|].
  apply NoDup_app; [exact H|repeat constructor; intros []|].
  intros a Ha [Heq|[]]. subst a.
  assert (existsb (fun k => k =s u) (map fst l) = true); [|congruence].
  apply existsb_exists. exists u. split; [exact Ha|apply String.eqb_refl].
Qed.

Lemma getVote_mutateVote voteId f s :
  (forall v, VoteData.voteId (f v) = VoteData.voteId v) ->
  getVote voteId (mutateVote voteId f s) = option_map f (getVote voteId s).
Proof.
  intros Hf. unfold getVote, mutateVote. simpl.
  apply find_update_first_same. intros v. now rewrite Hf.
Qed.

(** [cast_vote] on a vote that is active, from a joined connection. *)
Lemma cast_vote_active c uuid voteId vote roomId s v :
  truthy (SocketData.userId (Conn.socketData c)) = true ->
  getVote voteId s = Some v ->
  let votes' :=
    map_set fst (or_empty (SocketData.userId (Conn.socketData c)), vote)
      (VoteData.votes v) in
  let s2 :=
    emit (ToRoom roomId
            (vote_updated voteId (yesVotes (set_votes votes' v))
               (noVotes (set_votes votes' v))))
      (mutateVote voteId (set_votes votes') s) in
  cast_vote c uuid voteId vote roomId s
  = if Nat.leb (eligibleVoters roomId (VoteData.targetUserId v) s)
         (List.length votes')
    then resolveVote c uuid voteId roomId
           (match VoteData.timer v with
            | Some timer => clearTimeout timer s2
            | None => s2
            end)
    else s2.
Proof. intros Hc Hv. unfold cast_vote. now rewrite Hc, Hv. Qed.

Lemma cast_vote_inactive c uuid voteId vote roomId s :
  getVote voteId s = None -> cast_vote c uuid voteId vote roomId s = s.
Proof.
  intros Hv. unfold cast_vote. rewrite Hv.
  now destruct (negb (truthy _)).
Qed.

Lemma cast_vote_unjoined c uuid voteId vote roomId s :
  truthy (SocketData.userId (Conn.socketData c)) = false ->
  cast_vote c uuid voteId vote roomId s = s.
Proof. intros Hc. unfold cast_vote. now rewrite Hc. Qed.

Lemma castAll_inactive voteId roomId casts s :
  getVote voteId s = None -> castAll voteId roomId casts s = s.
Proof.
  revert s. induction casts as [|e casts IH]; intros s Hv; [reflexivity|].
  simpl. rewrite cast_vote_inactive by exact Hv. now apply IH.
Qed.

(** C4 (as amended). Over any run of [cast_vote] events on a vote, as long
    as the vote is still active at the end, every voter identity has at
    most one recorded ballot, and that ballot is the value of the voter's
    latest cast in the run (a repeated cast replaces the earlier ballot);
    voters who did not cast in the run keep the ballot they had. *)
Theorem ballots_follow_latest_cast voteId roomId casts s v v' :
  getVote voteId s = Some v ->
  NoDup (map fst (VoteData.votes v)) ->
  getVote voteId (castAll voteId roomId casts s) = Some v' ->
  NoDup (map fst (VoteData.votes v')) /\
  forall voter,
    ballotOf voter v'
    = match lastCast voter casts with
      | Some b => Some b
      | None => ballotOf voter v
      end.
Proof.
  revert s v. induction casts as [|[[c uuid] b] casts IH]; intros s v Hv Hnd Hv'.
  - simpl in Hv'. assert (v' = v) by congruence. subst v'. now split.
  - simpl in Hv'.
    destruct (truthy (SocketData.userId (Conn.socketData c))) eqn:Hc.
    + rewrite (cast_vote_active c uuid voteId b roomId s v Hc Hv) in Hv'.
      cbv zeta in Hv'.
      destruct (Nat.leb _ _).
      * rewrite castAll_inactive in Hv' by apply getVote_resolveVote.
        rewrite getVote_resolveVote in Hv'. discriminate.
      * set (votes' := map_set fst (or_empty (SocketData.userId (Conn.socketData c)), b)
                         (VoteData.votes v)) in *.
        assert (Hv2 : getVote voteId
                        (emit (ToRoom roomId
                                 (vote_updated voteId
                                    (yesVotes (set_votes votes' v))
                                    (noVotes (set_votes votes' v))))
                           (mutateVote voteId (set_votes votes') s))
                      = Some (set_votes votes' v)).
        { change (getVote voteId (mutateVote voteId (set_votes votes') s)
                  = Some (set_votes votes' v)).
          rewrite getVote_mutateVote by reflexivity. now rewrite Hv. }
        destruct (IH _ _ Hv2 (NoDup_map_set _ b _ Hnd) Hv') as [Hnd' Hb].
        split; [exact Hnd'|]. intros voter. rewrite Hb. simpl.
        destruct (lastCast voter casts); [reflexivity|].
        unfold castBy. simpl. rewrite Hc. simpl.
        unfold ballotOf. simpl. subst votes'. rewrite find_map_set_votes.
        now destruct (_ =s voter).
    + rewrite cast_vote_unjoined in Hv' by exact Hc.
      destruct (IH s v Hv Hnd Hv') as [Hnd' Hb].
      split; [exact Hnd'|]. intros voter. rewrite Hb. simpl.
      destruct (lastCast voter casts); [reflexivity|].
      unfold castBy. simpl. now rewrite Hc.
Qed.

(** ** C3: eligible voters, quorum and the resolution timer *)

Lemma timers_handOver r l s : timers (handOver r l s) = timers s.
Proof. unfold handOver. now destruct (sort byJoinedAt l). Qed.

Lemma timers_kickTarget c uuid r v s :
  timers (kickTarget c uuid r v s) = timers s.
Proof.
  unfold kickTarget. destruct (MemStorage.getUser _ _); [|reflexivity].
  match goal with |- context [find ?p ?l] => destruct (find p l) end;
    match goal with |- context [if ?b then _ else _] => destruct b end;
    rewrite ?timers_handOver; reflexivity.
Qed.

Lemma timers_resolveVote c uuid voteId roomId s :
  timers (resolveVote c uuid voteId roomId s) = timers s.
Proof.
  unfold resolveVote. destruct (getVote voteId s) as [v|]; [|reflexivity].
  simpl. destruct (Nat.ltb _ _), (VoteData.type v);
    rewrite ?timers_kickTarget; reflexivity.
Qed.

Lemma resolveVote_active c uuid voteId roomId s v :
  getVote voteId s = Some v ->
  exists pre,
    outbox (resolveVote c uuid voteId roomId s)
    = (outbox s ++ pre ++
         [ToRoom roomId
            (vote_resolved voteId (Nat.ltb (noVotes v) (yesVotes v))
               (yesVotes v) (noVotes v))])%list.
Proof.
  intros Hv. unfold resolveVote. rewrite Hv. simpl.
  destruct (Nat.ltb _ _), (VoteData.type v); try (exists []; reflexivity).
  destruct (outbox_kickTarget c uuid roomId v s) as [pre ->].
  exists pre. now rewrite app_assoc.
Qed.

Lemma length_filter_filter {A : Type} (p q : A -> bool) (l : list A) :
  (List.length (filter p (filter q l)) <= List.length (filter p l))%nat.
Proof.
  induction l as [|x l IH]; simpl; [lia|].
  destruct (q x), (p x) eqn:E; simpl; rewrite ?E; simpl; lia.
Qed.

Lemma ballots_counted v :
  (yesVotes v + noVotes v = List.length (VoteData.votes v))%nat.
Proof.
  unfold yesVotes, noVotes, ballots.
  rewrite <- (length_map snd (VoteData.votes v)). apply count_split.
Qed.

(** C3 (as amended). When a joined connection casts on an active vote, the
    eligible-voter count is the number of users stored for the room, online
    or offline, that are not the target (so it is at least the number of
    online users other than the target); the yes and no counts add up to
    the number of voters with a ballot. If that number has reached the
    eligible-voter count, the vote's timer is cancelled and the vote is
    resolved at once, with at least as many ballots as eligible voters;
    otherwise the vote stays active with fewer ballots than eligible voters
    and its timer stays pending. The timer is armed by [initiate_vote] for
    30 seconds, and its callback is the same resolution. *)
Theorem cast_vote_quorum c uuid voteId vote roomId s v
    c0 randomText roomId0 targetUserId type s0 uuid0 :
  truthy (SocketData.userId (Conn.socketData c)) = true ->
  getVote voteId s = Some v ->
  let s' := cast_vote c uuid voteId vote roomId s in
  let v' :=
    set_votes
      (map_set fst (or_empty (SocketData.userId (Conn.socketData c)), vote)
         (VoteData.votes v)) v in
  let roomUsers := MemStorage.getUsersByRoom roomId (storage s) in
  let eligible := eligibleVoters roomId (VoteData.targetUserId v) s in
  let ballotCount := List.length (VoteData.votes v') in
  (eligible
   + List.length (filter (fun u => User.id u =s VoteData.targetUserId v) roomUsers)
   = List.length roomUsers)%nat /\
  (List.length
     (filter (fun u => negb (User.id u =s VoteData.targetUserId v))
        (onlineUsers roomId s)) <= eligible)%nat /\
  (yesVotes v' + noVotes v' = ballotCount)%nat /\
  (if Nat.leb eligible ballotCount
   then
     (forall h, VoteData.timer v = Some h -> pending h s' = None) /\
     getVote voteId s' = None /\
     (exists pre,
         outbox s'
         = (outbox s ++
              ToRoom roomId (vote_updated voteId (yesVotes v') (noVotes v')) ::
              pre ++
              [ToRoom roomId
                 (vote_resolved voteId (Nat.ltb (noVotes v') (yesVotes v'))
                    (yesVotes v') (noVotes v'))])%list) /\
     (eligible <= yesVotes v' + noVotes v')%nat
   else
     getVote voteId s' = Some v' /\ timers s' = timers s /\
     (yesVotes v' + noVotes v' < eligible)%nat) /\
  timers (initiate_vote c0 randomText roomId0 targetUserId type s0)
  = (if (truthy (SocketData.userId (Conn.socketData c0))
         && truthy (SocketData.username (Conn.socketData c0)))
        && isSome (MemStorage.getUser targetUserId (storage s0))
     then
       (timers s0 ++
          [Timer.mk (nextTimer s0) (now s0 + 30000)
             (VoteTimeout c0
                ("vote-" ++ string_of_Z (now s0) ++ "-" ++ randomText) roomId0)
             None])%list
     else timers s0) /\
  run uuid0 (VoteTimeout c voteId roomId) s = resolveVote c uuid0 voteId roomId s.
Proof.
  intros Hc Hv s' v' roomUsers eligible ballotCount.
  assert (Hcount : (yesVotes v' + noVotes v' = ballotCount)%nat)
    by apply ballots_counted.
  split.
  { unfold eligible, eligibleVoters. fold roomUsers.
    rewrite Nat.add_comm.
    apply (count_split (fun u => User.id u =s VoteData.targetUserId v)). }
  split.
  { unfold eligible, eligibleVoters, onlineUsers, online.
    apply length_filter_filter. }
  split; [exact Hcount|].
  split; [|split; [|reflexivity]].
  - set (s2 := emit (ToRoom roomId
                       (vote_updated voteId (yesVotes v') (noVotes v')))
                 (mutateVote voteId (set_votes (VoteData.votes v')) s)).
    assert (Hs' : s' = if Nat.leb eligible ballotCount
                       then resolveVote c uuid voteId roomId
                              (match VoteData.timer v with
                               | Some timer => clearTimeout timer s2
                               | None => s2
                               end)
                       else s2)
      by exact (cast_vote_active c uuid voteId vote roomId s v Hc Hv).
    clearbody s'. subst s'.
    assert (Hv2 : getVote voteId s2 = Some v').
    { change (getVote voteId (mutateVote voteId (set_votes (VoteData.votes v')) s)
              = Some v').
      rewrite getVote_mutateVote by reflexivity. now rewrite Hv. }
    destruct (Nat.leb eligible ballotCount) eqn:Hq.
    + apply Nat.leb_le in Hq.
      split; [|split; [|split]].
      * intros h Hh. rewrite Hh. unfold pending.
        rewrite timers_resolveVote. simpl.
        apply (find_filter_negb (fun x => Nat.eqb (Timer.handle x) h)).
      * apply getVote_resolveVote.
      * match goal with
        | |- context [resolveVote c uuid voteId roomId ?x] =>
            destruct (resolveVote_active c uuid voteId roomId x v') as [pre Hpre];
              [destruct (VoteData.timer v); exact Hv2|]
        end.
        exists pre. rewrite Hpre.
        destruct (VoteData.timer v); simpl; now rewrite <- app_assoc.
      * lia.
    + apply Nat.leb_gt in Hq.
      split; [exact Hv2|]. split; [reflexivity|lia].
  - unfold initiate_vote.
    destruct (truthy (SocketData.userId (Conn.socketData c0))),
      (truthy (SocketData.username (Conn.socketData c0))); simpl; try reflexivity.
    destruct (MemStorage.getUser targetUserId (storage s0)); reflexivity.
Qed.

(** ** C5: use_skip *)




(** ** C7: spin_bottle *)

Lemma floor_mul_lt r n : in_unit r -> (0 < n)%nat -> (floor_mul r n < n)%nat.
Proof.
  intros [H0 H1] Hn. unfold floor_mul.
  assert (0 <= num r * Z.of_nat n / den r) by (apply Z.div_pos; nia).
  assert (num r * Z.of_nat n / den r < Z.of_nat n).
  { apply Z.div_lt_upper_bound; nia. }
  lia.
Qed.

Lemma count_key_NoDup {A : Type} (g : A -> string) (k : string) (l : list A) :
  NoDup (map g l) ->
  (List.length (filter (fun x => g x =s k) l) <= 1)%nat.
Proof.
  induction l as [|x l IH]; simpl; intros Hnd; [lia|].
  inversion Hnd as [|? ? Hx Hl]; subst.
  destruct (g x =s k) eqn:E; [|now apply IH].
  apply String.eqb_eq in E. simpl.
  assert (Hnone : filter (fun y => g y =s k) l = []).
  { clear -Hx E. induction l as [|y l IH]; simpl; [reflexivity|].
    destruct (g y =s k) eqn:E'.
    - apply String.eqb_eq in E'. exfalso. apply Hx. simpl. left. congruence.
    - apply IH. intros Hin. apply Hx. now right. }
  rewrite Hnone. simpl. lia.
Qed.

Lemma spin_bottle_joined c random random' roomId s :
  truthy (SocketData.userId (Conn.socketData c)) = true ->
  truthy (SocketData.roomId (Conn.socketData c)) = true ->
  let sd := Conn.socketData c in
  let me := Socket.id (Conn.socket c) in
  let otherUsers :=
    filter (fun u => negb (opt_eqb (Some (User.id u)) (SocketData.userId sd)))
      (onlineUsers roomId s) in
  spin_bottle c random random' roomId s
  = if Nat.ltb (List.length (onlineUsers roomId s)) 2
    then emit (ToSocket me (error "Not enough players")) s
    else
      match nth_error otherUsers (floor_mul random (List.length otherUsers)) with
      | None => emit (ToSocket me (error "Failed to spin bottle")) s
      | Some targetUser =>
          let duration := nth (floor_mul random' (List.length durations)) durations 0 in
          snd (setTimeout (SpinResolve c roomId targetUser) (duration + 1000)
                 (emit (ToRoom roomId
                          (bottle_spinning (User.id targetUser) duration
                             (SocketData.userId sd)))
                    (store (MemStorage.updateGameState (now s) roomId
                              (Patch.mk None (Some (Some (User.id targetUser)))
                                 (Some spinning) None None)) s)))
      end.
Proof. intros Hu Hr. unfold spin_bottle. now rewrite Hu, Hr. Qed.

Lemma opt_eqb_eq (a : option string) (b : string) :
  opt_eqb a (Some b) = true -> a = Some b.
Proof.
  destruct a as [x|]; simpl; [|discriminate].
  intros H. apply String.eqb_eq in H. now subst.
Qed.

(** The users [spin_bottle] counts and draws from are the stored users of
    the room that are online. *)
Lemma onlineUsers_present roomId s :
  onlineUsers roomId s
  = filter (fun u => opt_eqb (User.roomId u) (Some roomId) && User.isOnline u)
      (MemStorage.users (storage s)).
Proof.
  unfold onlineUsers, online, MemStorage.getUsersByRoom.
  induction (MemStorage.users (storage s)) as [|u l IH]; simpl; [reflexivity|].
  destruct (opt_eqb (User.roomId u) (Some roomId)); simpl; [|exact IH].
  destruct (User.isOnline u); now rewrite IH.
Qed.

(** C7. For a [spin_bottle] from a connection that has joined, over stored
    users with distinct ids and two draws in [0,1): with fewer than two
    stored users that are in the room and online, the only effect is the
    error "Not enough players" sent to the caller; otherwise the target is a
    stored user whose room is this room and who is online at that moment,
    is not the spinner, the duration broadcast with it is 2000, 4500 or
    7000, the room's game state is written as spinning with that target, and
    the resolution is scheduled at duration + 1000 ms. *)
Theorem spin_bottle_outcome c random random' roomId s :
  truthy (SocketData.userId (Conn.socketData c)) = true ->
  truthy (SocketData.roomId (Conn.socketData c)) = true ->
  NoDup (map User.id (MemStorage.users (storage s))) ->
  in_unit random -> in_unit random' ->
  let sd := Conn.socketData c in
  let s' := spin_bottle c random random' roomId s in
  let present :=
    filter (fun u => opt_eqb (User.roomId u) (Some roomId) && User.isOnline u)
      (MemStorage.users (storage s)) in
  if Nat.ltb (List.length present) 2
  then s' = emit (ToSocket (Socket.id (Conn.socket c))
                    (error "Not enough players")) s
  else
    exists targetUser duration,
      In targetUser (MemStorage.users (storage s)) /\
      User.roomId targetUser = Some roomId /\
      User.isOnline targetUser = true /\
      In targetUser (onlineUsers roomId s) /\
      Some (User.id targetUser) <> SocketData.userId sd /\
      In duration [2000; 4500; 7000] /\
      outbox s'
      = (outbox s ++
           [ToRoom roomId
              (bottle_spinning (User.id targetUser) duration
                 (SocketData.userId sd))])%list /\
      storage s'
      = MemStorage.updateGameState (now s) roomId
          (Patch.mk None (Some (Some (User.id targetUser))) (Some spinning)
             None None) (storage s) /\
      timers s'
      = (timers s ++
           [Timer.mk (nextTimer s) (now s + (duration + 1000))
              (SpinResolve c roomId targetUser) None])%list.
Proof.
  intros Hu Hr Hnd Hr1 Hr2 sd s' present. subst s' present.
  rewrite <- (onlineUsers_present roomId s).
  rewrite (spin_bottle_joined c random random' roomId s Hu Hr). cbv zeta.
  fold sd.
  destruct (Nat.ltb (List.length (onlineUsers roomId s)) 2) eqn:Hlen;
    [reflexivity|].
  apply Nat.ltb_ge in Hlen.
  set (mine := fun u => opt_eqb (Some (User.id u)) (SocketData.userId sd)).
  set (otherUsers := filter (fun u => negb (mine u)) (onlineUsers roomId s)).
  assert (Hmine : (List.length (filter mine (onlineUsers roomId s)) <= 1)%nat).
  { destruct (SocketData.userId sd) as [me|] eqn:Hme.
    - unfold onlineUsers, online, MemStorage.getUsersByRoom.
      etransitivity; [apply length_filter_filter|].
      etransitivity; [apply length_filter_filter|].
      apply (count_key_NoDup User.id me). exact Hnd.
    - unfold sd in Hme. rewrite Hme in Hu. discriminate. }
  assert (Hothers : (0 < List.length otherUsers)%nat).
  { pose proof (count_split mine (onlineUsers roomId s)) as Hsplit.
    fold otherUsers in Hsplit. lia. }
  destruct (nth_error otherUsers (floor_mul random (List.length otherUsers)))
    as [targetUser|] eqn:Hnth.
  - pose proof Hnth as Hrw. unfold otherUsers, mine in Hrw. rewrite Hrw.
    clear Hrw. exists targetUser,
      (nth (floor_mul random' (List.length durations)) durations 0).
    apply nth_error_In in Hnth. apply filter_In in Hnth.
    destruct Hnth as [Hin Hneq].
    pose proof Hin as Hpresent. rewrite onlineUsers_present in Hpresent.
    apply filter_In in Hpresent. destruct Hpresent as [Hstored Hpresent].
    apply andb_prop in Hpresent. destruct Hpresent as [Hroom Honline].
    split; [exact Hstored|]. split; [exact (opt_eqb_eq _ _ Hroom)|].
    split; [exact Honline|]. split; [exact Hin|]. split.
    { intros Heq. unfold mine in Hneq. rewrite <- Heq in Hneq. simpl in Hneq.
      now rewrite String.eqb_refl in Hneq. }
    split.
    { apply (nth_In durations 0). apply floor_mul_lt; [exact Hr2|simpl; lia]. }
    repeat split.
  - apply nth_error_None in Hnth.
    pose proof (floor_mul_lt random (List.length otherUsers) Hr1 Hothers). lia.
Qed.

(** ** C1: the phase written by each game event *)

Lemma phaseOf_updateGameState r now roomId p s :
  phaseOf r (store (MemStorage.updateGameState now roomId p) s)
  = if r =s roomId
    then option_map
           (fun q => match Patch.gamePhase p with Some x => x | None => q end)
           (phaseOf r s)
    else phaseOf r s.
Proof.
  unfold phaseOf, MemStorage.getGameState, MemStorage.updateGameState. simpl.
  destruct (r =s roomId) eqn:E.
  - apply String.eqb_eq in E. subst r.
    rewrite find_update_first_same by reflexivity.
    now destruct (find _ _).
  - rewrite find_update_first_other; [reflexivity|reflexivity|].
    intros g Hg. apply String.eqb_eq in Hg. rewrite Hg. exact E.
Qed.

Lemma storage_clearInactivityTimer userId s :
  storage (clearInactivityTimer userId s) = storage s.
Proof.
  unfold clearInactivityTimer.
  now destruct (find _ (inactivityTimers s)) as [[? ?]|].
Qed.

Lemma storage_startInactivityTimer c roomId userId username s :
  storage (startInactivityTimer c roomId userId username s) = storage s.
Proof.
  unfold startInactivityTimer. simpl. apply storage_clearInactivityTimer.
Qed.

Lemma phaseOf_storage r s1 s2 :
  storage s1 = storage s2 -> phaseOf r s1 = phaseOf r s2.
Proof. unfold phaseOf. now intros ->. Qed.

Lemma findIndex_bounds {A : Type} (p : A -> bool) (l : list A) :
  -1 <= findIndex p l < Z.of_nat (List.length l).
Proof.
  induction l as [|x l IH]; simpl List.length; simpl findIndex; [lia|].
  destruct (p x); [lia|].
  destruct (findIndex p l <? 0) eqn:E; [lia|].
  apply Z.ltb_ge in E. lia.
Qed.

Lemma next_turn_outcome roomId s :
  let n := List.length (onlineUsers roomId s) in
  exists p,
    Patch.gamePhase p = Some (if Nat.eqb n 2 then choosing else waiting) /\
    storage (next_turn roomId s)
    = if Nat.ltb n 2 then storage s
      else MemStorage.updateGameState (now s) roomId p (storage s).
Proof.
  intros n. unfold next_turn.
  change (online (MemStorage.getUsersByRoom roomId (storage s)))
    with (onlineUsers roomId s). fold n.
  destruct (Nat.ltb n 2) eqn:Hn.
  { exists (Patch.mk None None (Some (if Nat.eqb n 2 then choosing else waiting))
              None None). now split. }
  apply Nat.ltb_ge in Hn.
  match goal with
  | |- context [nth_error ?l ?i] => destruct (nth_error l i) as [u|] eqn:Hnth
  end.
  - eexists. split; [|reflexivity]. reflexivity.
  - exfalso. apply nth_error_None in Hnth. fold n in Hnth.
    match type of Hnth with
    | context [findIndex ?p ?l] => pose proof (findIndex_bounds p l) as Hb
    end.
    fold n in Hb.
    match type of Hb with
    | _ <= ?i < _ =>
        assert (0 <= Z.rem (i + 1) (Z.of_nat n) < Z.of_nat n)
          by (apply Z.rem_bound_pos; lia)
    end.
    lia.
Qed.

Lemma phaseOf_choose r c roomId ch s :
  phaseOf r (choose_truth_or_dare c roomId ch s)
  = if truthy (SocketData.userId (Conn.socketData c)) && (r =s roomId)
    then option_map (fun _ => asking) (phaseOf r s)
    else phaseOf r s.
Proof.
  unfold choose_truth_or_dare.
  destruct (truthy _); simpl negb; cbv iota; [|reflexivity].
  cbv zeta.
  match goal with
  | |- context [store (MemStorage.updateGameState ?t ?rid ?p) ?x] =>
      pose proof (phaseOf_updateGameState r t rid p x) as Hp
  end.
  simpl Patch.gamePhase in Hp.
  rewrite (phaseOf_storage r (clearInactivityTimer _ s) s) in Hp
    by apply storage_clearInactivityTimer.
  simpl andb.
  match goal with
  | |- context [match ?o with Some _ => _ | None => _ end] =>
      match o with
      | MemStorage.getUser _ _ => destruct o
      end
  end;
    [rewrite (phaseOf_storage r (startInactivityTimer _ _ _ _ _) _
                (storage_startInactivityTimer _ _ _ _ _))|];
    exact Hp.
Qed.

Lemma phaseOf_submit r c roomId q s :
  phaseOf r (submit_question c roomId q s)
  = if truthy (SocketData.userId (Conn.socketData c)) && (r =s roomId)
    then option_map (fun _ => answering) (phaseOf r s)
    else phaseOf r s.
Proof.
  unfold submit_question.
  destruct (truthy _); simpl negb; cbv iota; [|reflexivity].
  cbv zeta.
  match goal with
  | |- context [store (MemStorage.updateGameState ?t ?rid ?p) ?x] =>
      pose proof (phaseOf_updateGameState r t rid p x) as Hp
  end.
  simpl Patch.gamePhase in Hp.
  rewrite (phaseOf_storage r (clearInactivityTimer _ s) s) in Hp
    by apply storage_clearInactivityTimer.
  exact Hp.
Qed.

Lemma phaseOf_next_turn r roomId s :
  let n := List.length (onlineUsers roomId s) in
  phaseOf r (next_turn roomId s)
  = if negb (Nat.ltb n 2) && (r =s roomId)
    then option_map (fun _ => if Nat.eqb n 2 then choosing else waiting)
           (phaseOf r s)
    else phaseOf r s.
Proof.
  intros n. destruct (next_turn_outcome roomId s) as [p [Hp Hs]].
  fold n in Hp, Hs. unfold phaseOf at 1. rewrite Hs.
  destruct (Nat.ltb n 2) eqn:Hn; [reflexivity|].
  pose proof (phaseOf_updateGameState r (now s) roomId p s) as Hq.
  unfold phaseOf at 1 in Hq. simpl storage in Hq. rewrite Hq, Hp.
  reflexivity.
Qed.

Lemma phaseOf_use_skip r c roomId s :
  phaseOf r (use_skip c roomId s) = phaseOf r s.
Proof.
  unfold use_skip.
  destruct (negb _); [reflexivity|].
  destruct (MemStorage.getUser _ _) as [u|]; [|reflexivity].
  destruct (_ <=? 0)%float; reflexivity.
Qed.

Lemma phaseOf_spin_bottle r c r1 r2 roomId s :
  phaseOf r (spin_bottle c r1 r2 roomId s) = phaseOf r s \/
  ((r =s roomId) = true /\
   phaseOf r (spin_bottle c r1 r2 roomId s)
   = option_map (fun _ => spinning) (phaseOf r s)).
Proof.
  unfold spin_bottle.
  destruct (negb _ || negb _); [now left|].
  destruct (Nat.ltb _ 2); [now left|].
  destruct (nth_error _ _) as [u|]; [|now left].
  cbv zeta.
  match goal with
  | |- context [store (MemStorage.updateGameState ?t ?rid ?p) ?x] =>
      pose proof (phaseOf_updateGameState r t rid p x) as Hp
  end.
  simpl in Hp. destruct (r =s roomId) eqn:E.
  - right. split; [reflexivity|exact Hp].
  - left. exact Hp.
Qed.

(** C1 (as amended). No handler of a game event consults the room's current
    phase. Whatever that phase is: [choose_truth_or_dare] and
    [submit_question] from a joined connection write asking and answering;
    [next_turn] with at least two users online writes choosing (exactly two
    online) or waiting; [spin_bottle] either leaves the phase or writes
    spinning; [use_skip] leaves it; and the phase of every other room is
    left alone. The phase each event writes is the end of its edge, so the
    change follows an edge whenever the event arrives in the phase at the
    source of its edge. *)
Theorem phase_after_event c roomId e s :
  let s' := dispatch c roomId e s in
  let joined := truthy (SocketData.userId (Conn.socketData c)) in
  let n := List.length (onlineUsers roomId s) in
  (forall r, (r =s roomId) = false -> phaseOf r s' = phaseOf r s) /\
  match e with
  | SpinBottle _ _ =>
      phaseOf roomId s' = phaseOf roomId s \/
      phaseOf roomId s' = option_map (fun _ => spinning) (phaseOf roomId s)
  | ChooseTruthOrDare _ =>
      phaseOf roomId s'
      = if joined then option_map (fun _ => asking) (phaseOf roomId s)
        else phaseOf roomId s
  | SubmitQuestion _ =>
      phaseOf roomId s'
      = if joined then option_map (fun _ => answering) (phaseOf roomId s)
        else phaseOf roomId s
  | NextTurn =>
      phaseOf roomId s'
      = if Nat.ltb n 2 then phaseOf roomId s
        else option_map (fun _ => if Nat.eqb n 2 then choosing else waiting)
               (phaseOf roomId s)
  | UseSkip => phaseOf roomId s' = phaseOf roomId s
  end /\
  forallb (edge (source e)) (writes e) = true.
Proof.
  intros s' joined n. subst s'. split; [|split].
  - intros r Hr. destruct e as [r1 r2|ch|q| |]; simpl dispatch.
    + destruct (phaseOf_spin_bottle r c r1 r2 roomId s) as [H|[H _]];
        [exact H|congruence].
    + rewrite phaseOf_choose, Hr. now rewrite andb_false_r.
    + rewrite phaseOf_submit, Hr. now rewrite andb_false_r.
    + rewrite phaseOf_next_turn, Hr. now rewrite andb_false_r.
    + apply phaseOf_use_skip.
  - destruct e as [r1 r2|ch|q| |]; simpl dispatch.
    + destruct (phaseOf_spin_bottle roomId c r1 r2 roomId s) as [H|[_ H]];
        [now left|now right].
    + rewrite phaseOf_choose, String.eqb_refl, andb_true_r. reflexivity.
    + rewrite phaseOf_submit, String.eqb_refl, andb_true_r. reflexivity.
    + rewrite phaseOf_next_turn, String.eqb_refl, andb_true_r. fold n.
      now destruct (Nat.ltb n 2).
    + apply phaseOf_use_skip.
  - now destruct e.
Qed.

(** ** The runs of [Scenario] *)

Import Scenario.


(** C1, counterexample. In the three-player room, after a turn advance the
    phase is waiting; carol's [choose_truth_or_dare] is accepted there and
    the phase becomes asking, which is not an edge out of waiting. *)
Lemma choose_accepted_while_waiting :
  phaseOf "R" nextTurned = Some waiting /\
  phaseOf "R" choseWhileWaiting = Some asking /\
  edge waiting asking = false.
Proof. evaluate. Qed.

(** C2, counterexample. Two votes were started against carol. The first
    passed and removed her. The second has one yes ballot when its timer
    fires: it resolves as a passed kick, and no ban record is added to the
    one the first vote created. *)
Lemma second_kick_leaves_no_ban_record :
  getVote vote2 secondYes
  = Some (VoteData.mk vote2 "C" "carol" "B" "bobby" kick [("A", true)]
            (Some 2%nat)) /\
  MemStorage.getUser "C" (storage secondYes) = None /\
  last (outbox (fireNext "K3" secondYes)) (Join "" "")
  = ToRoom "R" (vote_resolved vote2 true 1 0) /\
  map KickedUser.id (MemStorage.kickedUsers (storage secondYes)) = ["K1"] /\
  MemStorage.kickedUsers (storage (fireNext "K3" secondYes))
  = MemStorage.kickedUsers (storage secondYes).
Proof. evaluate. Qed.

(** C3, counterexample. carol is offline but still stored for the room.
    In the vote against bobby the eligible-voter count is 2 (alice and
    carol) while two users are online, so online users minus one is 1;
    alice's ballot alone does not reach quorum, and the vote resolves when
    the target bobby casts the second ballot. *)
Lemma eligible_counts_offline_users :
  map User.id (onlineUsers "R" aliceYes) = ["A"; "B"] /\
  eligibleVoters "R" "B" aliceYes = 2%nat /\
  option_map VoteData.votes (getVote voteB aliceYes) = Some [("A", true)] /\
  getVote voteB bobbyNo = None /\
  last (outbox bobbyNo) (Join "" "")
  = ToRoom "R" (vote_resolved voteB false 1 1).
Proof. evaluate. Qed.

(** C4, counterexample. alice casts yes and then no on the same vote: the
    second cast is accepted and her recorded ballot is no. *)
Lemma second_cast_overwrites :
  option_map (ballotOf "A") (getVote vote1 firstYes) = Some (Some true) /\
  option_map (ballotOf "A") (getVote vote1 changedMind) = Some (Some false) /\
  last (outbox changedMind) (Join "" "") = ToRoom "R" (vote_updated vote1 0 1).
Proof. evaluate. Qed.


(** The connections of [Scenario] are the ones [join_room] returns. *)
Lemma joined_connections :
  fst (join_room (fresh "1") "A" "m1" "R" "alice" created) = alice /\
  fst (join_room (fresh "2") "B" "m2" "R" "bobby" one) = bobby /\
  fst (join_room (fresh "3") "C" "m3" "R" "carol" two) = carol.
Proof. evaluate. Qed.

(** C6, at the failing input. The host alice is voted out while bobby, who
    joined before carol, is offline: [resolveVote] sorts all remaining users
    and hands the host role to bobby. Afterwards carol is the only user
    online and no online user is host. When alice's grace period expires
    instead, the reconnect timeout sorts the online users only and carol
    becomes host. *)
Theorem kick_hands_host_to_offline_user :
  map (fun u => (User.id u, User.isOnline u, User.joinedAt u))
    (MemStorage.getUsersByRoom "R" (storage bobbyGone))
  = [("A", true, 10); ("B", false, 20); ("C", true, 30)] /\
  map User.id (onlineHosts "R" bobbyGone) = ["A"] /\
  last (outbox hostVotedOut) (Join "" "")
  = ToRoom "R" (vote_resolved voteA true 1 0) /\
  In (ToRoom "R" (new_host "B" "bobby")) (outbox hostVotedOut) /\
  option_map Room.hostUserId (MemStorage.getRoom "R" (storage hostVotedOut))
  = Some (Some "B") /\
  map User.id (onlineUsers "R" hostVotedOut) = ["C"] /\
  onlineHosts "R" hostVotedOut = [] /\
  last (outbox hostGone) (Join "" "") = ToRoom "R" (new_host "C" "carol") /\
  map User.id (onlineHosts "R" hostGone) = ["C"].
Proof. evaluate. Qed.

(** C8, at the failing input. Supervision of alice is armed at 1000 ms and
    the warning is sent at 121000 ms. alice submits her question at
    122000 ms, which moves the phase to answering and clears her entry of
    [inactivityTimers], but the second-stage timeout is held nowhere and
    stays pending: at 126000 ms a kick vote by "system" against alice is
    created. *)
Theorem second_stage_survives_the_action :
  map (fun x => (Timer.due x, Timer.action x)) (tl (timers armed))
  = [(121000, InactivityWarn bobby "R" "A" "alice")] /\
  last (outbox warned) (Join "" "") = ToRoom "R" (user_inactive "A" "alice") /\
  now warned = 121000 /\
  phaseOf "R" answered = Some answering /\
  inactivityTimers answered = [] /\
  map (fun x => (Timer.due x, Timer.action x)) (tl (timers answered))
  = [(126000, InactivityKick bobby "R" "A" "alice")] /\
  now escalated = 126000 /\
  map (fun v => (VoteData.initiatorUserId v, VoteData.targetUserId v,
                 VoteData.type v)) (activeVotes escalated)
  = [("system", "A", kick)].
Proof. evaluate. Qed.

(** C9, at the failing input. No sweep removes a game state record. The
    idle room's last activity is at 10 ms: the sweeps up to the 30th minute
    leave it; the sweep at the 35th minute deletes the room record and its
    messages, and the room's game state record and user are still stored
    afterwards. *)
Theorem sweep_keeps_the_game_state :
  (forall s,
      MemStorage.gameStates (storage (cleanup s))
      = MemStorage.gameStates (storage s)) /\
  cleanupEvery = 300000 /\
  now (idle 6) = 1800000 /\
  map Room.id (MemStorage.rooms (storage (idle 6))) = ["R"] /\
  now (idle 7) = 2100000 /\
  MemStorage.rooms (storage (idle 7)) = [] /\
  MemStorage.messages (storage (idle 7)) = [] /\
  option_map GameState.roomId (MemStorage.getGameState "R" (storage (idle 7)))
  = Some "R" /\
  map User.id (onlineUsers "R" (idle 7)) = ["A"].
Proof.
  split; [intros s; apply cleanup_keeps|].
  evaluate.
Qed.

(** *** Instances *)

(** C2, instance: the first vote against carol, holding alice's yes ballot, is resolved. *)
Lemma resolveVote_outcome_witness :
  getVote vote1 firstYes
  = Some (VoteData.mk vote1 "C" "carol" "A" "alice" kick [("A", true)]
            (Some 1%nat)) /\
  getVote vote1 (resolveVote alice "K1" vote1 "R" firstYes) = None.
Proof.
  assert (H : getVote vote1 firstYes
              = Some (VoteData.mk vote1 "C" "carol" "A" "alice" kick
                        [("A", true)] (Some 1%nat)))
    by (vm_compute; reflexivity).
  split; [exact H|].
  destruct (resolveVote_outcome alice "K1" vote1 "R" firstYes _ H)
    as (_ & _ & _ & _ & W).
  exact W.
Defined.

(** C3, instance: bobby casts on the vote against him after alice. *)
Lemma cast_vote_quorum_witness :
  truthy (SocketData.userId (Conn.socketData bobby)) = true /\
  getVote voteB aliceYes
  = Some (VoteData.mk voteB "B" "bobby" "A" "alice" kick [("A", true)]
            (Some 3%nat)) /\
  (eligibleVoters "R" "B" aliceYes
   + List.length
       (filter (fun u => User.id u =s "B")
          (MemStorage.getUsersByRoom "R" (storage aliceYes)))
   = List.length (MemStorage.getUsersByRoom "R" (storage aliceYes)))%nat.
Proof.
  assert (Hc : truthy (SocketData.userId (Conn.socketData bobby)) = true)
    by reflexivity.
  assert (H : getVote voteB aliceYes
              = Some (VoteData.mk voteB "B" "bobby" "A" "alice" kick
                        [("A", true)] (Some 3%nat)))
    by (vm_compute; reflexivity).
  split; [exact Hc|]. split; [exact H|].
  destruct (cast_vote_quorum bobby "K1" voteB false "R" aliceYes _
              alice "0.5" "R" "B" kick carolGone "K1" Hc H) as (W & _).
  exact W.
Defined.

(** C4, instance: alice casts yes and then no on the first vote. *)
Lemma ballots_follow_latest_cast_witness :
  getVote vote1 bothStarted
  = Some (VoteData.mk vote1 "C" "carol" "A" "alice" kick [] (Some 1%nat)) /\
  NoDup (@nil string) /\
  getVote vote1
    (castAll vote1 "R" [(alice, "K1", true); (alice, "K1", false)] bothStarted)
  = Some (VoteData.mk vote1 "C" "carol" "A" "alice" kick [("A", false)]
            (Some 1%nat)) /\
  ballotOf "A"
    (VoteData.mk vote1 "C" "carol" "A" "alice" kick [("A", false)] (Some 1%nat))
  = Some false.
Proof.
  assert (H : getVote vote1 bothStarted
              = Some (VoteData.mk vote1 "C" "carol" "A" "alice" kick []
                        (Some 1%nat)))
    by (vm_compute; reflexivity).
  assert (H' : getVote vote1
                 (castAll vote1 "R" [(alice, "K1", true); (alice, "K1", false)]
                    bothStarted)
               = Some (VoteData.mk vote1 "C" "carol" "A" "alice" kick
                         [("A", false)] (Some 1%nat)))
    by (vm_compute; reflexivity).
  split; [exact H|]. split; [constructor|]. split; [exact H'|].
  destruct (ballots_follow_latest_cast vote1 "R" _ bothStarted _ _
              H (NoDup_nil string) H') as (_ & W).
  exact (W "A").
Defined.

(** C7, instance: alice spins while bobby is offline, both draws one half;
    the target is carol. *)
Lemma spin_bottle_outcome_witness :
  truthy (SocketData.userId (Conn.socketData alice)) = true /\
  truthy (SocketData.roomId (Conn.socketData alice)) = true /\
  map (fun u => (User.id u, User.roomId u, User.isOnline u))
    (MemStorage.users (storage bobbyGone))
  = [("A", Some "R", true); ("B", Some "R", false); ("C", Some "R", true)] /\
  in_unit half /\
  exists targetUser duration,
    User.id targetUser = "C" /\
    User.isOnline targetUser = true /\
    In duration [2000; 4500; 7000] /\
    outbox (spin_bottle alice half half "R" bobbyGone)
    = (outbox bobbyGone ++
         [ToRoom "R" (bottle_spinning (User.id targetUser) duration (Some "A"))])%list.
Proof.
  assert (Hu : truthy (SocketData.userId (Conn.socketData alice)) = true)
    by reflexivity.
  assert (Hr : truthy (SocketData.roomId (Conn.socketData alice)) = true)
    by reflexivity.
  assert (Hh : in_unit half) by (unfold in_unit; simpl; lia).
  assert (Hids : map User.id (MemStorage.users (storage bobbyGone))
                 = ["A"; "B"; "C"]) by (vm_compute; reflexivity).
  assert (Hall : map (fun u => (User.id u, User.roomId u, User.isOnline u))
                   (MemStorage.users (storage bobbyGone))
                 = [("A", Some "R", true); ("B", Some "R", false);
                    ("C", Some "R", true)]) by (vm_compute; reflexivity).
  assert (Hnd : NoDup (map User.id (MemStorage.users (storage bobbyGone)))).
  { rewrite Hids. repeat constructor; simpl; intuition discriminate. }
  assert (Hn : Nat.ltb
                 (List.length
                    (filter
                       (fun u => opt_eqb (User.roomId u) (Some "R")
                                 && User.isOnline u)
                       (MemStorage.users (storage bobbyGone)))) 2 = false)
    by (vm_compute; reflexivity).
  split; [exact Hu|]. split; [exact Hr|]. split; [exact Hall|].
  split; [exact Hh|].
  pose proof (spin_bottle_outcome alice half half "R" bobbyGone
                Hu Hr Hnd Hh Hh) as W.
  cbv zeta in W. rewrite Hn in W.
  destruct W as (targetUser & duration & Hin & _ & Hon & _ & Hne & Hd & Hout & _).
  exists targetUser, duration.
  split; [|split; [exact Hon|split; [exact Hd|exact Hout]]].
  apply (in_map (fun u => (User.id u, User.roomId u, User.isOnline u))) in Hin.
  rewrite Hall in Hin. cbn [In] in Hin.
  destruct Hin as [H|[H|[H|[]]]]; inversion H as [[Hid Hroom Honl]].
  - exfalso. apply Hne. now rewrite <- Hid.
  - rewrite Hon in Honl. discriminate.
  - reflexivity.
Defined.

(** * Further properties of the server *)

(** ** Upload names and deletion *)

Lemma basename_from_no_slash (s cur last : string) :
  has_slash s = false ->
  basename_from cur last s = if (cur ++ s) =s "" then last else (cur ++ s)%string.
Proof.
  revert cur. induction s as [|c s IH]; intros cur Hs; simpl in *.
  - assert ((cur ++ "")%string = cur) as ->; [|reflexivity].
    induction cur; simpl; congruence.
  - apply orb_false_iff in Hs. destruct Hs as [Hc Hs]. rewrite Hc.
    rewrite IH by exact Hs.
    assert (((cur ++ String c "") ++ s)%string = (cur ++ String c s)%string) as ->;
      [|reflexivity].
    clear. induction cur; simpl; congruence.
Qed.

Lemma basename_fileUrl_name (filename : string) :
  filename <> "" -> has_slash filename = false ->
  basename (fileUrl filename) = filename.
Proof.
  intros Hne Hs.
  unfold basename, fileUrl. cbn [append basename_from Ascii.eqb Bool.eqb String.eqb].
  rewrite basename_from_no_slash by exact Hs. simpl.
  destruct filename; [contradiction|reflexivity].
Qed.

(** X1. The URL the upload route answers for a stored file leads back to
    that file: for a non-empty file name without a slash, the base name of
    [/uploads/<name>] is the name. (For the empty name it is "uploads".) *)
Theorem basename_of_fileUrl (filename : string) :
  filename <> "" -> has_slash filename = false ->
  basename (fileUrl filename) = filename /\ basename (fileUrl "") = "uploads".
Proof.
  intros Hne Hs. split; [|reflexivity].
  now apply basename_fileUrl_name.
Qed.

Lemma filter_filter_and {A : Type} (p q : A -> bool) (l : list A) :
  filter q (filter p l) = filter (fun x => p x && q x) l.
Proof.
  induction l as [|x l IH]; simpl; [reflexivity|].
  destruct (p x); simpl; [destruct (q x)|]; now rewrite IH.
Qed.

Lemma filter_all {A : Type} (l : list A) : filter (fun _ => true) l = l.
Proof. induction l; simpl; congruence. Qed.

Lemma isDirectory_names (filename : string) :
  isDirectory filename
  = existsb (fun d => filename =s d) [""; "."; ".."].
Proof.
  unfold isDirectory. cbn [existsb].
  destruct (filename =s ""), (filename =s "."), (filename =s ".."); reflexivity.
Qed.

Lemma takeWhile_all {A : Type} (p : A -> bool) (l : list A) :
  existsb p l = false -> takeWhile (fun x => negb (p x)) l = l.
Proof.
  induction l as [|x l IH]; simpl; [reflexivity|].
  destruct (p x); simpl; [discriminate|]. intros H. now rewrite IH.
Qed.

(** What [deleteAllFilesInRoom] leaves and how it ends. *)
Lemma deleteAllFilesInRoom_outcome (messages : list Message.t)
    (uploads : list string) :
  deleteAllFilesInRoom messages uploads
  = (filter (fun f => negb (namedBy (beforeDirectory messages) f)) uploads,
     if existsb namesDirectory messages then Threw else Returned).
Proof.
  revert uploads. induction messages as [|msg messages IH]; intros uploads.
  - cbn. now rewrite filter_all.
  - cbn [deleteAllFilesInRoom beforeDirectory takeWhile existsb].
    unfold namesDirectory at 1 3, deleteFile.
    rewrite <- isDirectory_names.
    destruct (truthy (Message.mediaUrl msg)) eqn:Hurl; cbn [andb negb orb].
    + destruct (isDirectory (basename (or_empty (Message.mediaUrl msg)))) eqn:Hd;
        cbn [negb orb].
      * cbn. now rewrite filter_all.
      * rewrite IH. f_equal. fold (beforeDirectory messages).
        rewrite filter_filter_and. apply filter_ext. intros f.
        unfold namedBy at 2. cbn [existsb]. rewrite Hurl. cbn [andb].
        fold (namedBy (beforeDirectory messages) f).
        now rewrite negb_orb.
    + rewrite IH. f_equal. fold (beforeDirectory messages).
      apply filter_ext. intros f.
      unfold namedBy at 2. cbn [existsb]. rewrite Hurl. reflexivity.
Qed.

(** X2. [deleteAllFilesInRoom] goes through the messages in order until
    one has a media URL whose base name is that of a directory (empty, [.]
    or [..]): there [fs.unlinkSync] throws and the call ends. Up to there,
    or to the end when there is no such message, it removes from the upload
    directory exactly the files whose name is the base name of the media
    URL of one of the messages, and keeps the others in order; a message
    without a media URL names no file. So the file of an upload, stored
    under a non-empty name without a slash and referred to by the URL the
    upload route answered in a message that is reached, is gone. *)
Theorem deleteAllFilesInRoom_removes_named (messages : list Message.t)
    (uploads : list string) :
  let reached := beforeDirectory messages in
  deleteAllFilesInRoom messages uploads
  = (filter (fun f => negb (namedBy reached f)) uploads,
     if existsb namesDirectory messages then Threw else Returned) /\
  (existsb namesDirectory messages = false -> reached = messages) /\
  (forall msg, In msg reached -> In msg messages /\ namesDirectory msg = false) /\
  forall msg filename,
    In msg reached -> Message.mediaUrl msg = Some (fileUrl filename) ->
    filename <> "" -> has_slash filename = false ->
    ~ In filename (fst (deleteAllFilesInRoom messages uploads)).
Proof.
  intros reached. split; [apply deleteAllFilesInRoom_outcome|].
  split; [apply takeWhile_all|]. split.
  - intros msg. unfold reached, beforeDirectory.
    induction messages as [|m messages IH]; simpl; [contradiction|].
    destruct (namesDirectory m) eqn:Hm; simpl; [contradiction|].
    intros [<-|Hin]; [now split; [left|]|].
    destruct (IH Hin) as [H1 H2]. split; [now right|exact H2].
  - intros msg filename Hmsg Hurl Hne Hs Hin.
    rewrite deleteAllFilesInRoom_outcome in Hin. cbn [fst] in Hin.
    apply filter_In in Hin. destruct Hin as [_ Hin].
    apply negb_true_iff in Hin. fold reached in Hin.
    assert (namedBy reached filename = true); [|congruence].
    apply existsb_exists. exists msg. split; [exact Hmsg|].
    rewrite Hurl. cbn [or_empty].
    rewrite (basename_fileUrl_name filename Hne Hs), String.eqb_refl.
    destruct filename; [contradiction|reflexivity].
Qed.

(** ** Room keys *)

Lemma roomKeyChar_alphabet (byte : nat) :
  In (roomKeyChar byte) (list_ascii_of_string roomKeyChars) /\
  upper_char (roomKeyChar byte) = roomKeyChar byte /\
  roomKeyChar byte <> "-"%char.
Proof.
  unfold roomKeyChar.
  assert (Hlt : (Nat.modulo byte (String.length roomKeyChars) < 32)%nat).
  { apply Nat.mod_upper_bound. discriminate. }
  revert Hlt. generalize (Nat.modulo byte (String.length roomKeyChars)).
  intros n Hn.
  do 32 (destruct n as [|n];
         [vm_compute; split; [tauto|split; [reflexivity|discriminate]]|]).
  lia.
Qed.

(** X3. Whatever bytes are drawn, a generated room key is four groups of
    four characters of the 32-character alphabet separated by dashes (19
    characters in all), and it is its own upper-case form, which is the
    form the join precheck looks keys up in. *)
Theorem generateRoomKey_format (draw : nat -> nat) :
  let key := generateRoomKey draw in
  String.length key = 19%nat /\
  toUpperCase key = key /\
  forall i c,
    String.get i key = Some c ->
    if Nat.eqb i 4 || Nat.eqb i 9 || Nat.eqb i 14
    then c = "-"%char
    else In c (list_ascii_of_string roomKeyChars).
Proof.
  intros key. subst key.
  cbv [generateRoomKey List.seq map join_with roomKeySegment Nat.mul Nat.add append].
  split; [reflexivity|]. split.
  - cbn [toUpperCase].
    repeat rewrite (proj1 (proj2 (roomKeyChar_alphabet _))). reflexivity.
  - intros i c.
    do 19 (destruct i as [|i];
           [cbn [String.get Nat.eqb orb]; intros H; inversion H; subst;
            first [reflexivity | apply roomKeyChar_alphabet]|]).
    cbn [String.get]. discriminate.
Qed.

(** ** The upload filter *)

(** X4. Every MIME type the upload filter lets through is labelled by the
    upload route as what it is: "image" for the image types and "video"
    only for types that start with [video/]. *)
Theorem accepted_uploads_are_labelled (mimetype : string) :
  fileFilter mimetype = true ->
  (mediaTypeOf mimetype = "image" /\ String.prefix "image/" mimetype = true) \/
  (mediaTypeOf mimetype = "video" /\ String.prefix "video/" mimetype = true).
Proof.
  unfold fileFilter. intros H. apply existsb_exists in H.
  destruct H as [m [Hin Heq]]. apply String.eqb_eq in Heq. subst mimetype.
  unfold allowedMimes in Hin. simpl in Hin.
  repeat (destruct Hin as [<-|Hin]; [vm_compute; tauto|]).
  contradiction.
Qed.

(** ** The rate limiter *)

Import RateLimiter.

Lemma find_update_first_by_id {A : Type} (key : A -> string) (p : A -> bool)
    (f : A -> A) (l : list A) (r : A) :
  NoDup (map key l) -> find p l = Some r ->
  (forall x, p (f x) = p x) ->
  find p (update_first (fun x => key x =s key r) f l) = Some (f r).
Proof.
  intros Hnd Hf Hp. induction l as [|x l IH]; simpl in *; [discriminate|].
  inversion Hnd as [|? ? Hx Hl]; subst.
  destruct (p x) eqn:Epx.
  - inversion Hf; subst. rewrite String.eqb_refl. simpl. now rewrite Hp, Epx.
  - destruct (key x =s key r) eqn:Ek.
    + exfalso. apply Hx. apply String.eqb_eq in Ek. rewrite Ek.
      apply in_map. now apply find_some in Hf.
    + simpl. rewrite Epx. now apply IH.
Qed.

Lemma keys_update_first {A : Type} (key : A -> string) (p : A -> bool)
    (f : A -> A) (l : list A) :
  (forall x, key (f x) = key x) ->
  map key (update_first p f l) = map key l.
Proof.
  intros Hk. induction l as [|x l IH]; simpl; [reflexivity|].
  destruct (p x); simpl; now rewrite ?Hk, ?IH.
Qed.

Lemma keys_map_set_gen {A : Type} (key : A -> string) (v : A) (l : list A) :
  map key (map_set key v l)
  = if existsb (fun k => k =s key v) (map key l) then map key l
    else (map key l ++ [key v])%list.
Proof.
  induction l as [|x l IH]; simpl; [reflexivity|].
  destruct (key x =s key v) eqn:E; simpl.
  - apply String.eqb_eq in E. now rewrite E.
  - rewrite IH. now destruct (existsb _ _).
Qed.

Lemma NoDup_map_set_gen {A : Type} (key : A -> string) (v : A) (l : list A) :
  NoDup (map key l) -> NoDup (map key (map_set key v l)).
Proof.
  intros H. rewrite keys_map_set_gen.
  destruct (existsb (fun k => k =s key v) (map key l)) eqn:E; [exact H|].
  apply NoDup_app; [exact H|repeat constructor; intros []|].
  intros a Ha [Heq|[]]. subst a.
  assert (existsb (fun k => k =s key v) (map key l) = true); [|congruence].
  apply existsb_exists. exists (key v). split; [exact Ha|apply String.eqb_refl].
Qed.

Lemma map_set_fresh {A : Type} (key : A -> string) (v : A) (l : list A) :
  ~ In (key v) (map key l) -> map_set key v l = (l ++ [v])%list.
Proof.
  induction l as [|x l IH]; simpl; intros H; [reflexivity|].
  destruct (key x =s key v) eqn:E.
  - apply String.eqb_eq in E. exfalso. apply H. now left.
  - rewrite IH; [reflexivity|]. intros Hin. apply H. now right.
Qed.

Lemma find_map_set_new {A : Type} (key : A -> string) (p : A -> bool) (v : A)
    (l : list A) :
  find p l = None -> p v = true -> find p (map_set key v l) = Some v.
Proof.
  induction l as [|x l IH]; simpl; intros Hf Hv.
  - now rewrite Hv.
  - destruct (p x) eqn:E; [discriminate|].
    destruct (key x =s key v); simpl; [now rewrite Hv|].
    rewrite E. now apply IH.
Qed.

Lemma find_app_found {A : Type} (p : A -> bool) (l l' : list A) (r : A) :
  find p l = Some r -> find p (l ++ l') = Some r.
Proof.
  induction l as [|x l IH]; simpl; [discriminate|].
  destruct (p x); [auto|exact IH].
Qed.

Lemma config_positive (actionType : string) (config : RateLimitConfig) :
  rateLimitConfigs actionType = Some config ->
  0 < windowMs config /\ 1 <= maxRequests config.
Proof.
  unfold rateLimitConfigs. intros H.
  repeat match type of H with
         | (if ?b then _ else _) = _ => destruct b
         end;
    inversion H; subst; simpl; lia.
Qed.

(** The answers to a run of checks that all fall inside the window of a
    record that already counts [k] requests. *)
Lemma checkAll_inside_window ip action config calls :
  rateLimitConfigs action = Some config ->
  forall m r,
    NoDup (map RateLimit.id m) ->
    RateLimits.getRateLimit ip action m = Some r ->
    Forall (fun call => snd call <= RateLimit.windowStart r + windowMs config)
      calls ->
    fst (checkAll ip action calls m)
    = map (fun j => RateLimit.count r + Z.of_nat j <? maxRequests config)
        (List.seq 0 (List.length calls)).
Proof.
  intros Hcfg. induction calls as [|[uuid now] calls IH]; intros m r Hnd Hr Hin;
    [reflexivity|].
  inversion Hin as [|? ? Hnow Hrest]; subst. simpl in Hnow.
  cbn [checkAll]. unfold checkRateLimit. rewrite Hcfg, Hr.
  destruct (RateLimit.windowStart r + windowMs config <? now) eqn:Ew;
    [apply Z.ltb_lt in Ew; lia|].
  cbn [List.length List.seq map]. rewrite Z.add_0_r.
  destruct (maxRequests config <=? RateLimit.count r) eqn:Em.
  - apply Z.leb_le in Em.
    destruct (checkAll ip action calls m) as [rs m2] eqn:Hrun.
    cbn [fst allowed]. f_equal; [symmetry; apply Z.ltb_ge; lia|].
    pose proof (IH m r Hnd Hr Hrest) as H. rewrite Hrun in H. cbn [fst] in H.
    rewrite H. rewrite <- seq_shift, map_map.
    apply map_ext. intros j.
    transitivity false; [apply Z.ltb_ge; lia|symmetry; apply Z.ltb_ge; lia].
  - apply Z.leb_gt in Em.
    set (bump := fun rl => RateLimit.mk (RateLimit.id rl) (RateLimit.ipAddress rl)
                   (RateLimit.actionType rl) (RateLimit.count rl + 1)
                   (RateLimit.windowStart rl)).
    assert (Hr' : RateLimits.getRateLimit ip action (RateLimits.incrementRateLimit (RateLimit.id r) m)
                  = Some (bump r)).
    { unfold RateLimits.getRateLimit, RateLimits.incrementRateLimit.
      now apply (find_update_first_by_id RateLimit.id). }
    assert (Hnd' : NoDup (map RateLimit.id (RateLimits.incrementRateLimit (RateLimit.id r) m))).
    { unfold RateLimits.incrementRateLimit. now rewrite keys_update_first. }
    destruct (checkAll ip action calls (RateLimits.incrementRateLimit (RateLimit.id r) m))
      as [rs m2] eqn:Hrun.
    cbn [fst allowed]. f_equal; [symmetry; apply Z.ltb_lt; lia|].
    pose proof (IH _ _ Hnd' Hr' Hrest) as H. rewrite Hrun in H. cbn [fst] in H.
    rewrite H. rewrite <- seq_shift, map_map.
    apply map_ext. intros j. subst bump. cbn [RateLimit.count]. f_equal. lia.
Qed.

(** X5. For an address and action with no record yet, over a run of checks
    that all fall within the window opened by the first one, exactly the
    first [maxRequests] checks are allowed and every later one is refused. *)
Theorem rate_limit_allows_first_requests ip action config m uuid now calls :
  rateLimitConfigs action = Some config ->
  NoDup (map RateLimit.id m) ->
  RateLimits.getRateLimit ip action m = None ->
  Forall (fun call => snd call <= now + windowMs config) calls ->
  fst (checkAll ip action ((uuid, now) :: calls) m)
  = map (fun i => Z.of_nat i <? maxRequests config)
      (List.seq 0 (S (List.length calls))).
Proof.
  intros Hcfg Hnd Hnone Hin.
  destruct (config_positive action config Hcfg) as [_ Hmax].
  cbn [checkAll]. unfold checkRateLimit. rewrite Hcfg, Hnone.
  set (fresh := RateLimit.mk uuid ip action 1 now).
  assert (Hr : RateLimits.getRateLimit ip action (RateLimits.createRateLimit uuid now ip action m)
               = Some fresh).
  { unfold RateLimits.getRateLimit, RateLimits.createRateLimit. apply find_map_set_new; [exact Hnone|].
    simpl. now rewrite !String.eqb_refl. }
  assert (Hnd' : NoDup (map RateLimit.id (RateLimits.createRateLimit uuid now ip action m)))
    by now apply NoDup_map_set_gen.
  destruct (checkAll ip action calls (RateLimits.createRateLimit uuid now ip action m))
    as [rs m2] eqn:Hrun.
  cbn [fst allowed List.seq map]. f_equal; [symmetry; apply Z.ltb_lt; lia|].
  pose proof (checkAll_inside_window ip action config calls Hcfg _ _ Hnd' Hr Hin)
    as H.
  rewrite Hrun in H. cbn [fst] in H. rewrite H.
  rewrite <- seq_shift, map_map. apply map_ext. intros j.
  subst fresh. cbn [RateLimit.count]. f_equal. lia.
Qed.

(** X6. Once the window of the first record for an address and action has
    passed, that record is never replaced: every later check is allowed and
    only appends a record behind it, so the limiter does not limit the
    address for that action again. *)
Theorem rate_limit_never_limits_again ip action config m r calls :
  rateLimitConfigs action = Some config ->
  RateLimits.getRateLimit ip action m = Some r ->
  Forall (fun call => RateLimit.windowStart r + windowMs config < snd call /\
                      ~ In (fst call) (map RateLimit.id m)) calls ->
  fst (checkAll ip action calls m) = map (fun _ => true) calls /\
  RateLimits.getRateLimit ip action (snd (checkAll ip action calls m)) = Some r.
Proof.
  intros Hcfg Hr Hcalls.
  assert (H : forall extra,
             fst (checkAll ip action calls (m ++ extra)%list) = map (fun _ => true) calls /\
             exists extra',
               snd (checkAll ip action calls (m ++ extra)%list) = (m ++ extra')%list).
  { induction calls as [|[uuid now] calls IH]; intros extra.
    - split; [reflexivity|]. now exists extra.
    - inversion Hcalls as [|? ? [Hnow Hfresh] Hrest]; subst. simpl in Hnow, Hfresh.
      cbn [checkAll]. unfold checkRateLimit. rewrite Hcfg.
      assert (Hr' : RateLimits.getRateLimit ip action (m ++ extra)%list = Some r).
      { unfold RateLimits.getRateLimit in *. now apply find_app_found. }
      rewrite Hr'.
      destruct (RateLimit.windowStart r + windowMs config <? now) eqn:Ew;
        [|apply Z.ltb_ge in Ew; lia].
      assert (Hset : RateLimits.createRateLimit uuid now ip action (m ++ extra)%list
                     = (m ++ map_set RateLimit.id
                               (RateLimit.mk uuid ip action 1 now) extra)%list).
      { unfold RateLimits.createRateLimit. clear -Hfresh.
        induction m as [|x m IHm]; simpl; [reflexivity|].
        destruct (RateLimit.id x =s uuid) eqn:E.
        - apply String.eqb_eq in E. exfalso. apply Hfresh. now left.
        - rewrite IHm; [reflexivity|]. intros Hin. apply Hfresh. now right. }
      rewrite Hset.
      destruct (IH Hrest (map_set RateLimit.id (RateLimit.mk uuid ip action 1 now)
                            extra)) as [Hall [extra' Hm]].
      destruct (checkAll ip action calls _) as [rs m2].
      cbn [fst snd allowed] in *. split; [now rewrite Hall|].
      now exists extra'. }
  destruct (H []) as [Hall [extra' Hm]]. rewrite app_nil_r in *.
  split; [exact Hall|]. rewrite Hm.
  unfold RateLimits.getRateLimit in *. now apply find_app_found.
Qed.

(** X7. A refusal leaves the rate-limit map as it was and names a whole
    number of seconds, never negative, after which the window has ended
    (less than a second later). *)
Theorem rate_limit_refusal uuid now ip action m :
  allowed (fst (checkRateLimit uuid now ip action m)) = false ->
  snd (checkRateLimit uuid now ip action m) = m /\
  exists config r seconds,
    rateLimitConfigs action = Some config /\
    RateLimits.getRateLimit ip action m = Some r /\
    retryAfter (fst (checkRateLimit uuid now ip action m)) = Some seconds /\
    0 <= seconds /\
    RateLimit.windowStart r + windowMs config <= now + 1000 * seconds
    < RateLimit.windowStart r + windowMs config + 1000.
Proof.
  unfold checkRateLimit.
  destruct (rateLimitConfigs action) as [config|] eqn:Hcfg; [|discriminate].
  destruct (RateLimits.getRateLimit ip action m) as [r|] eqn:Hr; [|discriminate].
  destruct (RateLimit.windowStart r + windowMs config <? now) eqn:Ew;
    [discriminate|].
  destruct (maxRequests config <=? RateLimit.count r); [|discriminate].
  intros _. cbn [fst snd retryAfter]. split; [reflexivity|].
  exists config, r, (ceil_div_1000 (RateLimit.windowStart r + windowMs config - now)).
  apply Z.ltb_ge in Ew. unfold ceil_div_1000.
  set (x := RateLimit.windowStart r + windowMs config - now) in *.
  pose proof (Z.div_mod (- x) 1000 ltac:(lia)) as Hdm.
  pose proof (Z.mod_pos_bound (- x) 1000 ltac:(lia)) as Hm.
  repeat split; try reflexivity; lia.
Qed.

(** ** Every handler is a sequence of writes *)

Lemma Writes_trans quiet s s1 s2 :
  Writes quiet s s1 -> Writes quiet s1 s2 -> Writes quiet s s2.
Proof. intros H1 H2. induction H2; try (econstructor; eassumption); assumption. Qed.

Lemma Writes_loud s s' : Writes true s s' -> Writes false s s'.
Proof. intros H. induction H; try discriminate; econstructor; eassumption. Qed.

Ltac writes_head :=
  lazymatch goal with
  | |- Writes _ ?s ?s => apply W_refl
  | |- Writes _ _ (Server.emit _ _) => apply W_emit
  | |- Writes _ _ (Server.with_now _ _) => apply W_now
  | |- Writes _ _ (Server.store (MemStorage.updateGameState _ _ _) _) => apply W_game
  | |- Writes _ _ (Server.store (MemStorage.createKickedUser _ _ _ _ _) _) => apply W_ban
  | |- Writes _ _ (Server.store (MemStorage.deleteUser _) _) => apply W_deleteUser
  | |- Writes _ _ (Server.store (MemStorage.makeUserHost _) _) => apply W_makeHost
  | |- Writes _ _ (Server.store (MemStorage.updateRoomHost _ _) _) => apply W_roomHost
  | |- Writes _ _ (Server.store (MemStorage.updateUserOnline _ false None) _) => apply W_offline
  | |- Writes _ _ (Server.clearTimeout _ _) => apply W_clearTimeout
  | |- Writes _ _ (Server.with_inactivityTimers _ _) => apply W_inactivity
  | |- Writes _ _ (Routes.mutateVote _ (Routes.set_timer _) _) => apply W_voteTimer
  | |- Writes _ _ (Routes.deleteVote _ _) => apply W_voteDel
  | |- Writes _ _ (Server.with_timers (Server.timers _ ++ _) _ _) => apply W_setTimeout
  | |- Writes _ _ (Server.with_timers (update_first _ _ _) _ _) => apply W_rearm
  | |- Writes _ _ (Server.store (MemStorage.createRoom _ _ _ _ _) _) =>
      apply W_createRoom; [reflexivity|]
  | |- Writes _ _ (Server.store (MemStorage.createGameState _ _ _) _) =>
      apply W_createGameState; [reflexivity|]
  | |- Writes _ _ (Server.store (MemStorage.createUser _ _ _ _ _ _) _) =>
      apply W_createUser; [reflexivity|]
  | |- Writes _ _ (Server.store (MemStorage.createMessage _ _ _ _ _ _ _ _) _) =>
      apply W_createMessage; [reflexivity|]
  | |- Writes _ _ (Server.store (MemStorage.updateRoomActivity _ _) _) =>
      apply W_activity; [reflexivity|]
  | |- Writes _ _ (Server.store (MemStorage.deleteMessagesByRoom _) _) =>
      apply W_deleteMessages; [reflexivity|]
  | |- Writes _ _ (Server.store (MemStorage.expireRoom _) _) =>
      apply W_expire; [reflexivity|]
  | |- Writes _ _ (Server.store (MemStorage.deleteRoom _) _) =>
      apply W_deleteRoom; [reflexivity|]
  | |- Writes _ _ (Server.with_uploads _ _) => apply W_uploads; [reflexivity|]
  | |- Writes _ _ (Server.store (MemStorage.with_rateLimits _) _) =>
      apply W_rateLimits
  | |- Writes _ _ (if ?b then _ else _) => destruct b eqn:?
  | |- Writes _ _ (match ?x with _ => _ end) => destruct x eqn:?
  end.

Ltac writes := repeat writes_head.

Lemma clearInactivityTimer_writes quiet userId s :
  Writes quiet s (Routes.clearInactivityTimer userId s).
Proof. unfold Routes.clearInactivityTimer. writes. Qed.

Lemma startInactivityTimer_writes quiet c roomId userId username s :
  Writes quiet s (Routes.startInactivityTimer c roomId userId username s).
Proof.
  unfold Routes.startInactivityTimer, Server.setTimeout. cbv beta iota zeta.
  apply W_inactivity. apply W_setTimeout. apply clearInactivityTimer_writes.
Qed.

Lemma handOver_writes quiet roomId candidates s :
  Writes quiet s (Routes.handOver roomId candidates s).
Proof. unfold Routes.handOver. writes. Qed.

Lemma kickTarget_writes quiet c uuid roomId v s :
  Writes quiet s (Routes.kickTarget c uuid roomId v s).
Proof.
  unfold Routes.kickTarget. cbv zeta.
  destruct (MemStorage.getUser _ _); [|apply W_refl].
  match goal with |- context [find ?p ?l] => destruct (find p l) end;
    match goal with |- context [if ?b then _ else _] => destruct b end;
    try (eapply Writes_trans; [|apply handOver_writes]); writes.
Qed.

Lemma resolveVote_writes quiet c uuid voteId roomId s :
  Writes quiet s (Routes.resolveVote c uuid voteId roomId s).
Proof.
  unfold Routes.resolveVote. destruct (Routes.getVote voteId s) as [v|];
    [|apply W_refl].
  cbv zeta. apply W_voteDel. apply W_emit.
  destruct (Nat.ltb _ _), (VoteData.type v);
    first [apply W_refl | apply kickTarget_writes].
Qed.

Lemma spin_bottle_writes quiet c r r' roomId s :
  Writes quiet s (Routes.spin_bottle c r r' roomId s).
Proof.
  unfold Routes.spin_bottle, Server.setTimeout. cbv beta iota zeta.
  destruct (negb _ || negb _); [writes|].
  destruct (Nat.ltb _ 2); [writes|].
  destruct (nth_error _ _); cbn [snd]; writes.
Qed.

Lemma choose_truth_or_dare_writes quiet c roomId choice s :
  Writes quiet s (Routes.choose_truth_or_dare c roomId choice s).
Proof.
  unfold Routes.choose_truth_or_dare. cbv zeta.
  destruct (negb _); [apply W_refl|].
  destruct (MemStorage.getUser _ _);
    [eapply Writes_trans; [|apply startInactivityTimer_writes]|];
    apply W_emit; apply W_game; apply clearInactivityTimer_writes.
Qed.

Lemma submit_question_writes quiet c roomId text s :
  Writes quiet s (Routes.submit_question c roomId text s).
Proof.
  unfold Routes.submit_question. cbv zeta.
  destruct (negb _); [apply W_refl|].
  apply W_emit; apply W_game; apply clearInactivityTimer_writes.
Qed.

Lemma next_turn_writes quiet roomId s :
  Writes quiet s (Routes.next_turn roomId s).
Proof.
  unfold Routes.next_turn. cbv zeta.
  destruct (Nat.ltb _ 2); [apply W_refl|].
  destruct (nth_error _ _); writes.
Qed.

Lemma use_skip_writes quiet c roomId s :
  Writes quiet s (Routes.use_skip c roomId s).
Proof.
  unfold Routes.use_skip. cbv zeta.
  destruct (negb _); [apply W_refl|].
  destruct (MemStorage.getUser _ _) as [user|] eqn:Hu; [|writes].
  destruct (User.skipsRemaining user <=? 0)%float eqn:Hk; [writes|].
  apply W_emit. apply W_emit. apply (W_spend quiet s _ user); [apply W_refl|exact Hu|exact Hk].
Qed.

Lemma dispatch_writes quiet c roomId e s : Writes quiet s (dispatch c roomId e s).
Proof.
  destruct e; simpl;
    [apply spin_bottle_writes | apply choose_truth_or_dare_writes
    | apply submit_question_writes | apply next_turn_writes | apply use_skip_writes].
Qed.

Lemma initiate_vote_writes quiet c text roomId target type s :
  Writes quiet s (Routes.initiate_vote c text roomId target type s).
Proof.
  unfold Routes.initiate_vote, Server.setTimeout. cbv beta iota zeta.
  destruct (negb _ || negb _); [apply W_refl|].
  destruct (MemStorage.getUser _ _); [|apply W_refl].
  apply W_voteTimer. apply W_setTimeout. apply W_emit.
  apply W_voteNew; [apply W_refl|reflexivity].
Qed.

Lemma cast_vote_writes quiet c uuid voteId vote roomId s :
  Writes quiet s (Routes.cast_vote c uuid voteId vote roomId s).
Proof.
  unfold Routes.cast_vote. cbv zeta.
  destruct (negb _); [apply W_refl|].
  destruct (Routes.getVote voteId s) as [v|] eqn:Hv; [|apply W_refl].
  assert (H2 : Writes quiet s
                 (Server.emit
                    (ToRoom roomId
                       (vote_updated voteId
                          (Routes.yesVotes
                             (Routes.set_votes
                                (map_set fst
                                   (or_empty (SocketData.userId (Conn.socketData c)),
                                    vote) (VoteData.votes v)) v))
                          (Routes.noVotes
                             (Routes.set_votes
                                (map_set fst
                                   (or_empty (SocketData.userId (Conn.socketData c)),
                                    vote) (VoteData.votes v)) v))))
                    (Routes.mutateVote voteId
                       (Routes.set_votes
                          (map_set fst
                             (or_empty (SocketData.userId (Conn.socketData c)), vote)
                             (VoteData.votes v))) s))).
  { apply W_emit. apply (W_voteCast quiet s voteId _ v); [apply W_refl|exact Hv]. }
  destruct (Nat.leb _ _); [|exact H2].
  eapply Writes_trans; [|apply resolveVote_writes].
  destruct (VoteData.timer v); [apply W_clearTimeout|]; exact H2.
Qed.

Lemma disconnect_writes quiet c s : Writes quiet s (Routes.disconnect c s).
Proof.
  unfold Routes.disconnect, Server.setTimeout. cbv beta iota zeta.
  destruct (truthy _); [|apply W_refl]. cbn [snd].
  apply W_setTimeout. apply W_setTimeout. apply clearInactivityTimer_writes.
Qed.

Lemma callback_writes quiet uuid a s :
  a <> Cleanup -> Writes quiet s (Routes.run uuid a s).
Proof.
  intros Ha. destruct a; cbn [Routes.run]; try contradiction.
  - unfold Routes.spinResolve. cbv zeta.
    eapply Writes_trans; [|apply startInactivityTimer_writes]. writes.
  - apply resolveVote_writes.
  - unfold Routes.inactivityWarn, Server.setTimeout. cbn [snd]. writes.
  - unfold Routes.inactivityKick, Server.setTimeout. cbv beta iota zeta.
    apply W_voteTimer. apply W_setTimeout. apply W_emit.
    apply W_voteNew; [apply W_refl|reflexivity].
  - unfold Routes.reconnectTimeout. cbv zeta.
    destruct (negb _ || negb _); [apply W_refl|].
    destruct (MemStorage.getUser _ _) as [user|]; [|apply W_refl].
    destruct (opt_eqb _ _); [|apply W_refl].
    destruct (Nat.eqb _ 0); [writes|].
    destruct (User.isHost user);
      [eapply Writes_trans; [|apply handOver_writes]|]; writes.
  - apply W_clearTimeout, W_refl.
Qed.

Lemma quiet_writes i s : Writes true s (RoutesRest.quiet i s).
Proof.
  destruct i as [c r e|c t r u ty|c u v b r|c|u a]; cbn [RoutesRest.quiet].
  - apply dispatch_writes.
  - apply initiate_vote_writes.
  - apply cast_vote_writes.
  - apply disconnect_writes.
  - destruct a; try (apply callback_writes; discriminate). apply W_refl.
Qed.

Lemma reapRoom_writes s room : Writes false s (fst (Routes.reapRoom s room)).
Proof.
  unfold Routes.reapRoom.
  destruct (deleteAllFilesInRoom _ _) as [up []]; cbn [fst]; writes.
Qed.

Lemma cleanup_writes s : Writes false s (Routes.cleanup s).
Proof.
  unfold Routes.cleanup.
  assert (H : forall rooms s1,
             Writes false s s1 -> Writes false s (Routes.reapRooms rooms s1)).
  { induction rooms as [|room rooms IH]; intros s1 H1; simpl; [exact H1|].
    pose proof (reapRoom_writes s1 room) as Hw.
    destruct (Routes.reapRoom s1 room) as [s2 []]; cbn [fst] in Hw.
    - apply IH. eapply Writes_trans; [exact H1|exact Hw].
    - eapply Writes_trans; [exact H1|exact Hw]. }
  apply H, W_refl.
Qed.

Lemma run_writes uuid a s : Writes false s (Routes.run uuid a s).
Proof.
  destruct a; try (apply callback_writes; discriminate). apply cleanup_writes.
Qed.

Lemma fire_writes uuid h s : Writes false s (Routes.fire uuid h s).
Proof.
  unfold Routes.fire. destruct (Server.pending h s) as [tm|]; [|apply W_refl].
  cbv zeta. eapply Writes_trans; [|apply run_writes].
  destruct (Timer.every tm); writes.
Qed.

Lemma checkRateLimit_writes quiet uuid ipAddress actionType s :
  Writes quiet s (snd (Routes.checkRateLimit uuid ipAddress actionType s)).
Proof.
  unfold Routes.checkRateLimit.
  destruct (RateLimiter.checkRateLimit _ _ _ _ _) as [result rateLimits].
  cbn [snd]. apply W_rateLimits, W_refl.
Qed.

Lemma createRoomRequest_writes uuid0 ipAddress uuid uuid' roomKey username
    maxSkips s :
  Writes false s
    (Routes.createRoomRequest uuid0 ipAddress uuid uuid' roomKey username
       maxSkips s).
Proof.
  unfold Routes.createRoomRequest.
  pose proof (checkRateLimit_writes false uuid0 ipAddress "room_creation" s)
    as H0.
  destruct (Routes.checkRateLimit _ _ _ s) as [rateLimitCheck s0].
  cbn [snd] in H0. cbv zeta.
  eapply Writes_trans; [exact H0|]. writes.
Qed.

Lemma send_message_writes c uuid roomId text url type s :
  Writes false s (RoutesRest.send_message c uuid roomId text url type s).
Proof. unfold RoutesRest.send_message. cbv zeta. writes. Qed.

Lemma join_room_writes c uuid uuid' roomId username s :
  Writes false s (snd (Routes.join_room c uuid uuid' roomId username s)).
Proof.
  unfold Routes.join_room. cbv zeta.
  repeat match goal with
         | |- Writes _ _ (snd (match ?x with _ => _ end)) => destruct x
         end;
    cbn [snd]; writes.
Qed.

Lemma step_writes i s : Writes false s (RoutesRest.step i s).
Proof.
  destruct i; cbn [RoutesRest.step].
  - apply createRoomRequest_writes.
  - apply join_room_writes.
  - apply send_message_writes.
  - apply Writes_loud, quiet_writes.
  - apply W_now, W_refl.
  - apply fire_writes.
Qed.

Lemma steps_writes l s : Writes false s (RoutesRest.steps l s).
Proof.
  unfold RoutesRest.steps. revert s.
  induction l as [|i l IH]; intros s; simpl; [apply W_refl|].
  eapply Writes_trans; [apply step_writes|apply IH].
Qed.

(** ** What the writes keep *)

Lemma map_update_first {A B : Type} (g : A -> B) (p : A -> bool) (f : A -> A)
    (l : list A) :
  (forall x, g (f x) = g x) -> map g (update_first p f l) = map g l.
Proof.
  intros Hg. induction l as [|x l IH]; simpl; [reflexivity|].
  destruct (p x); simpl; now rewrite ?Hg, ?IH.
Qed.

Lemma NoDup_map_filter {A B : Type} (g : A -> B) (q : A -> bool) (l : list A) :
  NoDup (map g l) -> NoDup (map g (filter q l)).
Proof.
  induction l as [|x l IH]; simpl; intros H; [constructor|].
  inversion H as [|? ? Hx Hl]; subst.
  destruct (q x); simpl; [|now apply IH].
  constructor; [|now apply IH].
  intros Hin. apply Hx. apply in_map_iff in Hin. destruct Hin as [y [Hy Hin]].
  apply filter_In in Hin. rewrite <- Hy. apply in_map. tauto.
Qed.

Lemma Forall_update_first {A : Type} (P : A -> Prop) (p : A -> bool) (f : A -> A)
    (l : list A) :
  Forall P l -> (forall x, P x -> p x = true -> P (f x)) ->
  Forall P (update_first p f l).
Proof.
  intros H Hf. induction H as [|x l Hx Hl IH]; simpl; [constructor|].
  destruct (p x) eqn:E; constructor; auto.
Qed.

Lemma Forall_map_set {A : Type} (P : A -> Prop) (key : A -> string) (v : A)
    (l : list A) :
  Forall P l -> P v -> Forall P (map_set key v l).
Proof.
  intros H Hv. induction H as [|x l Hx Hl IH]; simpl; [now repeat constructor|].
  destruct (key x =s key v); constructor; auto.
Qed.

Lemma Forall_filter_keep {A : Type} (P : A -> Prop) (q : A -> bool) (l : list A) :
  Forall P l -> Forall P (filter q l).
Proof.
  intros H. induction H as [|x l Hx Hl IH]; simpl; [constructor|].
  destruct (q x); [constructor|]; auto.
Qed.

Lemma NoDup_snoc_fresh (l : list nat) (n : nat) :
  NoDup l -> Forall (fun x => (x < n)%nat) l -> NoDup (l ++ [n]).
Proof.
  intros Hnd Hlt. apply NoDup_app; [exact Hnd|repeat constructor; intros []|].
  intros a Ha [Heq|[]]. subst a. rewrite Forall_forall in Hlt.
  specialize (Hlt n Ha). lia.
Qed.

Lemma WellFormed_initial : WellFormed Routes.registerRoutes.
Proof.
  constructor; simpl; repeat constructor; simpl; intuition.
Qed.

Lemma Writes_WellFormed quiet s s' :
  Writes quiet s s' -> WellFormed s -> WellFormed s'.
Proof.
  intros H Hwf. induction H;
    try (destruct IHWrites as [Hu Hr Hv Hb Hh Hn]; constructor; simpl;
         try assumption).
  - exact Hwf.
  - now rewrite map_update_first.
  - now apply NoDup_map_filter.
  - now rewrite map_update_first.
  - now rewrite map_update_first.
  - now rewrite map_update_first.
  - rewrite map_app. simpl. apply NoDup_snoc_fresh; [exact Hh|].
    rewrite Forall_forall in *. intros x Hx. apply in_map_iff in Hx.
    destruct Hx as [y [<- Hy]]. now apply Hn.
  - apply Forall_app. split.
    + eapply Forall_impl; [|exact Hn]. simpl. intros; lia.
    + repeat constructor.
  - now apply NoDup_map_filter.
  - now apply Forall_filter_keep.
  - now rewrite map_update_first.
  - apply Forall_update_first; [exact Hn|]. intros x Hx _. exact Hx.
  - now apply NoDup_map_set_gen.
  - apply Forall_map_set; [exact Hb|]. rewrite H0. constructor.
  - now rewrite map_update_first.
  - apply Forall_update_first; [exact Hb|]. intros x _ _. simpl.
    apply NoDup_map_set_gen.
    apply find_some in H0. destruct H0 as [Hin _].
    rewrite Forall_forall in Hb. now apply Hb.
  - now rewrite map_update_first.
  - apply Forall_update_first; [exact Hb|]. intros x Hx _. exact Hx.
  - now apply NoDup_map_filter.
  - now apply Forall_filter_keep.
  - now apply NoDup_map_set_gen.
  - now apply NoDup_map_set_gen.
  - now rewrite map_update_first.
  - now rewrite map_update_first.
  - now apply NoDup_map_filter.
Qed.

(** X8. In every state the server reaches from [registerRoutes], by room
    creations, joins, chat messages, game, vote and presence events, clock
    ticks and timer firings in any order, the ids of the stored users and
    of the rooms are distinct, the active votes have distinct ids and at
    most one ballot per voter, and the pending timers have distinct handles
    below the next handle to be given out. *)
Theorem reachable_states_are_well_formed (inputs : list RoutesRest.Input) :
  WellFormed (RoutesRest.steps inputs Routes.registerRoutes).
Proof.
  eapply Writes_WellFormed; [apply steps_writes|apply WellFormed_initial].
Qed.

Lemma quietRun_writes l s : Writes true s (quietRun l s).
Proof.
  unfold quietRun. revert s.
  induction l as [|i l IH]; intros s; simpl; [apply W_refl|].
  eapply Writes_trans; [apply quiet_writes|apply IH].
Qed.

Lemma Writes_quiet_rooms s s' :
  Writes true s s' ->
  map roomFacts (MemStorage.rooms (Server.storage s'))
  = map roomFacts (MemStorage.rooms (Server.storage s)) /\
  MemStorage.messages (Server.storage s') = MemStorage.messages (Server.storage s) /\
  Server.uploads s' = Server.uploads s.
Proof.
  intros H. induction H; try discriminate; try assumption;
    try (split; [|split]; reflexivity).
  destruct IHWrites as [Hr [Hm Hu]]. split; [|split]; try assumption.
  simpl. now rewrite map_update_first.
Qed.

Lemma inactive_ids_by_facts (now minutes : Z) (l l' : list Room.t) :
  map roomFacts l = map roomFacts l' ->
  map Room.id
    (filter (fun r => negb (Room.isExpired r)
                      && (Room.lastActivity r <? now - minutes * 60 * 1000)) l)
  = map Room.id
      (filter (fun r => negb (Room.isExpired r)
                        && (Room.lastActivity r <? now - minutes * 60 * 1000)) l').
Proof.
  revert l'. induction l as [|x l IH]; intros [|y l'] H;
    try discriminate; [reflexivity|].
  cbn [map] in H. unfold roomFacts at 1 3 in H.
  inversion H as [[Hid Hkey Hskips Hcreated Hact Hexp Hrest]].
  cbn [filter]. rewrite Hact, Hexp.
  destruct (negb (Room.isExpired y) && _); cbn [map];
    [rewrite Hid; f_equal|]; apply IH, Hrest.
Qed.

(** X9. No game event, vote event, disconnect or timer callback other than
    the cleanup writes to a room record anything but its host, and none
    touches the messages or the upload directory: over any run of them the
    rooms keep their [lastActivity], so the rooms the sweep would reap at a
    given time are the same before and after. Only joins and chat messages
    postpone the reaping of a room. *)
Theorem quiet_inputs_do_not_postpone_reaping (l : list RoutesRest.QuietInput)
    (s : Server.t) (now minutes : Z) :
  map roomFacts (MemStorage.rooms (Server.storage (quietRun l s)))
  = map roomFacts (MemStorage.rooms (Server.storage s)) /\
  MemStorage.messages (Server.storage (quietRun l s))
  = MemStorage.messages (Server.storage s) /\
  Server.uploads (quietRun l s) = Server.uploads s /\
  map Room.id
    (MemStorage.getInactiveRooms now minutes (Server.storage (quietRun l s)))
  = map Room.id (MemStorage.getInactiveRooms now minutes (Server.storage s)).
Proof.
  destruct (Writes_quiet_rooms s (quietRun l s) (quietRun_writes l s))
    as [Hr [Hm Hu]].
  repeat split; try assumption.
  unfold MemStorage.getInactiveRooms. cbv zeta.
  now apply inactive_ids_by_facts.
Qed.

(** ** Ban records and the join precheck *)

Lemma Writes_bans quiet s s' :
  Writes quiet s s' ->
  Forall (fun ku => untouchedBan ku = true)
    (MemStorage.kickedUsers (Server.storage s)) ->
  Forall (fun ku => untouchedBan ku = true)
    (MemStorage.kickedUsers (Server.storage s')).
Proof.
  intros H H0. induction H; try assumption; try (exact (IHWrites)).
  simpl. apply Forall_map_set; [exact IHWrites|reflexivity].
Qed.

(** X10. In every state reached from [registerRoutes], a ban record is as
    [createKickedUser] made it (no rejoin attempt counted, no permanent
    block), because nothing calls [incrementRejoinAttempts]. So the join
    precheck on such a state, whatever the rate-limit map holds by then and
    whatever [toUpperCase] makes of the key, never answers with the
    permanent block or with the maximum of attempts, and never writes a ban
    record. It lets the caller in only when the upper-cased key names a
    room that is not expired and has no ban record for the caller's
    address, and then writes nothing. When it finds a ban record (the
    answers 429 and "requires a vote") it has run [checkRateLimit] for
    "rejoin", and the only change of the state is what that wrote to the
    rate-limit map. With every other answer the state is unchanged. *)
Theorem join_precheck_never_escalates (inputs : list RoutesRest.Input)
    (rl : RateLimits.t) (upperCase : string -> string) (uuid ip : string)
    (roomKey username : option string) :
  let s :=
    Server.store (MemStorage.with_rateLimits rl)
      (RoutesRest.steps inputs Routes.registerRoutes) in
  let answer := fst (api_rooms_join upperCase uuid ip roomKey username s) in
  let s' := snd (api_rooms_join upperCase uuid ip roomKey username s) in
  let checked :=
    Server.store
      (MemStorage.with_rateLimits
         (snd (RateLimiter.checkRateLimit uuid (Server.now s) ip "rejoin" rl)))
      s in
  answer <> PermanentlyBlocked /\ answer <> MaxAttempts /\
  MemStorage.kickedUsers (Server.storage s')
  = MemStorage.kickedUsers (Server.storage s) /\
  match answer with
  | Joined roomId key maxSkips =>
      s' = s /\
      exists room,
        MemStorageRest.getRoomByKey (upperCase (or_empty roomKey))
          (Server.storage s) = Some room /\
        Room.isExpired room = false /\
        MemStorageRest.getKickedUser (Room.id room) ip (Server.storage s)
        = None /\
        roomId = Room.id room /\ key = Room.roomKey room /\
        maxSkips = Room.maxSkips room
  | SlowDown retryAfter =>
      s' = checked /\
      RateLimiter.allowed
        (fst (RateLimiter.checkRateLimit uuid (Server.now s) ip "rejoin" rl))
      = false
  | RequiresVote roomId name =>
      s' = checked /\
      RateLimiter.allowed
        (fst (RateLimiter.checkRateLimit uuid (Server.now s) ip "rejoin" rl))
      = true /\
      exists room ku,
        MemStorageRest.getRoomByKey (upperCase (or_empty roomKey))
          (Server.storage s) = Some room /\
        MemStorageRest.getKickedUser (Room.id room) ip (Server.storage s)
        = Some ku /\
        roomId = Room.id room /\ name = username
  | _ => s' = s
  end.
Proof.
  intros s answer s' checked.
  assert (Hbans : Forall (fun ku => untouchedBan ku = true)
                    (MemStorage.kickedUsers (Server.storage s))).
  { apply (Writes_bans false Routes.registerRoutes).
    - unfold s. apply W_rateLimits, steps_writes.
    - constructor. }
  subst answer s'. unfold api_rooms_join.
  destruct (negb (truthy roomKey) || negb (truthy username));
    [cbn; repeat split; discriminate|].
  destruct (MemStorageRest.getRoomByKey _ _) as [room|] eqn:Hroom;
    [|cbn; repeat split; discriminate].
  destruct (Room.isExpired room) eqn:Hexp; [cbn; repeat split; discriminate|].
  destruct (MemStorageRest.getKickedUser (Room.id room) ip (Server.storage s))
    as [ku|] eqn:Hku.
  - assert (Hk : untouchedBan ku = true).
    { unfold MemStorageRest.getKickedUser in Hku. apply find_some in Hku.
      rewrite Forall_forall in Hbans. now apply Hbans. }
    unfold untouchedBan in Hk. apply andb_true_iff in Hk.
    destruct Hk as [Hk0 Hkb]. apply Z.eqb_eq in Hk0.
    apply negb_true_iff in Hkb. rewrite Hkb.
    unfold Routes.checkRateLimit.
    change (MemStorage.rateLimits (Server.storage s)) with rl.
    subst checked.
    destruct (RateLimiter.checkRateLimit uuid (Server.now s) ip "rejoin" rl)
      as [res rl1].
    cbn [fst snd].
    destruct (RateLimiter.allowed res) eqn:Hres; cbn [negb].
    + destruct (10 <=? KickedUser.rejoinAttempts ku) eqn:E;
        [apply Z.leb_le in E; lia|].
      cbn [fst snd]. repeat split; try discriminate.
      exists room, ku. repeat split; auto.
    + cbn [fst snd]. repeat split; discriminate.
  - cbn. repeat split; try discriminate.
    exists room. repeat split; auto.
Qed.

(** ** Skips and the host flag under quiet inputs *)

Lemma getUser_update_first (u k : string) (f : User.t -> User.t)
    (l : list User.t) :
  (forall x, User.id (f x) = User.id x) ->
  find (fun x => User.id x =s u)
    (update_first (fun x => User.id x =s k) f l)
  = if u =s k then option_map f (find (fun x => User.id x =s u) l)
    else find (fun x => User.id x =s u) l.
Proof.
  intros Hid. destruct (u =s k) eqn:E.
  - apply String.eqb_eq in E. subst k. apply find_update_first_same.
    intros x. now rewrite Hid.
  - apply find_update_first_other.
    + intros x. now rewrite Hid.
    + intros x Hx. apply String.eqb_eq in Hx. rewrite Hx. exact E.
Qed.

Lemma getUser_filter_out (u k : string) (l : list User.t) :
  find (fun x => User.id x =s u) (filter (fun x => negb (User.id x =s k)) l)
  = if u =s k then None else find (fun x => User.id x =s u) l.
Proof.
  induction l as [|x l IH]; simpl; [now destruct (u =s k)|].
  destruct (User.id x =s k) eqn:Ek; simpl.
  - rewrite IH. destruct (u =s k) eqn:Euk; [reflexivity|].
    destruct (User.id x =s u) eqn:Eu; [|reflexivity].
    apply String.eqb_eq in Ek, Eu. subst. now rewrite String.eqb_refl in Euk.
  - destruct (User.id x =s u) eqn:Eu.
    + apply String.eqb_eq in Eu. subst u. now rewrite Ek.
    + exact IH.
Qed.

Lemma Writes_quiet_users s s' :
  Writes true s s' ->
  forall u x',
    MemStorage.getUser u (Server.storage s') = Some x' ->
    exists x, MemStorage.getUser u (Server.storage s) = Some x /\ sameUserLater x x'.
Proof.
  intros H. induction H; try discriminate; try exact IHWrites; intros u x' Hx'.
  - exists x'. split; [exact Hx'|]. unfold sameUserLater.
    repeat split; auto. constructor.
  - unfold MemStorage.getUser in Hx'. simpl in Hx'.
    rewrite getUser_update_first in Hx' by reflexivity.
    destruct (u =s userId) eqn:E.
    + destruct (find _ _) as [y|] eqn:Hy; [|discriminate].
      destruct (IHWrites u y Hy) as [x [Hx Hs]]. exists x. split; [exact Hx|].
      apply String.eqb_eq in E. subst u.
      unfold MemStorage.getUser in H0. rewrite H0 in Hy. inversion Hy; subst y.
      inversion Hx'; subst x'. unfold sameUserLater in *. simpl.
      destruct Hs as (Hi & Hn & Hr & Hj & Hk & Hh & Ho).
      repeat split; auto. now constructor.
    + now apply IHWrites.
  - unfold MemStorage.getUser in Hx'. simpl in Hx'.
    rewrite getUser_filter_out in Hx'.
    destruct (u =s userId); [discriminate|]. now apply IHWrites.
  - unfold MemStorage.getUser in Hx'. simpl in Hx'.
    rewrite getUser_update_first in Hx' by reflexivity.
    destruct (u =s userId).
    + destruct (find _ _) as [y|] eqn:Hy; [|discriminate].
      destruct (IHWrites u y Hy) as [x [Hx Hs]]. exists x. split; [exact Hx|].
      inversion Hx'; subst x'. unfold sameUserLater in *. simpl. intuition.
    + now apply IHWrites.
  - unfold MemStorage.getUser in Hx'. simpl in Hx'.
    rewrite getUser_update_first in Hx' by reflexivity.
    destruct (u =s userId).
    + destruct (find _ _) as [y|] eqn:Hy; [|discriminate].
      destruct (IHWrites u y Hy) as [x [Hx Hs]]. exists x. split; [exact Hx|].
      inversion Hx'; subst x'. unfold sameUserLater in *. simpl. intuition.
    + now apply IHWrites.
Qed.

(** X11. Over any run of game, vote and presence events and timer callbacks
    other than the cleanup, a user that is still stored is the user stored
    before under that id, with the same name, room and join time; the skip
    count has changed by spending only (one subtracted, each time from a
    count that was not [<= 0]; a count such as 0.5 ends below zero); a host
    flag that was set is still set (no hand-over clears the flag of the
    previous host); and a user that was offline is still offline. *)
Theorem stored_users_only_lose (l : list RoutesRest.QuietInput) (s : Server.t)
    (userId : string) (later : User.t) :
  MemStorage.getUser userId (Server.storage (quietRun l s)) = Some later ->
  exists earlier,
    MemStorage.getUser userId (Server.storage s) = Some earlier /\
    sameUserLater earlier later.
Proof. apply Writes_quiet_users, quietRun_writes. Qed.

(** ** join_room *)

Lemma opt_eqb_refl (a : string) : opt_eqb (Some a) (Some a) = true.
Proof. simpl. apply String.eqb_refl. Qed.

Ltac storage_normal :=
  cbv beta iota zeta delta
    [Routes.join_room fst snd
     Server.storage Server.store Server.with_storage Server.emit
     Server.with_outbox Server.now Server.uploads Server.activeVotes
     Server.inactivityTimers Server.timers Server.nextTimer Server.sockets
     Server.outbox
     MemStorage.with_kickedUsers MemStorage.with_rooms MemStorage.with_users
     MemStorage.with_messages MemStorage.with_gameStates
     MemStorage.rooms MemStorage.users MemStorage.messages
     MemStorage.kickedUsers MemStorage.gameStates MemStorage.rateLimits
     MemStorage.getRoom MemStorage.updateRoomActivity MemStorage.createUser
     MemStorage.getUsersByRoom MemStorage.updateRoomHost MemStorage.makeUserHost
     MemStorage.getGameState MemStorage.getMessagesByRoom MemStorage.getUser
     MemStorage.createMessage MemStorage.updateGameState].

(** X12. [join_room] does not consult the ban records: whatever the
    storage holds as kicked users, the join gives the same connection data,
    the same stores otherwise and the same outbox, and it leaves the ban
    records as they are. A user voted out of a room is let in again by
    [join_room] like anybody else. *)
Theorem join_room_ignores_ban_records c uuid uuid' roomId username s bans :
  let banned := Server.store (MemStorage.with_kickedUsers bans) s in
  Routes.join_room c uuid uuid' roomId username banned
  = (fst (Routes.join_room c uuid uuid' roomId username s),
     Server.store (MemStorage.with_kickedUsers bans)
       (snd (Routes.join_room c uuid uuid' roomId username s))).
Proof.
  intros banned. subst banned.
  destruct s as [now [rooms users msgs kicked gs rl] up votes inact tms nt socks out].
  storage_normal.
  repeat match goal with
         | |- context [match ?x with _ => _ end] =>
             lazymatch x with
             | context [match _ with _ => _ end] => fail
             | _ => destruct x
             end
         end.
  all: reflexivity.
Qed.

Lemma update_first_fresh (uuid : string) (f : User.t -> User.t)
    (l : list User.t) (x : User.t) :
  ~ In uuid (map User.id l) -> User.id x = uuid ->
  update_first (fun u => User.id u =s uuid) f (l ++ [x]) = (l ++ [f x])%list.
Proof.
  intros Hfresh Hx. induction l as [|y l IH]; simpl.
  - now rewrite Hx, String.eqb_refl.
  - destruct (User.id y =s uuid) eqn:E.
    + apply String.eqb_eq in E. exfalso. apply Hfresh. now left.
    + rewrite IH; [reflexivity|]. intros Hin. apply Hfresh. now right.
Qed.

(** The storage after a join into a stored room, for a fresh user id. *)
Lemma join_room_storage c uuid uuid' roomId username s room :
  MemStorage.getRoom roomId (Server.storage s) = Some room ->
  Room.isExpired room = false ->
  ~ In uuid (map User.id (MemStorage.users (Server.storage s))) ->
  let m0 := Server.storage s in
  let before := MemStorage.getUsersByRoom roomId m0 in
  let m2 :=
    MemStorage.createUser uuid (Server.now s) username roomId
      (Room.maxSkips room) (Socket.id (Conn.socket c))
      (MemStorage.updateRoomActivity (Server.now s) roomId m0) in
  let m3 :=
    if Nat.eqb (List.length before) 0
    then MemStorage.updateRoomHost roomId uuid (MemStorage.makeUserHost uuid m2)
    else m2 in
  let m7 :=
    MemStorage.createMessage uuid' (Server.now s) roomId None "System"
      (Some (username ++ " joined the game")) None None m3 in
  Server.storage (snd (Routes.join_room c uuid uuid' roomId username s))
  = match before with
    | [first] =>
        match MemStorage.getGameState roomId m0 with
        | Some g =>
            if Phase_eqb (GameState.gamePhase g) waiting
            then MemStorage.updateGameState (Server.now s) roomId
                   (Patch.mk (Some (Some (User.id first))) None (Some choosing)
                      None None) m7
            else m7
        | None => m7
        end
    | _ => m7
    end /\
  fst (Routes.join_room c uuid uuid' roomId username s)
  = Conn.mk (Conn.socket c)
      (SocketData.mk (Some uuid) (Some roomId) (Some username)).
Proof.
  intros Hroom Hexp Hfresh m0 before m2 m3 m7. subst m0.
  assert (Hbdef : filter (fun u => opt_eqb (User.roomId u) (Some roomId))
                    (MemStorage.users (Server.storage s)) = before) by reflexivity.
  clearbody before.
  set (fresh := User.mk uuid username (Some roomId) false true (Room.maxSkips room)
                  (Server.now s) (Some (Socket.id (Conn.socket c)))).
  assert (Hset : MemStorage.users m2 = (MemStorage.users (Server.storage s) ++ [fresh])%list).
  { subst m2. simpl. now apply (map_set_fresh User.id). }
  assert (Hlen : MemStorage.getUsersByRoom roomId m2 = (before ++ [fresh])%list).
  { unfold MemStorage.getUsersByRoom. rewrite Hset, filter_app, Hbdef. simpl.
    now rewrite String.eqb_refl. }
  assert (Hone : Nat.eqb (List.length (MemStorage.getUsersByRoom roomId m2)) 1
                 = Nat.eqb (List.length before) 0).
  { rewrite Hlen, length_app. cbn [List.length].
    destruct (List.length before); simpl; [reflexivity|].
    now rewrite Nat.add_1_r. }
  assert (Hall : MemStorage.getUsersByRoom roomId m3
                 = match before with
                   | [] => [User.mk uuid username (Some roomId) true true
                              (Room.maxSkips room) (Server.now s)
                              (Some (Socket.id (Conn.socket c)))]
                   | _ => (before ++ [fresh])%list
                   end).
  { subst m3. destruct before as [|f rest]; cbn [List.length Nat.eqb].
    - unfold MemStorage.getUsersByRoom, MemStorage.updateRoomHost,
        MemStorage.makeUserHost.
      cbn [MemStorage.users MemStorage.with_users MemStorage.with_rooms].
      rewrite Hset.
      rewrite (update_first_fresh uuid _ _ fresh Hfresh eq_refl).
      rewrite filter_app, Hbdef.
      simpl. now rewrite String.eqb_refl.
    - exact Hlen. }
  assert (Hgs : MemStorage.getGameState roomId m3 = MemStorage.getGameState roomId (Server.storage s)).
  { subst m3. now destruct (Nat.eqb (List.length before) 0). }
  unfold Routes.join_room. rewrite Hroom, Hexp. cbv zeta.
  cbn [Server.storage Server.store Server.with_storage Server.now Server.emit
         Server.with_outbox].
  fold m2. rewrite Hone. fold m3.
  replace (Server.storage
             (if Nat.eqb (List.length before) 0
              then Server.store (MemStorage.updateRoomHost roomId uuid)
                     (Server.store (MemStorage.makeUserHost uuid)
                        (Server.store
                           (MemStorage.createUser uuid (Server.now s) username
                              roomId (Room.maxSkips room)
                              (Socket.id (Conn.socket c)))
                           (Server.store
                              (MemStorage.updateRoomActivity (Server.now s) roomId)
                              s)))
              else Server.store
                     (MemStorage.createUser uuid (Server.now s) username roomId
                        (Room.maxSkips room) (Socket.id (Conn.socket c)))
                     (Server.store
                        (MemStorage.updateRoomActivity (Server.now s) roomId) s)))
    with m3 by (subst m3; now destruct (Nat.eqb (List.length before) 0)).
  rewrite Hall, Hgs.
  destruct before as [|f [|g rest]];
    destruct (MemStorage.getGameState roomId (Server.storage s)) as [gs|];
    try destruct (Phase_eqb (GameState.gamePhase gs) waiting);
    cbn -[MemStorage.updateGameState MemStorage.createMessage];
    repeat match goal with
           | |- context [match (?l ++ _)%list with _ => _ end] =>
               is_var l; destruct l
           end;
    cbn -[MemStorage.updateGameState MemStorage.createMessage];
    split; reflexivity.
Qed.

Lemma find_app_fresh (uuid : string) (l : list User.t) (x : User.t) :
  ~ In uuid (map User.id l) -> User.id x = uuid ->
  find (fun u => User.id u =s uuid) (l ++ [x]) = Some x.
Proof.
  intros Hfresh Hx. induction l as [|y l IH]; simpl.
  - now rewrite Hx, String.eqb_refl.
  - destruct (User.id y =s uuid) eqn:E.
    + apply String.eqb_eq in E. exfalso. apply Hfresh. now left.
    + apply IH. intros Hin. apply Hfresh. now right.
Qed.

(** X13. A join into a stored room that is not expired, under a fresh user
    id, stores the new user online, with the room's skip allowance and the
    join time, as host exactly when no user was stored for the room before;
    it appends the user to the room's members, stamps the room's
    [lastActivity] with the time of the join, makes the user the room's
    host in that same case only, and fills the connection's data with the
    user id, room id and name. *)
Theorem join_room_admits c uuid uuid' roomId username s room :
  MemStorage.getRoom roomId (Server.storage s) = Some room ->
  Room.isExpired room = false ->
  ~ In uuid (map User.id (MemStorage.users (Server.storage s))) ->
  let first := Nat.eqb (List.length (members roomId s)) 0 in
  let s' := snd (Routes.join_room c uuid uuid' roomId username s) in
  fst (Routes.join_room c uuid uuid' roomId username s)
  = Conn.mk (Conn.socket c)
      (SocketData.mk (Some uuid) (Some roomId) (Some username)) /\
  MemStorage.getUser uuid (Server.storage s')
  = Some (User.mk uuid username (Some roomId) first true (Room.maxSkips room)
            (Server.now s) (Some (Socket.id (Conn.socket c)))) /\
  members roomId s' = (members roomId s ++ [uuid])%list /\
  MemStorage.getRoom roomId (Server.storage s')
  = Some (Room.mk (Room.id room) (Room.roomKey room)
            (if first then Some uuid else Room.hostUserId room)
            (Room.maxSkips room) (Room.createdAt room) (Server.now s)
            (Room.isExpired room)).
Proof.
  intros Hroom Hexp Hfresh first s'.
  destruct (join_room_storage c uuid uuid' roomId username s room Hroom Hexp Hfresh)
    as [Hst Hc].
  cbv zeta in Hst. fold s' in Hst.
  set (fresh := User.mk uuid username (Some roomId) false true (Room.maxSkips room)
                  (Server.now s) (Some (Socket.id (Conn.socket c)))).
  set (m2 := MemStorage.createUser uuid (Server.now s) username roomId
               (Room.maxSkips room) (Socket.id (Conn.socket c))
               (MemStorage.updateRoomActivity (Server.now s) roomId
                  (Server.storage s))) in *.
  assert (Hfirst : Nat.eqb
                     (List.length
                        (MemStorage.getUsersByRoom roomId (Server.storage s))) 0
                   = first).
  { subst first. unfold members. now rewrite length_map. }
  rewrite Hfirst in Hst.
  set (m3 := if first
             then MemStorage.updateRoomHost roomId uuid
                    (MemStorage.makeUserHost uuid m2)
             else m2) in *.
  assert (Hset : MemStorage.users m2
                 = (MemStorage.users (Server.storage s) ++ [fresh])%list).
  { subst m2. simpl. now apply (map_set_fresh User.id). }
  assert (Husers : MemStorage.users (Server.storage s') = MemStorage.users m3).
  { rewrite Hst.
    destruct (MemStorage.getUsersByRoom roomId (Server.storage s)) as [|f [|g r]];
      try reflexivity.
    destruct (MemStorage.getGameState roomId (Server.storage s)) as [gs|];
      [destruct (Phase_eqb (GameState.gamePhase gs) waiting)|]; reflexivity. }
  assert (Hrooms : MemStorage.rooms (Server.storage s') = MemStorage.rooms m3).
  { rewrite Hst.
    destruct (MemStorage.getUsersByRoom roomId (Server.storage s)) as [|f [|g r]];
      try reflexivity.
    destruct (MemStorage.getGameState roomId (Server.storage s)) as [gs|];
      [destruct (Phase_eqb (GameState.gamePhase gs) waiting)|]; reflexivity. }
  split; [exact Hc|]. split; [|split].
  - unfold MemStorage.getUser. rewrite Husers. subst m3.
    destruct first.
    + unfold MemStorage.updateRoomHost, MemStorage.makeUserHost.
      cbn [MemStorage.users MemStorage.with_users MemStorage.with_rooms].
      rewrite Hset.
      rewrite (update_first_fresh uuid _ _ fresh Hfresh eq_refl).
      now apply find_app_fresh.
    + rewrite Hset. now apply find_app_fresh.
  - unfold members, MemStorage.getUsersByRoom. rewrite Husers.
    assert (Hm3 : map User.id
                    (filter (fun u => opt_eqb (User.roomId u) (Some roomId))
                       (MemStorage.users m3))
                  = map User.id
                      (filter (fun u => opt_eqb (User.roomId u) (Some roomId))
                         (MemStorage.users m2))).
    { subst m3. destruct first; [|reflexivity].
      unfold MemStorage.updateRoomHost, MemStorage.makeUserHost.
      cbn [MemStorage.users MemStorage.with_users MemStorage.with_rooms].
      now apply map_filter_update_first. }
    rewrite Hm3, Hset, filter_app, map_app. simpl.
    now rewrite String.eqb_refl.
  - unfold MemStorage.getRoom in *. rewrite Hrooms. subst m3 m2.
    destruct first;
      cbn [MemStorage.rooms MemStorage.with_rooms MemStorage.with_users
             MemStorage.updateRoomHost MemStorage.makeUserHost
             MemStorage.createUser MemStorage.updateRoomActivity];
      rewrite ?find_update_first_same by reflexivity;
      rewrite Hroom; reflexivity.
Qed.

(** X14. The two-player rule of [join_room]: a join (into a stored,
    unexpired room, under a fresh user id) that makes the second member of a
    room whose game is waiting sets the phase to choosing and gives the turn
    to the member stored first; any other join leaves the room's game state
    as it was. *)
Theorem join_room_two_player_rule c uuid uuid' roomId username s room :
  MemStorage.getRoom roomId (Server.storage s) = Some room ->
  Room.isExpired room = false ->
  ~ In uuid (map User.id (MemStorage.users (Server.storage s))) ->
  let s' := snd (Routes.join_room c uuid uuid' roomId username s) in
  MemStorage.getGameState roomId (Server.storage s')
  = match MemStorage.getGameState roomId (Server.storage s) with
    | Some g =>
        match MemStorage.getUsersByRoom roomId (Server.storage s) with
        | [first] =>
            if Phase_eqb (GameState.gamePhase g) waiting
            then Some (GameState.mk (GameState.id g) (GameState.roomId g)
                         (Some (User.id first)) (GameState.targetUserId g)
                         choosing (GameState.questionText g) (GameState.choice g)
                         (Server.now s))
            else Some g
        | _ => Some g
        end
    | None => None
    end.
Proof.
  intros Hroom Hexp Hfresh s'.
  destruct (join_room_storage c uuid uuid' roomId username s room Hroom Hexp Hfresh)
    as [Hst _].
  cbv zeta in Hst. fold s' in Hst. rewrite Hst. clear Hst.
  set (m2 := MemStorage.createUser uuid (Server.now s) username roomId
               (Room.maxSkips room) (Socket.id (Conn.socket c))
               (MemStorage.updateRoomActivity (Server.now s) roomId
                  (Server.storage s))).
  set (welcome := MemStorage.createMessage uuid' (Server.now s) roomId None
                    "System" (Some (username ++ " joined the game")) None None).
  assert (Ht : MemStorage.getGameState roomId
                 (welcome (MemStorage.updateRoomHost roomId uuid
                             (MemStorage.makeUserHost uuid m2)))
               = MemStorage.getGameState roomId (Server.storage s))
    by reflexivity.
  assert (Hf : MemStorage.getGameState roomId (welcome m2)
               = MemStorage.getGameState roomId (Server.storage s))
    by reflexivity.
  destruct (MemStorage.getUsersByRoom roomId (Server.storage s)) as [|f [|g r]];
    cbn [List.length Nat.eqb].
  - rewrite Ht. now destruct (MemStorage.getGameState _ _).
  - destruct (MemStorage.getGameState roomId (Server.storage s)) as [gs|] eqn:Hgs.
    + destruct (Phase_eqb (GameState.gamePhase gs) waiting).
      * unfold MemStorage.getGameState, MemStorage.updateGameState.
        cbn [MemStorage.gameStates MemStorage.with_gameStates].
        rewrite find_update_first_same by reflexivity.
        fold (MemStorage.getGameState roomId (welcome m2)).
        rewrite Hf. reflexivity.
      * exact Hf.
    + exact Hf.
  - rewrite Hf. now destruct (MemStorage.getGameState _ _).
Qed.

(** ** send_message *)

Lemma In_update_first_key {A : Type} (key : A -> string) (k : string)
    (f : A -> A) (l : list A) (r : A) :
  NoDup (map key l) -> (forall x, key (f x) = key x) ->
  In r (update_first (fun x => key x =s k) f l) -> key r = k ->
  exists x, In x l /\ r = f x.
Proof.
  intros Hnd Hkey. induction l as [|y l IH]; simpl; [tauto|].
  inversion Hnd as [|? ? Hy Hl]; subst.
  destruct (key y =s k) eqn:E.
  - apply String.eqb_eq in E. intros [<-|Hin] Hr.
    + exists y. split; [now left|reflexivity].
    + exfalso. apply Hy. rewrite E, <- Hr. now apply in_map.
  - intros [<-|Hin] Hr.
    + apply String.eqb_neq in E. contradiction.
    + destruct (IH Hl Hin Hr) as (x & Hx & ->). exists x. split; [now right|reflexivity].
Qed.

(** X15. A chat message from a joined connection is stored, under the user
    and name of the connection, for the room id named in the event (the
    sender's own room is not consulted), and it stamps that room's
    [lastActivity]: no sweep within the next 30 minutes reaps the room.
    Users, game states and the other rooms are left as they were. *)
Theorem send_message_postpones_reaping c uuid roomId messageText mediaUrl
    mediaType s :
  truthy (SocketData.userId (Conn.socketData c)) = true ->
  truthy (SocketData.roomId (Conn.socketData c)) = true ->
  truthy (SocketData.username (Conn.socketData c)) = true ->
  NoDup (map Room.id (MemStorage.rooms (Server.storage s))) ->
  ~ In uuid (map Message.id (MemStorage.messages (Server.storage s))) ->
  let s' :=
    RoutesRest.send_message c uuid roomId messageText mediaUrl mediaType s in
  MemStorage.messages (Server.storage s')
  = (MemStorage.messages (Server.storage s)
     ++ [Message.mk uuid roomId (SocketData.userId (Conn.socketData c))
           (or_empty (SocketData.username (Conn.socketData c)))
           (if truthy messageText then messageText else None)
           (if truthy mediaUrl then mediaUrl else None)
           (if truthy mediaType then mediaType else None) (Server.now s)])%list /\
  (forall now',
     now' <= Server.now s + 30 * 60 * 1000 ->
     ~ In roomId
         (map Room.id (MemStorage.getInactiveRooms now' 30 (Server.storage s')))) /\
  (forall other,
     other <> roomId ->
     MemStorage.getRoom other (Server.storage s')
     = MemStorage.getRoom other (Server.storage s)) /\
  MemStorage.users (Server.storage s') = MemStorage.users (Server.storage s) /\
  MemStorage.gameStates (Server.storage s')
  = MemStorage.gameStates (Server.storage s).
Proof.
  intros Hu Hr Hn Hnd Hfresh s'. subst s'. unfold RoutesRest.send_message.
  rewrite Hu, Hr, Hn.
  cbn [negb orb Server.storage Server.store Server.with_storage Server.emit
       Server.with_outbox Server.now].
  split; [|split; [|split; [|split; reflexivity]]].
  - unfold MemStorage.updateRoomActivity, MemStorage.createMessage.
    cbn [MemStorage.messages MemStorage.with_rooms MemStorage.with_messages].
    now apply (map_set_fresh Message.id).
  - intros now' Hnow Hin.
    unfold MemStorage.getInactiveRooms, MemStorage.updateRoomActivity,
      MemStorage.createMessage in Hin.
    cbn [MemStorage.rooms MemStorage.with_rooms MemStorage.with_messages] in Hin.
    apply in_map_iff in Hin. destruct Hin as (r & Hid & Hin).
    apply filter_In in Hin. destruct Hin as [Hin Hold].
    apply (In_update_first_key Room.id roomId) in Hin;
      [|exact Hnd|reflexivity|exact Hid].
    destruct Hin as (x & _ & ->).
    cbn [Room.lastActivity Room.isExpired] in Hold.
    apply andb_prop in Hold. destruct Hold as [_ Hold].
    apply Z.ltb_lt in Hold. lia.
  - intros other Hother.
    unfold MemStorage.getRoom, MemStorage.updateRoomActivity,
      MemStorage.createMessage.
    cbn [MemStorage.rooms MemStorage.with_rooms MemStorage.with_messages].
    apply find_update_first_other; [reflexivity|].
    intros x Hx. apply String.eqb_eq in Hx. apply String.eqb_neq. congruence.
Qed.

(** ** next_turn *)

Lemma findIndex_none {A : Type} (p : A -> bool) (l : list A) :
  (forall x, In x l -> p x = false) -> findIndex p l = -1.
Proof.
  induction l as [|x l IH]; simpl; intros H; [reflexivity|].
  rewrite (H x) by now left.
  rewrite IH by (intros y Hy; apply H; now right). reflexivity.
Qed.

Lemma findIndex_at {A : Type} (p : A -> bool) (l : list A) (i : nat) (u : A) :
  nth_error l i = Some u -> p u = true ->
  (forall j v, nth_error l j = Some v -> p v = true -> j = i) ->
  findIndex p l = Z.of_nat i.
Proof.
  revert i. induction l as [|x l IH]; intros i Hi Hp Hfirst.
  - now destruct i.
  - destruct i as [|i]; cbn [findIndex].
    + injection Hi as ->. now rewrite Hp.
    + destruct (p x) eqn:E.
      * specialize (Hfirst 0%nat x eq_refl E). discriminate.
      * rewrite (IH i Hi Hp).
        -- destruct (Z.of_nat i <? 0) eqn:E'; [apply Z.ltb_lt in E'|]; lia.
        -- intros j v Hj Hv. specialize (Hfirst (S j) v Hj Hv). lia.
Qed.

Lemma nth_error_key_NoDup {A : Type} (key : A -> string) (l : list A)
    (i j : nat) (u v : A) :
  NoDup (map key l) -> nth_error l i = Some u -> nth_error l j = Some v ->
  key u = key v -> i = j.
Proof.
  intros Hnd Hi Hj Hk.
  apply (proj1 (NoDup_nth_error (map key l)) Hnd).
  - rewrite length_map. apply nth_error_Some. now rewrite Hi.
  - rewrite (map_nth_error key _ _ Hi), (map_nth_error key _ _ Hj).
    now rewrite Hk.
Qed.

(** X16. [next_turn] goes round the online users of the room in the order
    they are stored: with at least two of them online (and a game state
    stored for the room), the turn passes from the online user that holds
    it to the one stored next, from the last to the first; when the holder
    is not online, or nobody holds the turn, it goes to the first online
    user. The target, the question and the choice are cleared, and the
    phase is choosing with exactly two online and waiting otherwise. *)
Theorem next_turn_round_robin roomId s g :
  MemStorage.getGameState roomId (Server.storage s) = Some g ->
  NoDup (map User.id (MemStorage.users (Server.storage s))) ->
  let players := onlineUsers roomId s in
  let n := List.length players in
  (2 <= n)%nat ->
  exists next,
    MemStorage.getGameState roomId (Server.storage (Routes.next_turn roomId s))
    = Some (GameState.mk (GameState.id g) (GameState.roomId g)
              (Some (User.id next)) None
              (if Nat.eqb n 2 then choosing else waiting) None None
              (Server.now s)) /\
    (forall i holder,
       nth_error players i = Some holder ->
       GameState.currentTurnUserId g = Some (User.id holder) ->
       nth_error players (Nat.modulo (S i) n) = Some next) /\
    ((forall u, In u players ->
                GameState.currentTurnUserId g <> Some (User.id u)) ->
     nth_error players 0 = Some next).
Proof.
  intros Hg Hnd players n Hn.
  assert (Hndp : NoDup (map User.id players)).
  { unfold players, onlineUsers, Routes.online, MemStorage.getUsersByRoom.
    now do 2 apply NoDup_map_filter. }
  unfold Routes.next_turn.
  change (Routes.online (MemStorage.getUsersByRoom roomId (Server.storage s)))
    with players. fold n.
  destruct (Nat.ltb n 2) eqn:Hlt; [apply Nat.ltb_lt in Hlt; lia|].
  rewrite Hg.
  set (p := fun u : User.t =>
              opt_eqb (Some (User.id u)) (GameState.currentTurnUserId g)).
  pose proof (findIndex_bounds p players) as Hb. fold n in Hb.
  assert (Hrem : Z.rem (findIndex p players + 1) (Z.of_nat n)
                 = (findIndex p players + 1) mod Z.of_nat n)
    by (apply Z.rem_mod_nonneg; lia).
  assert (Hrange : 0 <= (findIndex p players + 1) mod Z.of_nat n < Z.of_nat n)
    by (apply Z.mod_pos_bound; lia).
  rewrite Hrem.
  destruct (nth_error players
              (Z.to_nat ((findIndex p players + 1) mod Z.of_nat n)))
    as [next|] eqn:Hnext.
  2:{ apply nth_error_None in Hnext. fold n in Hnext. lia. }
  exists next. split; [|split].
  - unfold MemStorage.getGameState, MemStorage.updateGameState in *.
    cbn [Server.storage Server.store Server.with_storage Server.emit
         Server.with_outbox MemStorage.gameStates MemStorage.with_gameStates].
    rewrite find_update_first_same by reflexivity.
    rewrite Hg. reflexivity.
  - intros i holder Hi Hturn.
    assert (Hidx : findIndex p players = Z.of_nat i).
    { apply (findIndex_at p players i holder Hi).
      - unfold p. rewrite Hturn. apply opt_eqb_refl.
      - intros j v Hj Hv. unfold p in Hv. rewrite Hturn in Hv.
        apply String.eqb_eq in Hv.
        exact (nth_error_key_NoDup User.id players j i v holder Hndp Hj Hi Hv). }
    rewrite Hidx in Hnext.
    replace (Z.of_nat i + 1) with (Z.of_nat (S i)) in Hnext by lia.
    rewrite <- Nat2Z.inj_mod, Nat2Z.id in Hnext. exact Hnext.
  - intros Hnone.
    assert (Hidx : findIndex p players = -1).
    { apply findIndex_none. intros u Hu. unfold p.
      specialize (Hnone u Hu).
      destruct (GameState.currentTurnUserId g) as [cur|]; [|reflexivity].
      apply String.eqb_neq. congruence. }
    rewrite Hidx in Hnext. replace (-1 + 1) with 0 in Hnext by lia.
    rewrite Z.mod_0_l in Hnext by lia. exact Hnext.
Qed.

(** ** The end of the grace period *)

Lemma filter_key_absent {A : Type} (key : A -> string) (k : string)
    (l : list A) :
  ~ In k (map key l) -> filter (fun x => negb (key x =s k)) l = l.
Proof.
  induction l as [|x l IH]; simpl; intros H; [reflexivity|].
  destruct (key x =s k) eqn:E.
  - apply String.eqb_eq in E. exfalso. apply H. now left.
  - simpl. rewrite IH; [reflexivity|]. intros Hin. apply H. now right.
Qed.

Lemma filter_update_first_drop {A : Type} (key : A -> string) (k : string)
    (f : A -> A) (q : A -> bool) (l : list A) :
  NoDup (map key l) -> (forall x, q (f x) = false) ->
  filter q (update_first (fun x => key x =s k) f l)
  = filter (fun x => negb (key x =s k)) (filter q l).
Proof.
  intros Hnd Hq. induction l as [|x l IH]; simpl; [reflexivity|].
  inversion Hnd as [|? ? Hx Hl]; subst.
  destruct (key x =s k) eqn:E.
  - simpl. rewrite Hq. apply String.eqb_eq in E.
    assert (Hout : filter (fun y => negb (key y =s k)) (filter q l) = filter q l).
    { apply filter_key_absent. intros Hin. apply Hx. rewrite E.
      apply in_map_iff in Hin. destruct Hin as (y & Hy & Hin).
      apply filter_In in Hin. rewrite <- Hy. apply in_map. tauto. }
    destruct (q x); simpl; [|now rewrite Hout].
    apply String.eqb_eq in E. rewrite E. simpl. now rewrite Hout.
  - simpl. destruct (q x); simpl; [rewrite E; simpl|]; now rewrite IH.
Qed.

Lemma find_key_NoDup {A : Type} (key : A -> string) (l : list A) (x : A) :
  NoDup (map key l) -> In x l -> find (fun y => key y =s key x) l = Some x.
Proof.
  induction l as [|y l IH]; simpl; intros Hnd Hin; [contradiction|].
  inversion Hnd as [|? ? Hy Hl]; subst.
  destruct Hin as [->|Hin]; [now rewrite String.eqb_refl|].
  destruct (key y =s key x) eqn:E; [|now apply IH].
  apply String.eqb_eq in E. exfalso. apply Hy. rewrite E. now apply in_map.
Qed.

(** X17. When the grace period of a disconnected host runs out (the user is
    still stored under the connection's socket) and some other user of the
    room is online, the user is marked offline and the earliest-joined
    online user of the room becomes the host of the room and is flagged as
    host. The flag of the user that left is not cleared. *)
Theorem grace_expiry_hands_host_to_earliest_online c userId roomId user s :
  SocketData.userId (Conn.socketData c) = Some userId -> userId <> "" ->
  SocketData.roomId (Conn.socketData c) = Some roomId -> roomId <> "" ->
  NoDup (map User.id (MemStorage.users (Server.storage s))) ->
  MemStorage.getUser userId (Server.storage s) = Some user ->
  User.socketId user = Some (Socket.id (Conn.socket c)) ->
  User.isHost user = true ->
  let others :=
    filter (fun u => negb (User.id u =s userId)) (onlineUsers roomId s) in
  others <> [] ->
  let s' := Routes.reconnectTimeout c s in
  exists heir,
    In heir others /\
    (forall u, In u others -> User.joinedAt heir <= User.joinedAt u) /\
    MemStorage.getUser (User.id heir) (Server.storage s')
    = Some (User.mk (User.id heir) (User.username heir) (User.roomId heir) true
              true (User.skipsRemaining heir) (User.joinedAt heir)
              (User.socketId heir)) /\
    MemStorage.getUser userId (Server.storage s')
    = Some (User.mk (User.id user) (User.username user) (User.roomId user) true
              false (User.skipsRemaining user) (User.joinedAt user)
              (User.socketId user)) /\
    MemStorage.getRoom roomId (Server.storage s')
    = option_map
        (fun r => Room.mk (Room.id r) (Room.roomKey r) (Some (User.id heir))
                    (Room.maxSkips r) (Room.createdAt r) (Room.lastActivity r)
                    (Room.isExpired r))
        (MemStorage.getRoom roomId (Server.storage s)) /\
    last (Server.outbox s') (ToRoom roomId (new_host "" ""))
    = ToRoom roomId (new_host (User.id heir) (User.username heir)).
Proof.
  intros Hu Hune Hr Hrne Hnd Huser Hsock Hhost others Hothers s'.
  assert (Hon : Routes.online
                  (MemStorage.getUsersByRoom roomId
                     (MemStorage.updateUserOnline userId false None
                        (Server.storage s))) = others).
  { unfold others, onlineUsers, Routes.online, MemStorage.getUsersByRoom,
      MemStorage.updateUserOnline.
    cbn [MemStorage.users MemStorage.with_users].
    rewrite (filter_filter_and _ _ (update_first _ _ _)).
    rewrite (filter_filter_and _ User.isOnline
               (MemStorage.users (Server.storage s))).
    apply (filter_update_first_drop User.id userId); [exact Hnd|].
    intros x. cbn [User.roomId User.isOnline]. apply andb_false_r. }
  subst s'. unfold Routes.reconnectTimeout.
  rewrite Hu, Hr. cbn [truthy or_empty].
  apply String.eqb_neq in Hune, Hrne. rewrite Hune, Hrne. cbn [negb orb].
  rewrite Huser, Hsock, opt_eqb_refl, Hhost.
  cbn [Server.storage Server.store Server.with_storage Server.emit
       Server.with_outbox].
  rewrite Hon.
  destruct (Nat.eqb (List.length others) 0) eqn:Hlen.
  { apply Nat.eqb_eq in Hlen. destruct others; [congruence|discriminate]. }
  unfold Routes.handOver.
  pose proof (handOver_picks_earliest others) as Hpick.
  destruct (sort Routes.byJoinedAt others) as [|heir rest]; [congruence|].
  destruct Hpick as [Hin Hmin].
  exists heir. split; [exact Hin|]. split; [exact Hmin|].
  assert (Hheir : In heir (MemStorage.users (Server.storage s)) /\
                  User.id heir <> userId /\ User.isOnline heir = true).
  { unfold others, onlineUsers, Routes.online, MemStorage.getUsersByRoom in Hin.
    apply filter_In in Hin. destruct Hin as [Hin Hne].
    apply filter_In in Hin. destruct Hin as [Hin Honl].
    apply filter_In in Hin. destruct Hin as [Hin _].
    apply negb_true_iff, String.eqb_neq in Hne. tauto. }
  destruct Hheir as (Hstored & Hne & Honl).
  cbn [Server.storage Server.store Server.with_storage Server.emit
       Server.with_outbox Server.outbox].
  unfold MemStorage.getUser, MemStorage.getRoom, MemStorage.updateRoomHost,
    MemStorage.makeUserHost, MemStorage.updateUserOnline in *.
  cbn [MemStorage.users MemStorage.with_users MemStorage.rooms
       MemStorage.with_rooms].
  split; [|split; [|split]].
  - rewrite !getUser_update_first by reflexivity.
    rewrite String.eqb_refl.
    apply String.eqb_neq in Hne. rewrite Hne.
    rewrite (find_key_NoDup User.id _ heir Hnd Hstored).
    cbn [option_map]. now rewrite Honl.
  - rewrite !getUser_update_first by reflexivity.
    assert (E : (userId =s User.id heir) = false)
      by (apply String.eqb_neq; congruence).
    rewrite E, String.eqb_refl, Huser. cbn [option_map User.isHost].
    now rewrite Hhost, Hsock.
  - now rewrite find_update_first_same by reflexivity.
  - now rewrite last_last.
Qed.

(** ** What the sweep removes *)

Lemma filter_update_first_out {A : Type} (p : A -> bool) (f : A -> A)
    (l : list A) :
  (forall x, p x = true -> p (f x) = true) ->
  filter (fun x => negb (p x)) (update_first p f l)
  = filter (fun x => negb (p x)) l.
Proof.
  intros Hp. induction l as [|x l IH]; simpl; [reflexivity|].
  destruct (p x) eqn:E; simpl.
  - now rewrite (Hp x E).
  - now rewrite E, IH.
Qed.

Lemma existsb_ext_in {A : Type} (g h : A -> bool) (l : list A) :
  (forall x, In x l -> g x = h x) -> existsb g l = existsb h l.
Proof.
  induction l as [|x l IH]; simpl; intros H; [reflexivity|].
  rewrite (H x) by now left.
  rewrite IH by (intros y Hy; apply H; now right). reflexivity.
Qed.

Lemma takeWhile_ext_in {A : Type} (g h : A -> bool) (l : list A) :
  (forall x, In x l -> g x = h x) -> takeWhile g l = takeWhile h l.
Proof.
  induction l as [|x l IH]; simpl; intros H; [reflexivity|].
  rewrite (H x) by now left.
  rewrite IH by (intros y Hy; apply H; now right). reflexivity.
Qed.

Lemma takeWhile_In {A : Type} (p : A -> bool) (l : list A) (x : A) :
  In x (takeWhile p l) -> In x l /\ p x = true.
Proof.
  induction l as [|y l IH]; simpl; [contradiction|].
  destruct (p y) eqn:E; simpl; [|contradiction].
  intros [<-|H]; [now split; [left|]|].
  destruct (IH H). split; [now right|assumption].
Qed.

Lemma skipn_In {A : Type} (n : nat) (l : list A) (x : A) :
  In x (skipn n l) -> In x l.
Proof.
  revert l. induction n as [|n IH]; intros [|y l]; simpl; try tauto.
  intros H. right. now apply IH.
Qed.

Lemma flat_map_ext_in {A B : Type} (g h : A -> list B) (l : list A) :
  (forall x, In x l -> g x = h x) -> flat_map g l = flat_map h l.
Proof.
  induction l as [|x l IH]; simpl; intros H; [reflexivity|].
  rewrite (H x) by now left.
  rewrite IH by (intros y Hy; apply H; now right). reflexivity.
Qed.

Lemma namedBy_app (a b : list Message.t) (f : string) :
  namedBy (a ++ b) f = namedBy a f || namedBy b f.
Proof. unfold namedBy. apply existsb_app. Qed.

Lemma getMessagesByRoom_deleteMessagesByRoom (roomId other : string)
    (limit : nat) (m : MemStorage.t) :
  other <> roomId ->
  MemStorage.getMessagesByRoom roomId limit
    (MemStorage.deleteMessagesByRoom other m)
  = MemStorage.getMessagesByRoom roomId limit m.
Proof.
  intros Hne. unfold MemStorage.getMessagesByRoom, MemStorage.deleteMessagesByRoom.
  cbn [MemStorage.messages MemStorage.with_messages].
  rewrite filter_filter_and.
  do 3 f_equal. apply filter_ext. intros x.
  destruct (Message.roomId x =s roomId) eqn:E; [|now rewrite andb_false_r].
  apply String.eqb_eq in E. rewrite E.
  assert ((roomId =s other) = false) as -> by (apply String.eqb_neq; congruence).
  reflexivity.
Qed.

(** One turn of the loop: it throws for a room one of whose latest
    messages names a directory, and reaps the room otherwise. *)
Lemma reapRoom_outcome (s : Server.t) (room : Room.t) :
  Routes.reapRoom s room
  = if poisoned s room
    then
      (Server.with_uploads
         (filter
            (fun f => negb (namedBy (beforeDirectory (latest s room)) f))
            (Server.uploads s)) s, Threw)
    else
      (Server.store (MemStorage.deleteRoom (Room.id room))
         (Server.store (MemStorage.expireRoom (Room.id room))
            (Server.store (MemStorage.deleteMessagesByRoom (Room.id room))
               (Server.with_uploads
                  (filter (fun f => negb (namedBy (latest s room) f))
                     (Server.uploads s)) s))),
       Returned).
Proof.
  unfold Routes.reapRoom, poisoned. fold (latest s room).
  rewrite deleteAllFilesInRoom_outcome.
  destruct (existsb namesDirectory (latest s room)) eqn:E; [reflexivity|].
  unfold beforeDirectory. now rewrite takeWhile_all.
Qed.

Lemma reaped_stores (s : Server.t) (room : Room.t) :
  let s1 :=
    Server.store (MemStorage.deleteRoom (Room.id room))
      (Server.store (MemStorage.expireRoom (Room.id room))
         (Server.store (MemStorage.deleteMessagesByRoom (Room.id room))
            (Server.with_uploads
               (filter (fun f => negb (namedBy (latest s room) f))
                  (Server.uploads s)) s))) in
  MemStorage.rooms (Server.storage s1)
  = filter (fun r => negb (Room.id r =s Room.id room))
      (MemStorage.rooms (Server.storage s)) /\
  MemStorage.messages (Server.storage s1)
  = filter (fun x => negb (Message.roomId x =s Room.id room))
      (MemStorage.messages (Server.storage s)) /\
  forall other, Room.id room <> Room.id other -> latest s1 other = latest s other.
Proof.
  intros s1. subst s1.
  cbn [Server.storage Server.store Server.with_storage Server.with_uploads].
  split; [|split].
  - unfold MemStorage.deleteRoom, MemStorage.expireRoom,
      MemStorage.deleteMessagesByRoom.
    cbn [MemStorage.rooms MemStorage.with_rooms MemStorage.with_messages].
    now apply (filter_update_first_out (fun r => Room.id r =s Room.id room)).
  - reflexivity.
  - intros other Hne. unfold latest.
    cbn [Server.storage Server.store Server.with_storage Server.with_uploads].
    now apply (getMessagesByRoom_deleteMessagesByRoom (Room.id other)
                 (Room.id room)).
Qed.

(** The upload files a sweep over [dead] asks to delete: those named by
    the messages read for the rooms it reaps and, for the room at which it
    throws, by the messages before the one that names a directory. *)
Lemma reapRooms_outcome (dead : list Room.t) (s : Server.t) :
  NoDup (map Room.id dead) ->
  let reaped := takeWhile (fun d => negb (poisoned s d)) dead in
  let touched :=
    (flat_map (latest s) reaped
     ++ match skipn (List.length reaped) dead with
        | d :: _ => beforeDirectory (latest s d)
        | [] => []
        end)%list in
  let s' := Routes.reapRooms dead s in
  MemStorage.rooms (Server.storage s')
  = filter (fun r => negb (existsb (fun d => Room.id r =s Room.id d) reaped))
      (MemStorage.rooms (Server.storage s)) /\
  MemStorage.messages (Server.storage s')
  = filter
      (fun x => negb (existsb (fun d => Message.roomId x =s Room.id d) reaped))
      (MemStorage.messages (Server.storage s)) /\
  Server.uploads s'
  = filter (fun f => negb (namedBy touched f)) (Server.uploads s).
Proof.
  revert s. induction dead as [|d dead IH]; intros s Hnd.
  - cbn. now rewrite !filter_all.
  - inversion Hnd as [|? ? Hd Hdead]; subst.
    cbn [Routes.reapRooms takeWhile]. rewrite reapRoom_outcome.
    destruct (poisoned s d) eqn:Hp; cbn [negb].
    + cbn [List.length skipn flat_map app existsb negb Server.storage
           Server.uploads Server.with_uploads].
      now rewrite !filter_all.
    + destruct (reaped_stores s d) as (Hr & Hm & Hl).
      set (s1 := Server.store _ _) in *.
      specialize (IH s1 Hdead). cbv zeta in IH.
      destruct IH as (IHr & IHm & IHu).
      assert (Hsame : forall x, In x dead -> latest s1 x = latest s x).
      { intros x Hx. apply Hl. intros Heq. apply Hd. rewrite Heq.
        now apply in_map. }
      assert (Hreaped : takeWhile (fun x => negb (poisoned s1 x)) dead
                        = takeWhile (fun x => negb (poisoned s x)) dead).
      { apply takeWhile_ext_in. intros x Hx. unfold poisoned.
        now rewrite Hsame. }
      rewrite Hreaped in IHr, IHm, IHu.
      set (reaped := takeWhile (fun x => negb (poisoned s x)) dead) in *.
      assert (Htouched :
                (flat_map (latest s1) reaped
                 ++ match skipn (List.length reaped) dead with
                    | y :: _ => beforeDirectory (latest s1 y)
                    | [] => []
                    end
                 = flat_map (latest s) reaped
                   ++ match skipn (List.length reaped) dead with
                      | y :: _ => beforeDirectory (latest s y)
                      | [] => []
                      end)%list).
      { f_equal.
        - apply flat_map_ext_in. intros y Hy. apply Hsame.
          now apply (takeWhile_In _ _ _ Hy).
        - destruct (skipn (List.length reaped) dead) as [|y rest] eqn:Hs;
            [reflexivity|].
          rewrite Hsame; [reflexivity|].
          apply (skipn_In (List.length reaped)). rewrite Hs. now left. }
      rewrite Htouched in IHu.
      cbn [List.length skipn flat_map existsb].
      split; [|split].
      * rewrite IHr, Hr, filter_filter_and. apply filter_ext. intros x.
        now rewrite negb_orb.
      * rewrite IHm, Hm, filter_filter_and. apply filter_ext. intros x.
        now rewrite negb_orb.
      * rewrite IHu.
        change (Server.uploads s1)
          with (filter (fun f => negb (namedBy (latest s d) f))
                  (Server.uploads s)).
        rewrite filter_filter_and. apply filter_ext. intros f.
        now rewrite <- app_assoc, (namedBy_app (latest s d)), negb_orb.
Qed.

Lemma existsb_key_absent {A : Type} (key : A -> string) (k : string)
    (l : list A) :
  ~ In k (map key l) -> existsb (fun d => k =s key d) l = false.
Proof.
  induction l as [|x l IH]; simpl; intros H; [reflexivity|].
  assert ((k =s key x) = false) as ->
    by (apply String.eqb_neq; intros E; apply H; now left).
  apply IH. intros Hin. apply H. now right.
Qed.

(** Without the first elements of a list with distinct keys, the others
    are left. *)
Lemma filter_out_prefix {A : Type} (key : A -> string) (p : A -> bool)
    (l : list A) :
  NoDup (map key l) ->
  filter (fun r => negb (existsb (fun d => key r =s key d) (takeWhile p l))) l
  = skipn (List.length (takeWhile p l)) l.
Proof.
  induction l as [|x l IH]; simpl; intros Hnd; [reflexivity|].
  inversion Hnd as [|? ? Hx Hl]; subst.
  destruct (p x); cbn [existsb List.length skipn negb].
  - rewrite String.eqb_refl. cbn [orb negb]. rewrite <- (IH Hl).
    apply filter_ext_in. intros r Hr.
    assert ((key r =s key x) = false) as ->; [|reflexivity].
    apply String.eqb_neq. intros E. apply Hx. rewrite <- E. now apply in_map.
  - f_equal. apply filter_all.
Qed.

Lemma existsb_key_filter {A : Type} (key : A -> string) (q : A -> bool)
    (l : list A) (r : A) :
  NoDup (map key l) -> In r l ->
  existsb (fun d => key r =s key d) (filter q l) = q r.
Proof.
  intros Hnd Hin. destruct (q r) eqn:E.
  - apply existsb_exists. exists r. split; [|apply String.eqb_refl].
    apply filter_In. now split.
  - destruct (existsb _ _) eqn:Hex; [|reflexivity].
    apply existsb_exists in Hex. destruct Hex as (d & Hd & Hk).
    apply filter_In in Hd. destruct Hd as [Hd Hq].
    apply String.eqb_eq in Hk.
    destruct (In_nth_error _ _ Hin) as [i Hi].
    destruct (In_nth_error _ _ Hd) as [j Hj].
    pose proof (nth_error_key_NoDup key l i j r d Hnd Hi Hj Hk) as ->.
    congruence.
Qed.

Lemma takeWhile_skipn {A : Type} (p : A -> bool) (l : list A) :
  l = (takeWhile p l ++ skipn (List.length (takeWhile p l)) l)%list.
Proof.
  induction l as [|x l IH]; simpl; [reflexivity|].
  destruct (p x); simpl; [now rewrite <- IH|reflexivity].
Qed.

(** An element of a list with distinct keys that is not among its first
    elements has none of their keys. *)
Lemma key_not_in_prefix {A : Type} (key : A -> string) (p : A -> bool)
    (l : list A) (d : A) :
  NoDup (map key l) -> In d l -> p d = false ->
  existsb (fun x => key d =s key x) (takeWhile p l) = false.
Proof.
  intros Hnd Hd Hp.
  destruct (existsb _ _) eqn:Hex; [|reflexivity].
  apply existsb_exists in Hex. destruct Hex as (x & Hx & Hk).
  apply takeWhile_In in Hx. destruct Hx as [Hx Hpx].
  apply String.eqb_eq in Hk.
  destruct (In_nth_error _ _ Hd) as [i Hi].
  destruct (In_nth_error _ _ Hx) as [j Hj].
  pose proof (nth_error_key_NoDup key l i j d x Hnd Hi Hj Hk) as ->.
  congruence.
Qed.

(** X18. One pass of the cleanup interval, on rooms with distinct ids. The
    pass takes the inactive rooms (not marked expired, [lastActivity] more
    than 30 minutes old) in stored order and stops at the first of them for
    which deleting the files throws, that is, one of whose latest 100
    messages has a media URL with the base name of a directory. Exactly the
    rooms before that one are removed, with all their messages and with the
    upload files named by the latest 100 messages of each (files named only
    by older messages stay); of the room at which it stops, only the files
    named before the throw are removed. Everything else stays, in order:
    that room and the inactive rooms after it are still stored and still
    inactive, with the messages the next pass will read for them. With no
    such room, all inactive rooms are removed and none is inactive
    afterwards. *)
Theorem sweep_reaps_exactly_the_inactive_rooms (s : Server.t) :
  NoDup (map Room.id (MemStorage.rooms (Server.storage s))) ->
  let dead := MemStorage.getInactiveRooms (Server.now s) 30 (Server.storage s) in
  let reaped := takeWhile (fun d => negb (poisoned s d)) dead in
  let touched :=
    (flat_map (latest s) reaped
     ++ match skipn (List.length reaped) dead with
        | d :: _ => beforeDirectory (latest s d)
        | [] => []
        end)%list in
  let s' := Routes.cleanup s in
  MemStorage.rooms (Server.storage s')
  = filter (fun r => negb (existsb (fun d => Room.id r =s Room.id d) reaped))
      (MemStorage.rooms (Server.storage s)) /\
  MemStorage.messages (Server.storage s')
  = filter
      (fun x => negb (existsb (fun d => Message.roomId x =s Room.id d) reaped))
      (MemStorage.messages (Server.storage s)) /\
  Server.uploads s'
  = filter (fun f => negb (namedBy touched f)) (Server.uploads s) /\
  MemStorage.getInactiveRooms (Server.now s) 30 (Server.storage s')
  = skipn (List.length reaped) dead /\
  (existsb (poisoned s) dead = false ->
   reaped = dead /\
   MemStorage.rooms (Server.storage s')
   = filter
       (fun r => Room.isExpired r
                 || negb (Room.lastActivity r
                          <? Server.now s - 30 * 60 * 1000))
       (MemStorage.rooms (Server.storage s)) /\
   MemStorage.getInactiveRooms (Server.now s) 30 (Server.storage s') = []) /\
  (forall d,
     In d dead -> poisoned s d = true ->
     In d (MemStorage.getInactiveRooms (Server.now s) 30 (Server.storage s')) /\
     latest s' d = latest s d).
Proof.
  intros Hnd dead reaped touched s'.
  assert (Hdead : NoDup (map Room.id dead))
    by (apply NoDup_map_filter; exact Hnd).
  destruct (reapRooms_outcome dead s Hdead) as (Hr & Hm & Hu).
  change (Routes.reapRooms dead s) with s' in Hr, Hm, Hu.
  fold reaped in Hr, Hm, Hu. fold touched in Hu.
  assert (Hafter : MemStorage.getInactiveRooms (Server.now s) 30
                     (Server.storage s')
                   = skipn (List.length reaped) dead).
  { unfold MemStorage.getInactiveRooms at 1. rewrite Hr.
    rewrite filter_filter_comm.
    exact (filter_out_prefix Room.id _ dead Hdead). }
  split; [exact Hr|]. split; [exact Hm|]. split; [exact Hu|].
  split; [exact Hafter|]. split.
  - intros Hnone.
    assert (Hall : reaped = dead) by (now apply takeWhile_all).
    split; [exact Hall|]. split.
    + rewrite Hr, Hall. apply filter_ext_in. intros r Hin.
      unfold dead, MemStorage.getInactiveRooms.
      rewrite (existsb_key_filter Room.id _ _ r Hnd Hin).
      now rewrite negb_andb, negb_involutive.
    + rewrite Hafter, Hall. apply skipn_all.
  - intros d Hd Hp.
    assert (Hout : existsb (fun x => Room.id d =s Room.id x) reaped = false).
    { apply (key_not_in_prefix Room.id _ dead d Hdead Hd). now rewrite Hp. }
    split.
    + rewrite Hafter.
      rewrite (takeWhile_skipn (fun x => negb (poisoned s x)) dead) in Hd.
      apply in_app_or in Hd. destruct Hd as [Hd|Hd]; [|exact Hd].
      apply takeWhile_In in Hd. destruct Hd as [_ Hd].
      rewrite Hp in Hd. discriminate.
    + unfold latest, MemStorage.getMessagesByRoom. rewrite Hm.
      rewrite filter_filter_and. do 3 f_equal. apply filter_ext. intros x.
      destruct (Message.roomId x =s Room.id d) eqn:E;
        [|now rewrite andb_false_r].
      apply String.eqb_eq in E. rewrite E, Hout. reflexivity.
Qed.

(** ** The messages a room is shown *)

Section SortFacts.
Context {A : Type} (key : A -> Z).

(** Newest first, as [(a, b) => key b - key a] sorts. *)
Let cmp (a b : A) : Z := key b - key a.
Let newer (a b : A) : Prop := key b <= key a.

Lemma insert_sorted_perm (x : A) (l : list A) :
  Permutation (insert_sorted cmp x l) (x :: l).
Proof.
  induction l as [|y l IH]; simpl; [reflexivity|].
  destruct (cmp x y <=? 0); [reflexivity|].
  rewrite IH. apply perm_swap.
Qed.

Lemma sort_perm (l : list A) : Permutation (sort cmp l) l.
Proof.
  induction l as [|x l IH]; simpl; [reflexivity|].
  rewrite insert_sorted_perm. now constructor.
Qed.

Lemma insert_sorted_sorted (x : A) (l : list A) :
  Sorted.StronglySorted newer l -> Sorted.StronglySorted newer (insert_sorted cmp x l).
Proof.
  induction 1 as [|y l Hl IH Hy]; simpl.
  - repeat constructor.
  - unfold cmp at 1. destruct (key y - key x <=? 0) eqn:E.
    + apply Z.leb_le in E. constructor; [now constructor|].
      constructor; [unfold newer; lia|].
      eapply Forall_impl; [|exact Hy]. unfold newer. intros z Hz. lia.
    + apply Z.leb_gt in E. constructor; [exact IH|].
      rewrite (insert_sorted_perm x l). constructor; [unfold newer; lia|exact Hy].
Qed.

Lemma sort_sorted (l : list A) : Sorted.StronglySorted newer (sort cmp l).
Proof.
  induction l as [|x l IH]; simpl; [constructor|].
  now apply insert_sorted_sorted.
Qed.

Lemma sorted_app_inv (R : A -> A -> Prop) (l1 l2 : list A) :
  Sorted.StronglySorted R (l1 ++ l2) ->
  Sorted.StronglySorted R l1 /\ Sorted.StronglySorted R l2 /\
  forall a b, In a l1 -> In b l2 -> R a b.
Proof.
  induction l1 as [|x l1 IH]; simpl; intros H.
  - split; [constructor|]. split; [exact H|]. contradiction.
  - inversion H as [|? ? Hs Hx]; subst.
    destruct (IH Hs) as (H1 & H2 & Hc).
    apply Forall_app in Hx. destruct Hx as [Hx1 Hx2].
    split; [now constructor|]. split; [exact H2|].
    intros a b [<-|Ha] Hb; [|now apply Hc].
    rewrite Forall_forall in Hx2. now apply Hx2.
Qed.

Lemma sorted_rev (R : A -> A -> Prop) (l : list A) :
  Sorted.StronglySorted R l -> Sorted.StronglySorted (fun a b => R b a) (rev l).
Proof.
  induction 1 as [|x l Hl IH Hx]; simpl; [constructor|].
  revert IH. generalize (Forall_rev Hx). generalize (rev l). clear.
  intros l Hx. induction 1 as [|y l Hl IH Hy]; simpl.
  - repeat constructor.
  - inversion Hx as [|? ? Hxy Hxl]; subst.
    constructor; [now apply IH|].
    apply Forall_app. split; [exact Hy|]. now repeat constructor.
Qed.
End SortFacts.

(** X19. [getMessagesByRoom] answers the latest [limit] messages of the
    room, oldest first: the answer and the messages left out make up the
    stored messages of the room, the answer has [limit] messages (all of
    them when the room has fewer), it is in the order of [createdAt], and
    no message left out is newer than a message in the answer. *)
Theorem getMessagesByRoom_latest (roomId : string) (limit : nat)
    (m : MemStorage.t) :
  let answer := MemStorage.getMessagesByRoom roomId limit m in
  let ofRoom :=
    filter (fun x => Message.roomId x =s roomId) (MemStorage.messages m) in
  exists older,
    Permutation (older ++ answer) ofRoom /\
    List.length answer = Nat.min limit (List.length ofRoom) /\
    Sorted.StronglySorted
      (fun a b => Message.createdAt a <= Message.createdAt b) answer /\
    forall a b,
      In a older -> In b answer -> Message.createdAt a <= Message.createdAt b.
Proof.
  intros answer ofRoom. unfold answer, MemStorage.getMessagesByRoom.
  fold ofRoom.
  set (sorted := sort (fun a b => Message.createdAt b - Message.createdAt a)
                   ofRoom).
  pose proof (sort_perm Message.createdAt ofRoom) as Hperm.
  pose proof (sort_sorted Message.createdAt ofRoom) as Hsorted.
  fold sorted in Hperm, Hsorted.
  rewrite <- (firstn_skipn limit sorted) in Hperm, Hsorted.
  apply sorted_app_inv in Hsorted.
  destruct Hsorted as (Hfirst & _ & Hcross).
  exists (skipn limit sorted). split; [|split; [|split]].
  - rewrite Permutation_app_comm, <- Permutation_rev. exact Hperm.
  - rewrite length_rev, length_firstn. f_equal.
    unfold sorted. apply Permutation_length.
    apply (sort_perm Message.createdAt).
  - apply (sorted_rev _ _ Hfirst).
  - intros a b Ha Hb. apply in_rev in Hb. exact (Hcross b a Hb Ha).
Qed.

(** ** A vote and its timer *)

Lemma find_map_set_same {A : Type} (key : A -> string) (v : A) (l : list A) :
  find (fun x => key x =s key v) (map_set key v l) = Some v.
Proof.
  induction l as [|x l IH]; simpl.
  - now rewrite String.eqb_refl.
  - destruct (key x =s key v) eqn:E; simpl.
    + now rewrite String.eqb_refl.
    + now rewrite E.
Qed.

Lemma pending_new_timer (tm : Timer.t) (l : list Timer.t) :
  Forall (fun x => (Timer.handle x < Timer.handle tm)%nat) l ->
  find (fun x => Nat.eqb (Timer.handle x) (Timer.handle tm)) (l ++ [tm])%list
  = Some tm.
Proof.
  induction 1 as [|x l Hx Hl IH]; simpl.
  - now rewrite Nat.eqb_refl.
  - assert (Nat.eqb (Timer.handle x) (Timer.handle tm) = false) as ->
      by (apply Nat.eqb_neq; lia).
    exact IH.
Qed.

Lemma now_kickTarget c uuid roomId v s :
  Server.now (Routes.kickTarget c uuid roomId v s) = Server.now s.
Proof.
  unfold Routes.kickTarget.
  destruct (MemStorage.getUser _ _); [|reflexivity].
  destruct (find _ _); destruct (_ && _); unfold Routes.handOver;
    try destruct (sort _ _); reflexivity.
Qed.

(** A run of casts that leaves the vote active has not touched the clock,
    the timers or the timer of the vote. *)
Lemma castAll_active_frame voteId roomId casts s v' :
  Routes.getVote voteId (castAll voteId roomId casts s) = Some v' ->
  Server.timers (castAll voteId roomId casts s) = Server.timers s /\
  Server.now (castAll voteId roomId casts s) = Server.now s /\
  exists v,
    Routes.getVote voteId s = Some v /\ VoteData.timer v' = VoteData.timer v.
Proof.
  revert s. induction casts as [|[[c uuid] b] casts IH]; intros s Hv'.
  - simpl in *. repeat split. now exists v'.
  - cbn [castAll fold_left fst snd] in *.
    fold (castAll voteId roomId casts
            (Routes.cast_vote c uuid voteId b roomId s)) in *.
    destruct (IH _ Hv') as (Ht & Hn & v1 & Hv1 & Htimer).
    rewrite Ht, Hn.
    destruct (truthy (SocketData.userId (Conn.socketData c))) eqn:Hc.
    2:{ rewrite cast_vote_unjoined in * by exact Hc.
        repeat split. now exists v1. }
    destruct (Routes.getVote voteId s) as [v|] eqn:Hv.
    2:{ rewrite cast_vote_inactive in Hv1 by exact Hv. congruence. }
    rewrite (cast_vote_active c uuid voteId b roomId s v Hc Hv) in *.
    cbv zeta in *.
    destruct (Nat.leb _ _).
    + rewrite getVote_resolveVote in Hv1. discriminate.
    + repeat split. exists v. split; [reflexivity|].
      change (Routes.getVote voteId
                (Routes.mutateVote voteId
                   (Routes.set_votes
                      (map_set fst
                         (or_empty (SocketData.userId (Conn.socketData c)), b)
                         (VoteData.votes v))) s) = Some v1) in Hv1.
      rewrite getVote_mutateVote, Hv in Hv1 by reflexivity.
      injection Hv1 as <-. exact Htimer.
Qed.

(** X20. A vote does not outlive its timer. After [initiate_vote] from a
    joined connection against a stored user, and after any run of ballots
    that leaves the vote active, the timeout set when the vote started is
    still pending, due 30 seconds after the start; when it fires the vote is
    resolved on the ballots cast so far (passed iff yes outnumber no) and is
    no longer active. *)
Theorem vote_ends_with_its_timer c randomText roomId targetUserId type casts
    uuid s target v :
  truthy (SocketData.userId (Conn.socketData c)) = true ->
  truthy (SocketData.username (Conn.socketData c)) = true ->
  MemStorage.getUser targetUserId (Server.storage s) = Some target ->
  Forall (fun x => (Timer.handle x < Server.nextTimer s)%nat) (Server.timers s) ->
  let voteId := "vote-" ++ string_of_Z (Server.now s) ++ "-" ++ randomText in
  let started :=
    Routes.initiate_vote c randomText roomId targetUserId type s in
  let later := castAll voteId roomId casts started in
  Routes.getVote voteId later = Some v ->
  let resolved := Routes.fire uuid (Server.nextTimer s) later in
  Server.pending (Server.nextTimer s) later
  = Some (Timer.mk (Server.nextTimer s) (Server.now s + 30000)
            (VoteTimeout c voteId roomId) None) /\
  Routes.getVote voteId resolved = None /\
  Server.pending (Server.nextTimer s) resolved = None /\
  Server.now resolved = Server.now s + 30000 /\
  last (Server.outbox resolved) (ToRoom roomId (vote_resolved voteId false 0 0))
  = ToRoom roomId
      (vote_resolved voteId (Nat.ltb (Routes.noVotes v) (Routes.yesVotes v))
         (Routes.yesVotes v) (Routes.noVotes v)).
Proof.
  intros Hu Hn Htarget Hnext voteId started later Hv resolved.
  destruct (castAll_active_frame voteId roomId casts started v Hv)
    as (Ht & Hnow & v0 & Hv0 & Htimer).
  fold later in Ht, Hnow.
  set (tm := Timer.mk (Server.nextTimer s) (Server.now s + 30000)
               (VoteTimeout c voteId roomId) None).
  assert (Hstarted : Server.timers started = (Server.timers s ++ [tm])%list /\
                     Server.now started = Server.now s).
  { unfold started, Routes.initiate_vote. rewrite Hu, Hn, Htarget.
    split; reflexivity. }
  destruct Hstarted as [Htimers Hnow0].
  assert (Hpending : Server.pending (Server.nextTimer s) later = Some tm).
  { unfold Server.pending. rewrite Ht, Htimers.
    exact (pending_new_timer tm (Server.timers s) Hnext). }
  split; [exact Hpending|].
  unfold resolved, Routes.fire. rewrite Hpending.
  cbn [Timer.every Timer.action Timer.due tm Routes.run].
  set (s2 := Server.clearTimeout _ _).
  assert (Hv2 : Routes.getVote voteId s2 = Some v) by exact Hv.
  split; [apply getVote_resolveVote|].
  split; [|split].
  - unfold Server.pending. rewrite timers_resolveVote.
    unfold s2, Server.clearTimeout. cbn [Server.timers Server.with_timers].
    apply (find_filter_negb (fun x => Nat.eqb (Timer.handle x) (Server.nextTimer s))).
  - unfold Routes.resolveVote. rewrite Hv2.
    pose proof (now_kickTarget c uuid roomId v) as Hkeep.
    assert (Hs2 : Server.now s2 = Server.now s + 30000).
    { unfold s2. cbn [Server.now Server.clearTimeout Server.with_timers
                      Server.with_now].
      rewrite Hnow, Hnow0. lia. }
    destruct (Nat.ltb _ _); destruct (VoteData.type v);
      cbn [Server.now Routes.deleteVote Server.with_activeVotes Server.emit
           Server.with_outbox]; rewrite ?Hkeep; exact Hs2.
  - unfold Routes.resolveVote. rewrite Hv2.
    cbn [Server.outbox Routes.deleteVote Server.with_activeVotes Server.emit
         Server.with_outbox].
    apply last_last.
Qed.

(** ** The first stage of the inactivity supervision *)

Lemma timers_clearInactivityTimer_below userId s :
  Forall (fun x => (Timer.handle x < Server.nextTimer s)%nat) (Server.timers s) ->
  Forall (fun x => (Timer.handle x < Server.nextTimer s)%nat)
    (Server.timers (Routes.clearInactivityTimer userId s)) /\
  Server.nextTimer (Routes.clearInactivityTimer userId s) = Server.nextTimer s /\
  Server.now (Routes.clearInactivityTimer userId s) = Server.now s.
Proof.
  intros H. unfold Routes.clearInactivityTimer.
  destruct (find _ _) as [[u h]|]; [|now repeat split].
  cbn [Server.timers Server.nextTimer Server.now Server.with_inactivityTimers
       Server.clearTimeout Server.with_timers].
  repeat split. now apply Forall_filter_keep.
Qed.

Lemma filter_handle_absent (h : nat) (l : list Timer.t) :
  Forall (fun x => (Timer.handle x < h)%nat) l ->
  filter (fun x => negb (Nat.eqb (Timer.handle x) h)) l = l.
Proof.
  induction 1 as [|x l Hx Hl IH]; simpl; [reflexivity|].
  assert (Nat.eqb (Timer.handle x) h = false) as -> by (apply Nat.eqb_neq; lia).
  simpl. now rewrite IH.
Qed.

(** X21. The first stage of the supervision is cancelled by the user's next
    supervised action: [startInactivityTimer] leaves a warning pending for
    the user, due 120 seconds later, and a [clearInactivityTimer] for the
    same user removes it again, so that the pending timers are those left
    by clearing the user's timer in the state before, and no timer is
    recorded for the user. *)
Theorem first_stage_is_cancelled c roomId userId username s :
  Forall (fun x => (Timer.handle x < Server.nextTimer s)%nat) (Server.timers s) ->
  let armed := Routes.startInactivityTimer c roomId userId username s in
  let acted := Routes.clearInactivityTimer userId armed in
  Server.pending (Server.nextTimer s) armed
  = Some (Timer.mk (Server.nextTimer s) (Server.now s + 120000)
            (InactivityWarn c roomId userId username) None) /\
  find (fun e => fst e =s userId) (Server.inactivityTimers armed)
  = Some (userId, Server.nextTimer s) /\
  Server.pending (Server.nextTimer s) acted = None /\
  Server.timers acted
  = Server.timers (Routes.clearInactivityTimer userId s) /\
  find (fun e => fst e =s userId) (Server.inactivityTimers acted) = None.
Proof.
  intros Hnext armed acted.
  destruct (timers_clearInactivityTimer_below userId s Hnext)
    as (Hbelow & Hsame & Hnow).
  set (s1 := Routes.clearInactivityTimer userId s) in *.
  set (tm := Timer.mk (Server.nextTimer s) (Server.now s + 120000)
               (InactivityWarn c roomId userId username) None).
  assert (Htimers : Server.timers armed = (Server.timers s1 ++ [tm])%list).
  { unfold armed, Routes.startInactivityTimer. fold s1.
    cbn [Server.setTimeout Server.timers Server.with_inactivityTimers
         Server.with_timers].
    now rewrite Hsame, Hnow. }
  assert (Hentry : find (fun e => fst e =s userId) (Server.inactivityTimers armed)
                   = Some (userId, Server.nextTimer s)).
  { unfold armed, Routes.startInactivityTimer. fold s1.
    cbn [Server.setTimeout Server.inactivityTimers Server.with_inactivityTimers
         Server.with_timers].
    rewrite Hsame.
    exact (find_map_set_same fst (userId, Server.nextTimer s) _). }
  assert (Hacted : Server.timers acted = Server.timers s1 /\
                   Server.inactivityTimers acted
                   = filter (fun e => negb (fst e =s userId))
                       (Server.inactivityTimers armed)).
  { assert (Hdef : acted
                    = Server.with_inactivityTimers
                        (filter (fun e => negb (fst e =s userId))
                           (Server.inactivityTimers armed))
                        (Server.clearTimeout (Server.nextTimer s) armed)).
    { unfold acted, Routes.clearInactivityTimer. now rewrite Hentry. }
    rewrite Hdef.
    cbn [Server.timers Server.inactivityTimers Server.with_inactivityTimers
         Server.clearTimeout Server.with_timers].
    split; [|reflexivity].
    rewrite Htimers, filter_app. cbn [filter Timer.handle tm].
    rewrite Nat.eqb_refl. cbn [negb]. rewrite app_nil_r.
    now apply filter_handle_absent. }
  destruct Hacted as [Hat Hai].
  split; [|split; [exact Hentry|split; [|split; [exact Hat|]]]].
  - unfold Server.pending. rewrite Htimers.
    exact (pending_new_timer tm (Server.timers s1) Hbelow).
  - unfold Server.pending. rewrite Hat.
    destruct (find _ (Server.timers s1)) as [x|] eqn:E; [|reflexivity].
    apply find_some in E. destruct E as [Hin Hx].
    apply Nat.eqb_eq in Hx. rewrite Forall_forall in Hbelow.
    specialize (Hbelow x Hin). lia.
  - rewrite Hai.
    apply (find_filter_negb (fun e : string * nat => fst e =s userId)).
Qed.

(** ** Instances *)

(** X1, instance: the upload stored as [a.png]. *)
Lemma basename_of_fileUrl_witness :
  "a.png" <> "" /\ has_slash "a.png" = false /\
  basename (fileUrl "a.png") = "a.png".
Proof.
  assert (Hne : "a.png" <> "") by discriminate.
  assert (Hs : has_slash "a.png" = false) by reflexivity.
  split; [exact Hne|]. split; [exact Hs|].
  destruct (basename_of_fileUrl "a.png" Hne Hs) as [W _]. exact W.
Defined.

(** X4, instance: an MP4 upload. *)
Lemma accepted_uploads_are_labelled_witness :
  fileFilter "video/mp4" = true /\
  ((mediaTypeOf "video/mp4" = "image" /\
    String.prefix "image/" "video/mp4" = true) \/
   (mediaTypeOf "video/mp4" = "video" /\
    String.prefix "video/" "video/mp4" = true)).
Proof.
  assert (H : fileFilter "video/mp4" = true) by reflexivity.
  split; [exact H|]. exact (accepted_uploads_are_labelled "video/mp4" H).
Defined.

(** X5, instance: five uploads from one address within a minute. *)
Lemma rate_limit_allows_first_requests_witness :
  rateLimitConfigs "file_upload"
  = Some {| windowMs := 60 * 1000; maxRequests := 3 |} /\
  fst (checkAll "10.0.0.1" "file_upload"
         [("u1", 0); ("u2", 1000); ("u3", 2000); ("u4", 3000); ("u5", 60000)]
         [])
  = [true; true; true; false; false].
Proof.
  assert (Hc : rateLimitConfigs "file_upload"
               = Some {| windowMs := 60 * 1000; maxRequests := 3 |})
    by reflexivity.
  assert (Hnd : NoDup (map RateLimit.id [])) by constructor.
  assert (Hnone : RateLimits.getRateLimit "10.0.0.1" "file_upload" [] = None)
    by reflexivity.
  assert (Hin : Forall (fun call : string * Z =>
                          snd call
                          <= 0 + windowMs {| windowMs := 60 * 1000;
                                             maxRequests := 3 |})
                  [("u2", 1000); ("u3", 2000); ("u4", 3000); ("u5", 60000)])
    by (repeat constructor; cbn; lia).
  split; [exact Hc|].
  exact (rate_limit_allows_first_requests "10.0.0.1" "file_upload" _ [] "u1" 0
           _ Hc Hnd Hnone Hin).
Defined.

(** X6, instance: three rejoin checks within two milliseconds, long after
    the first record of the address. *)
Lemma rate_limit_never_limits_again_witness :
  RateLimits.getRateLimit "10.0.0.1" "rejoin"
    [RateLimit.mk "u1" "10.0.0.1" "rejoin" 1 0]
  = Some (RateLimit.mk "u1" "10.0.0.1" "rejoin" 1 0) /\
  fst (checkAll "10.0.0.1" "rejoin"
         [("u2", 200000); ("u3", 200001); ("u4", 200002)]
         [RateLimit.mk "u1" "10.0.0.1" "rejoin" 1 0])
  = [true; true; true].
Proof.
  assert (Hc : rateLimitConfigs "rejoin"
               = Some {| windowMs := 3 * 60 * 1000; maxRequests := 1 |})
    by reflexivity.
  assert (Hr : RateLimits.getRateLimit "10.0.0.1" "rejoin"
                 [RateLimit.mk "u1" "10.0.0.1" "rejoin" 1 0]
               = Some (RateLimit.mk "u1" "10.0.0.1" "rejoin" 1 0))
    by reflexivity.
  assert (Hlate : Forall
                    (fun call : string * Z =>
                       RateLimit.windowStart
                         (RateLimit.mk "u1" "10.0.0.1" "rejoin" 1 0)
                       + windowMs {| windowMs := 3 * 60 * 1000;
                                     maxRequests := 1 |} < snd call /\
                       ~ In (fst call)
                           (map RateLimit.id
                              [RateLimit.mk "u1" "10.0.0.1" "rejoin" 1 0]))
                    [("u2", 200000); ("u3", 200001); ("u4", 200002)]).
  { repeat constructor; cbn; try lia; intros [H|[]]; discriminate. }
  split; [exact Hr|].
  destruct (rate_limit_never_limits_again "10.0.0.1" "rejoin" _ _ _ _
              Hc Hr Hlate) as [W _].
  exact W.
Defined.

(** X7, instance: a second rejoin check 1.5 seconds after the first. *)
Lemma rate_limit_refusal_witness :
  allowed (fst (checkRateLimit "u2" 1500 "10.0.0.1" "rejoin"
                  [RateLimit.mk "u1" "10.0.0.1" "rejoin" 1 0])) = false /\
  snd (checkRateLimit "u2" 1500 "10.0.0.1" "rejoin"
         [RateLimit.mk "u1" "10.0.0.1" "rejoin" 1 0])
  = [RateLimit.mk "u1" "10.0.0.1" "rejoin" 1 0].
Proof.
  assert (H : allowed (fst (checkRateLimit "u2" 1500 "10.0.0.1" "rejoin"
                              [RateLimit.mk "u1" "10.0.0.1" "rejoin" 1 0]))
              = false) by reflexivity.
  split; [exact H|].
  destruct (rate_limit_refusal "u2" 1500 "10.0.0.1" "rejoin" _ H) as [W _].
  exact W.
Defined.

(** X11, instance: alice uses her skip, bobby disconnects and his grace
    period runs out. *)
Lemma stored_users_only_lose_witness :
  MemStorage.getUser "A"
    (storage
       (quietRun
          [RoutesRest.Game alice "R" UseSkip; RoutesRest.Disconnect bobby;
           RoutesRest.Callback "K" (Reconnect bobby)] three))
  = Some (User.mk "A" "alice" (Some "R") true true 0 10 (Some "1")) /\
  exists earlier,
    MemStorage.getUser "A" (storage three) = Some earlier /\
    sameUserLater earlier
      (User.mk "A" "alice" (Some "R") true true 0 10 (Some "1")).
Proof.
  assert (H : MemStorage.getUser "A"
                (storage
                   (quietRun
                      [RoutesRest.Game alice "R" UseSkip;
                       RoutesRest.Disconnect bobby;
                       RoutesRest.Callback "K" (Reconnect bobby)] three))
              = Some (User.mk "A" "alice" (Some "R") true true 0 10 (Some "1")))
    by (vm_compute; reflexivity).
  split; [exact H|].
  exact (stored_users_only_lose _ three "A" _ H).
Defined.

(** X13, instance: bobby joins room [R] after alice. *)
Lemma join_room_admits_witness :
  MemStorage.getRoom "R" (storage one)
  = Some (Room.mk "R" "ABCD-EFGH-JKLM-NPQR" (Some "A") 1 0 10 false) /\
  members "R" (snd (join_room (fresh "2") "B" "m2" "R" "bobby" one))
  = (members "R" one ++ ["B"])%list.
Proof.
  assert (Hroom : MemStorage.getRoom "R" (storage one)
                  = Some (Room.mk "R" "ABCD-EFGH-JKLM-NPQR" (Some "A") 1 0 10
                            false)) by (vm_compute; reflexivity).
  assert (Hids : map User.id (MemStorage.users (storage one)) = ["A"])
    by (vm_compute; reflexivity).
  assert (Hfresh : ~ In "B" (map User.id (MemStorage.users (storage one)))).
  { rewrite Hids. intros [H|[]]. discriminate. }
  split; [exact Hroom|].
  destruct (join_room_admits (fresh "2") "B" "m2" "R" "bobby" one _ Hroom
              eq_refl Hfresh) as (_ & _ & W & _).
  exact W.
Defined.

(** X14, instance: bobby's join makes the second member of the waiting
    room. *)
Lemma join_room_two_player_rule_witness :
  MemStorage.getGameState "R" (storage one)
  = Some (GameState.mk "G" "R" None None waiting None None 0) /\
  MemStorage.getGameState "R"
    (storage (snd (join_room (fresh "2") "B" "m2" "R" "bobby" one)))
  = Some (GameState.mk "G" "R" (Some "A") None choosing None None 10).
Proof.
  assert (Hroom : MemStorage.getRoom "R" (storage one)
                  = Some (Room.mk "R" "ABCD-EFGH-JKLM-NPQR" (Some "A") 1 0 10
                            false)) by (vm_compute; reflexivity).
  assert (Hids : map User.id (MemStorage.users (storage one)) = ["A"])
    by (vm_compute; reflexivity).
  assert (Hfresh : ~ In "B" (map User.id (MemStorage.users (storage one)))).
  { rewrite Hids. intros [H|[]]. discriminate. }
  assert (Hg : MemStorage.getGameState "R" (storage one)
               = Some (GameState.mk "G" "R" None None waiting None None 0))
    by (vm_compute; reflexivity).
  split; [exact Hg|].
  pose proof (join_room_two_player_rule (fresh "2") "B" "m2" "R" "bobby" one _
                Hroom eq_refl Hfresh) as W.
  cbv zeta in W. rewrite W. vm_compute. reflexivity.
Defined.

(** X15, instance: alice writes to room [R]. *)
Lemma send_message_postpones_reaping_witness :
  map Room.id (MemStorage.rooms (storage two)) = ["R"] /\
  map Message.id (MemStorage.messages (storage two)) = ["m1"; "m2"] /\
  MemStorage.messages
    (storage (RoutesRest.send_message alice "x1" "R" (Some "hi") None None two))
  = (MemStorage.messages (storage two)
     ++ [Message.mk "x1" "R" (Some "A") "alice" (Some "hi") None None 20])%list.
Proof.
  assert (Hrooms : map Room.id (MemStorage.rooms (storage two)) = ["R"])
    by (vm_compute; reflexivity).
  assert (Hmsgs : map Message.id (MemStorage.messages (storage two))
                  = ["m1"; "m2"]) by (vm_compute; reflexivity).
  assert (Hnd : NoDup (map Room.id (MemStorage.rooms (storage two)))).
  { rewrite Hrooms. repeat constructor. intros []. }
  assert (Hfresh : ~ In "x1" (map Message.id (MemStorage.messages (storage two)))).
  { rewrite Hmsgs. intros [H|[H|[]]]; discriminate. }
  split; [exact Hrooms|]. split; [exact Hmsgs|].
  destruct (send_message_postpones_reaping alice "x1" "R" (Some "hi") None None
              two eq_refl eq_refl eq_refl Hnd Hfresh) as (W & _).
  exact W.
Defined.

(** X16, instance: the turn passes from alice to bobby in the room of
    three. *)
Lemma next_turn_round_robin_witness :
  MemStorage.getGameState "R" (storage three)
  = Some (GameState.mk "G" "R" (Some "A") None choosing None None 20) /\
  map User.id (onlineUsers "R" three) = ["A"; "B"; "C"] /\
  exists next,
    nth_error (onlineUsers "R" three) 1 = Some next /\
    MemStorage.getGameState "R" (storage (next_turn "R" three))
    = Some (GameState.mk "G" "R" (Some (User.id next)) None waiting None None
              30).
Proof.
  assert (Hg : MemStorage.getGameState "R" (storage three)
               = Some (GameState.mk "G" "R" (Some "A") None choosing None None
                         20)) by (vm_compute; reflexivity).
  assert (Hids : map User.id (MemStorage.users (storage three))
                 = ["A"; "B"; "C"]) by (vm_compute; reflexivity).
  assert (Hon : map User.id (onlineUsers "R" three) = ["A"; "B"; "C"])
    by (vm_compute; reflexivity).
  assert (Hnd : NoDup (map User.id (MemStorage.users (storage three)))).
  { rewrite Hids. repeat constructor; simpl; intuition discriminate. }
  assert (Hn : (2 <= List.length (onlineUsers "R" three))%nat)
    by (vm_compute; repeat constructor).
  assert (Hfirst : nth_error (onlineUsers "R" three) 0
                   = Some (User.mk "A" "alice" (Some "R") true true 1 10
                             (Some "1"))) by (vm_compute; reflexivity).
  split; [exact Hg|]. split; [exact Hon|].
  destruct (next_turn_round_robin "R" three _ Hg Hnd Hn)
    as (next & Hstate & Hpos & _).
  exists next. split; [exact (Hpos 0%nat _ Hfirst eq_refl)|exact Hstate].
Defined.

(** X17, instance: the grace period of alice, host of the room of three,
    runs out. *)
Lemma grace_expiry_hands_host_to_earliest_online_witness :
  MemStorage.getUser "A" (storage three)
  = Some (User.mk "A" "alice" (Some "R") true true 1 10 (Some "1")) /\
  map User.id (onlineUsers "R" three) = ["A"; "B"; "C"] /\
  exists heir,
    In heir
      (filter (fun u => negb (User.id u =s "A")) (onlineUsers "R" three)) /\
    MemStorage.getRoom "R" (storage (reconnectTimeout alice three))
    = option_map
        (fun r => Room.mk (Room.id r) (Room.roomKey r) (Some (User.id heir))
                    (Room.maxSkips r) (Room.createdAt r) (Room.lastActivity r)
                    (Room.isExpired r))
        (MemStorage.getRoom "R" (storage three)).
Proof.
  assert (Hu : MemStorage.getUser "A" (storage three)
               = Some (User.mk "A" "alice" (Some "R") true true 1 10 (Some "1")))
    by (vm_compute; reflexivity).
  assert (Hids : map User.id (MemStorage.users (storage three))
                 = ["A"; "B"; "C"]) by (vm_compute; reflexivity).
  assert (Hon : map User.id (onlineUsers "R" three) = ["A"; "B"; "C"])
    by (vm_compute; reflexivity).
  assert (Hnd : NoDup (map User.id (MemStorage.users (storage three)))).
  { rewrite Hids. repeat constructor; simpl; intuition discriminate. }
  assert (Hothers : filter (fun u => negb (User.id u =s "A"))
                      (onlineUsers "R" three) <> [])
    by (vm_compute; discriminate).
  assert (HA : "A" <> "") by discriminate.
  assert (HR : "R" <> "") by discriminate.
  split; [exact Hu|]. split; [exact Hon|].
  destruct (grace_expiry_hands_host_to_earliest_online alice "A" "R" _ three
              eq_refl HA eq_refl HR Hnd Hu eq_refl eq_refl Hothers)
    as (heir & Hin & _ & _ & _ & Hroom & _).
  exists heir. split; [exact Hin|exact Hroom].
Defined.

(** X18, instance: the sweep 2000 seconds after alice joined the room
    reaps it; when alice has sent a message whose media URL is
    [/uploads/..], the sweep throws at the room and leaves it. *)
Lemma sweep_reaps_exactly_the_inactive_rooms_witness :
  map Room.id (MemStorage.rooms (storage (with_now 2000000 one))) = ["R"] /\
  MemStorage.getInactiveRooms 2000000 30
    (storage (cleanup (with_now 2000000 one))) = [] /\
  map Room.id
    (MemStorage.getInactiveRooms 2000000 30
       (storage
          (cleanup
             (with_now 2000000
                (RoutesRest.send_message alice "x1" "R" None
                   (Some "/uploads/..") (Some "image") one))))) = ["R"].
Proof.
  assert (Hrooms : map Room.id
                     (MemStorage.rooms (storage (with_now 2000000 one)))
                   = ["R"]) by (vm_compute; reflexivity).
  assert (Hnd : NoDup
                  (map Room.id
                     (MemStorage.rooms (storage (with_now 2000000 one))))).
  { rewrite Hrooms. repeat constructor. intros []. }
  assert (Hrooms' : map Room.id
                      (MemStorage.rooms
                         (storage
                            (with_now 2000000
                               (RoutesRest.send_message alice "x1" "R" None
                                  (Some "/uploads/..") (Some "image") one))))
                    = ["R"]) by (vm_compute; reflexivity).
  assert (Hnd' : NoDup
                   (map Room.id
                      (MemStorage.rooms
                         (storage
                            (with_now 2000000
                               (RoutesRest.send_message alice "x1" "R" None
                                  (Some "/uploads/..") (Some "image") one)))))).
  { rewrite Hrooms'. repeat constructor. intros []. }
  split; [exact Hrooms|].
  destruct (sweep_reaps_exactly_the_inactive_rooms (with_now 2000000 one) Hnd)
    as (_ & _ & _ & W & _).
  destruct (sweep_reaps_exactly_the_inactive_rooms _ Hnd')
    as (_ & _ & _ & W' & _).
  split.
  - change (now (with_now 2000000 one)) with 2000000 in W.
    rewrite W. vm_compute. reflexivity.
  - match type of W' with
    | MemStorage.getInactiveRooms ?n _ _ = _ => change n with 2000000 in W'
    end.
    rewrite W'. vm_compute. reflexivity.
Defined.

(** X20, instance: alice starts a kick vote against carol, bobby votes
    yes, and the timer fires. *)
Lemma vote_ends_with_its_timer_witness :
  getVote "vote-30-0.5"
    (castAll "vote-30-0.5" "R" [(bobby, "K1", true)]
       (initiate_vote alice "0.5" "R" "C" kick three))
  = Some (VoteData.mk "vote-30-0.5" "C" "carol" "A" "alice" kick
            [("B", true)] (Some 1%nat)) /\
  getVote "vote-30-0.5"
    (fire "K1" 1
       (castAll "vote-30-0.5" "R" [(bobby, "K1", true)]
          (initiate_vote alice "0.5" "R" "C" kick three))) = None.
Proof.
  assert (Ht : MemStorage.getUser "C" (storage three)
               = Some (User.mk "C" "carol" (Some "R") false true 1 30 (Some "3")))
    by (vm_compute; reflexivity).
  assert (Hnext : Forall (fun x => (Timer.handle x < nextTimer three)%nat)
                    (timers three)) by (vm_compute; repeat constructor).
  assert (Hv : getVote "vote-30-0.5"
                 (castAll "vote-30-0.5" "R" [(bobby, "K1", true)]
                    (initiate_vote alice "0.5" "R" "C" kick three))
               = Some (VoteData.mk "vote-30-0.5" "C" "carol" "A" "alice" kick
                         [("B", true)] (Some 1%nat)))
    by (vm_compute; reflexivity).
  split; [exact Hv|].
  destruct (vote_ends_with_its_timer alice "0.5" "R" "C" kick
              [(bobby, "K1", true)] "K1" three _ _ eq_refl eq_refl Ht Hnext Hv)
    as (_ & W & _).
  exact W.
Defined.

(** X21, instance: alice is supervised in the room of two and acts. *)
Lemma first_stage_is_cancelled_witness :
  pending 1 (startInactivityTimer bobby "R" "A" "alice" two)
  = Some (Timer.mk 1 (20 + 120000) (InactivityWarn bobby "R" "A" "alice") None) /\
  pending 1
    (clearInactivityTimer "A" (startInactivityTimer bobby "R" "A" "alice" two))
  = None.
Proof.
  assert (Hnext : Forall (fun x => (Timer.handle x < nextTimer two)%nat)
                    (timers two)) by (vm_compute; repeat constructor).
  destruct (first_stage_is_cancelled bobby "R" "A" "alice" two Hnext)
    as (W1 & _ & W2 & _).
  split; [exact W1|exact W2].
Defined.
